(** * metratec rfid reader (MicroPython SDK): command framing, response
      collection, tag decoding and the EPC rewrite workflow

    A shallow embedding of [metratec_rfid/reader.py].  Python strings are
    [string], Python integers are [Z], a [dict] with string keys is a
    [gmap string _], exceptions are an explicit [outcome], and the serial
    line is a script of [readline] results threaded through every command. *)

From Stdlib Require Import ZArith Lia List Ascii String DecimalString DecimalPos.
From stdpp Require Import base strings gmap list.

Open Scope string_scope.
Open Scope Z_scope.

(** ** Python built-ins used by the driver *)

Module Py.

(** [len(s)] *)
Definition len (s : string) : Z := Z.of_nat (String.length s).

(** Normalisation of one slice bound: a negative bound counts from the end,
    and every bound is clamped to [0, len]. *)
Definition clamp_index (n i : Z) : Z :=
  if i <? 0 then Z.max 0 (i + n) else Z.min i n.

(** [s[start:stop]], a missing bound is [None]. *)
Definition slice (s : string) (start stop : option Z) : string :=
  let n := len s in
  let lo := match start with None => 0 | Some i => clamp_index n i end in
  let hi := match stop with None => n | Some j => clamp_index n j end in
  substring (Z.to_nat lo) (Z.to_nat (hi - lo)) s.

(** [s[i]]; [None] is Python's IndexError. *)
Definition getitem (s : string) (i : Z) : option ascii :=
  let n := len s in
  let k := if i <? 0 then i + n else i in
  if (0 <=? k) && (k <? n) then String.get (Z.to_nat k) s else None.

(** [l[i]] on a list; [None] is Python's IndexError. *)
Definition nth_item {A} (l : list A) (i : Z) : option A :=
  let n := Z.of_nat (List.length l) in
  let k := if i <? 0 then i + n else i in
  if (0 <=? k) && (k <? n) then l !! Z.to_nat k else None.

(** [s.split(c)] for a one-character separator. *)
Fixpoint split (c : ascii) (s : string) : list string :=
  match s with
  | EmptyString => [EmptyString]
  | String a s' =>
      if Ascii.eqb a c then EmptyString :: split c s'
      else match split c s' with
           | h :: t => String a h :: t
           | [] => [String a EmptyString]
           end
  end.

(** [sep.join(l)] *)
Fixpoint join (sep : string) (l : list string) : string :=
  match l with
  | [] => EmptyString
  | [x] => x
  | x :: rest => x ++ sep ++ join sep rest
  end.

(** [needle in hay] on strings. *)
Fixpoint contains (needle hay : string) : bool :=
  String.prefix needle hay ||
  match hay with
  | EmptyString => false
  | String _ hay' => contains needle hay'
  end.

(** [c in s] for one character. *)
Fixpoint mem (c : ascii) (s : string) : bool :=
  match s with
  | EmptyString => false
  | String a s' => Ascii.eqb a c || mem c s'
  end.

(** [s.rindex(c)] for a one-character needle; [None] is ValueError. *)
Fixpoint rindex (c : ascii) (s : string) : option nat :=
  match s with
  | EmptyString => None
  | String a s' =>
      match rindex c s' with
      | Some i => Some (S i)
      | None => if Ascii.eqb a c then Some 0%nat else None
      end
  end.

(** [str(n)] for an integer. *)
Definition str_of_int (n : Z) : string := NilZero.string_of_int (Z.to_int n).

End Py.

(** ** Values, exceptions and outcomes *)

(** The dynamically typed values the driver stores in a tag record or passes
    as command parameters. *)
Inductive value :=
| VStr (s : string)
| VInt (n : Z)
| VBool (b : bool).

#[global] Instance value_eq_dec : EqDecision value.
Proof. solve_decision. Defined.

(** [str(x)] *)
Definition py_str (x : value) : string :=
  match x with
  | VStr s => s
  | VInt n => Py.str_of_int n
  | VBool true => "True"
  | VBool false => "False"
  end.

(** [bool(x)] *)
Definition truthy (x : value) : bool :=
  match x with
  | VStr s => negb (String.eqb s "")
  | VInt n => negb (n =? 0)
  | VBool b => b
  end.

Inductive exn :=
| RfidReaderException (msg : string)
| IndexError
| ValueError
| KeyError.

(** What a call does: it returns, it raises, the scripted serial line ran
    out while the call was still polling ([Stalled]), or it met text whose
    numeric conversion this development does not describe ([Unmodelled]). *)
Inductive outcome (A : Type) :=
| Returns (a : A)
| Raises (e : exn)
| Stalled
| Unmodelled.
Arguments Returns {A} a.
Arguments Raises {A} e.
Arguments Stalled {A}.
Arguments Unmodelled {A}.

Definition obind {A B} (m : outcome A) (k : A -> outcome B) : outcome B :=
  match m with
  | Returns a => k a
  | Raises e => Raises e
  | Stalled => Stalled
  | Unmodelled => Unmodelled
  end.

(** What a call returned, seen through [f]. *)
Definition outcome_map {A B} (f : A -> B) (m : outcome A) : outcome B :=
  obind m (fun a => Returns (f a)).

(** An index or key lookup that raises when it finds nothing. *)
Definition or_raise {A} (e : exn) (o : option A) : outcome A :=
  match o with
  | Some a => Returns a
  | None => Raises e
  end.

(** ** Command framer *)

(** The parameters that are not [None], in order. *)
Fixpoint not_none {A} (parameters : list (option A)) : list A :=
  match parameters with
  | [] => []
  | Some x :: rest => x :: not_none rest
  | None :: rest => not_none rest
  end.

(** [RfidReaderGen2._prepare_command] *)
Definition _prepare_command (command : string) (parameters : list (option value)) : string :=
  match parameters with
  | [] => command
  | _ => command ++ "=" ++ Py.join "," (map py_str (not_none parameters))
  end.

(** ** Tag records *)

(** [class Tag(dict)]: a sparse record, keyed by field name. *)
Abbreviation tag := (gmap string value).

Module Tag.

(** [dict.get(key, default)] *)
Definition get (self : tag) (key : string) (default : value) : value :=
  match self !! key with
  | Some v => v
  | None => default
  end.

(** [set_value]: [None] removes the key. *)
Definition set_value (key : string) (v : option value) (self : tag) : tag :=
  match v with
  | Some x => <[key:=x]> self
  | None => delete key self
  end.

Definition get_tid (self : tag) : value := get self "tid" (VStr "").
Definition get_id (self : tag) : value := get_tid self.
Definition set_tid (tid : string) : tag -> tag := set_value "tid" (Some (VStr tid)).
Definition get_timestamp (self : tag) : value := get self "timestamp" (VInt (-1)).
Definition set_timestamp (timestamp : Z) : tag -> tag :=
  set_value "timestamp" (Some (VInt timestamp)).
Definition get_data (self : tag) : value := get self "data" (VStr "").
Definition set_data (data : string) : tag -> tag := set_value "data" (Some (VStr data)).
Definition get_antenna (self : tag) : value := get self "antenna" (VInt 0).
Definition set_antenna (antenna : Z) : tag -> tag := set_value "antenna" (Some (VInt antenna)).
Definition get_seen_count (self : tag) : value :=
  match self !! "seen_count" with
  | Some count => if truthy count then count else VInt 0
  | None => VInt 0
  end.
Definition set_seen_count (seen_count : Z) : tag -> tag :=
  set_value "seen_count" (Some (VInt seen_count)).
Definition has_error (self : tag) : value := get self "has_error" (VBool false).
Definition get_error_message (self : tag) : value := get self "error_message" (VStr "").

(** [set_error_message]: the flag follows [bool(message)]. *)
Definition set_error_message (message : string) (self : tag) : tag :=
  set_value "has_error" (Some (VBool (truthy (VStr message))))
    (set_value "error_message" (Some (VStr message)) self).

(** [bool(self)] of a dict: non-empty. *)
Definition nonempty (self : tag) : bool := negb (bool_decide (self = ∅)).

End Tag.

Module UhfTag.

Definition get_epc (self : tag) : value := Tag.get self "epc" (VStr "").
Definition get_id (self : tag) : value :=
  let identifier := get_epc self in
  if truthy identifier then identifier else VStr "unknown".
Definition set_epc (epc : string) : tag -> tag := Tag.set_value "epc" (Some (VStr epc)).
Definition get_rssi (self : tag) : value := Tag.get self "rssi" (VInt 0).
Definition set_rssi (rssi : Z) : tag -> tag := Tag.set_value "rssi" (Some (VInt rssi)).

End UhfTag.

(** ** Numeric conversions *)

(** Characters that neither [int()] nor [float()] strips or skips: printable
    ASCII other than the space and the underscore. *)
Definition plain_char (a : ascii) : bool :=
  let n := nat_of_ascii a in
  (33 <=? n)%nat && (n <=? 126)%nat && negb (Ascii.eqb a "_").

Fixpoint all_chars (p : ascii -> bool) (s : string) : bool :=
  match s with
  | EmptyString => true
  | String a s' => p a && all_chars p s'
  end.

(** The value of a non-empty run of decimal digits. *)
Definition digits (s : string) : option Z :=
  match s with
  | EmptyString => None
  | _ => option_map Z.of_uint (DecimalString.NilEmpty.uint_of_string s)
  end.

(** [int(s)]: an optional sign and decimal digits.  Other text made of plain
    characters is a ValueError; text with blanks, underscores or bytes
    outside ASCII is left undescribed. *)
Definition int10 (s : string) : outcome Z :=
  let signed :=
    match s with
    | String "-" body => option_map Z.opp (digits body)
    | String "+" body => digits body
    | _ => digits s
    end in
  match signed with
  | Some n => Returns n
  | None => if all_chars plain_char s then Raises ValueError else Unmodelled
  end.

Definition hex_digit (a : ascii) : option Z :=
  let n := Z.of_nat (nat_of_ascii a) in
  if (48 <=? n) && (n <=? 57) then Some (n - 48)
  else if (65 <=? n) && (n <=? 70) then Some (n - 55)
  else if (97 <=? n) && (n <=? 102) then Some (n - 87)
  else None.

Fixpoint hex_value (acc : Z) (s : string) : option Z :=
  match s with
  | EmptyString => Some acc
  | String a s' =>
      match hex_digit a with
      | Some d => hex_value (16 * acc + d) s'
      | None => None
      end
  end.

(** [int(s, 16)] on bare hexadecimal digits.  The empty string is a
    ValueError; signed, prefixed or otherwise decorated text is left
    undescribed. *)
Definition int16 (s : string) : outcome Z :=
  match s with
  | EmptyString => Raises ValueError
  | _ => match hex_value 0 s with
         | Some n => Returns n
         | None => Unmodelled
         end
  end.

Definition upper_hex_char (d : Z) : ascii :=
  ascii_of_nat (Z.to_nat (if d <? 10 then 48 + d else 55 + d)).

Fixpoint hex_upper_go (fuel : nat) (n : Z) (acc : string) : string :=
  match fuel with
  | O => acc
  | S fuel' =>
      let acc' := String (upper_hex_char (n mod 16)) acc in
      if n / 16 =? 0 then acc' else hex_upper_go fuel' (n / 16) acc'
  end.

Fixpoint zeros (k : nat) : string :=
  match k with
  | O => EmptyString
  | S k' => String "0" (zeros k')
  end.

(** [f"{n:04X}"] for a non-negative [n]. *)
Definition format_04X (n : Z) : string :=
  let body := hex_upper_go (S (Z.to_nat (Z.log2 n))) n EmptyString in
  zeros (4 - String.length body) ++ body.

(** ** The reader and its serial line *)

(** One call of [uart.readline()]: it takes [elapsed] milliseconds and
    yields bytes or [None]. *)
Inductive event := Rx (elapsed : Z) (data : option string).

(** Mirror of the inventory flags, [_config['inventory']]. *)
Record inventory_settings := {
  only_new_tag : bool;
  with_rssi : bool;
  with_tid : bool;
}.

(** [self._config] *)
Record config := {
  inventory : option inventory_settings;
  antenna : option Z;
  error : option (gmap string string);
}.

(** [ExpectedReaderInfo]: the minimum firmware, a float written with two
    fraction digits at most, is kept as its number of hundredths. *)
Record expected_reader := {
  firmware_name : string;
  hardware_name : string;
  min_firmware : Z;
}.

Record reader := {
  written : list string;          (* every [uart.write], oldest first *)
  incoming : list event;          (* what [uart.readline] will yield *)
  ticks : Z;                      (* [ticks_ms()] *)
  clock : Z;                      (* [time()] *)
  _config : config;
  _expected_reader : option expected_reader;
}.

Definition CR : string := String (ascii_of_nat 13) EmptyString.
Definition LF : string := String (ascii_of_nat 10) EmptyString.

(** ** Response collector *)

(** The detail reported on an [ERROR] line: the text after the last '<' up
    to the last '>', or the whole body when either search fails. *)
Definition error_detail (response : string) : string :=
  match Py.rindex "<" response with
  | None => response
  | Some i =>
      match Py.rindex ">" response with
      | None => response
      | Some j => Py.slice response (Some (Z.of_nat i + 1)) (Some (Z.of_nat j))
      end
  end.

(** What follows the loop once the deadline has passed. *)
Definition timeout_error (send_command response : string) : exn :=
  if String.eqb response "" then
    RfidReaderException ("no reader response for command " ++ send_command)
  else
    RfidReaderException ("wrong response for command " ++ send_command ++ " - " ++ response).

(** What one pass through the body of the [while True] loop decides. *)
Inductive loop_step :=
| Continue (response : string) (response_started : bool)
| Return (lines : list string)
| Raise (e : exn)
| Break.

(** The body of the loop of [_send_command], for one [readline] result read
    at time [now].  The bytes on the line are ASCII, so [decode()] leaves
    them as they are. *)
Definition loop_body (send_command : string) (max_time : Z)
    (response : string) (response_started : bool)
    (now : Z) (data : option string) : loop_step :=
  match data with
  | None =>
      if max_time <=? now then Break else Continue response response_started
  | Some raw =>
      let resp := Py.slice raw None (Some (-2)) in
      if String.eqb resp "" then Continue response response_started
      else if response_started then
        if String.eqb resp "OK" then
          Return (if String.eqb response "" then [""]
                  else Py.split (ascii_of_nat 13) response)
        else if String.eqb resp "ERROR" then
          Raise (RfidReaderException (error_detail response))
        else Continue resp response_started
      else if Py.contains send_command resp then Continue response true
      else Continue response response_started
  end.

(** The loop of [_send_command], run over the scripted line.  It hands back
    the clock and the events it did not consume. *)
Fixpoint poll (send_command : string) (max_time : Z)
    (response : string) (response_started : bool)
    (now : Z) (rx : list event) : outcome (list string) * (Z * list event) :=
  match rx with
  | [] => (Stalled, (now, []))
  | Rx elapsed data :: rx' =>
      let now' := now + elapsed in
      match loop_body send_command max_time response response_started now' data with
      | Continue response' started' =>
          poll send_command max_time response' started' now' rx'
      | Return lines => (Returns lines, (now', rx'))
      | Raise e => (Raises e, (now', rx'))
      | Break => (Raises (timeout_error send_command response), (now', rx'))
      end
  end.

(** The loop variables after the events [pre], when each of them sent the
    loop round again; [None] when the loop left before the end of [pre]. *)
Fixpoint still_polling (send_command : string) (max_time : Z)
    (response : string) (response_started : bool)
    (now : Z) (pre : list event) : option (string * bool * Z) :=
  match pre with
  | [] => Some (response, response_started, now)
  | Rx elapsed data :: pre' =>
      let now' := now + elapsed in
      match loop_body send_command max_time response response_started now' data with
      | Continue response' started' =>
          still_polling send_command max_time response' started' now' pre'
      | _ => None
      end
  end.

(** [RfidReaderGen2._send_command] *)
Definition _send_command (command : string) (parameters : list (option value))
    (timeout : Z) (command_response : bool) (self : reader)
    : outcome (list string) * reader :=
  let send_command := _prepare_command command parameters in
  let max_time := ticks self + timeout in
  let '(res, (now, rx)) :=
    poll send_command max_time "" (negb command_response) (ticks self) (incoming self) in
  (res, {| written := written self ++ [send_command ++ CR];
           incoming := rx; ticks := now; clock := clock self;
           _config := _config self; _expected_reader := _expected_reader self |}).

(** ** Sequencing reader methods *)

(** A method of the reader: it may use the serial line and the mirror. *)
Definition io (A : Type) : Type := reader -> outcome A * reader.

Definition io_ret {A} (a : A) : io A := fun self => (Returns a, self).

Definition io_lift {A} (m : outcome A) : io A := fun self => (m, self).

Definition io_bind {A B} (m : io A) (k : A -> io B) : io B :=
  fun self =>
    match m self with
    | (Returns a, self') => k a self'
    | (Raises e, self') => (Raises e, self')
    | (Stalled, self') => (Stalled, self')
    | (Unmodelled, self') => (Unmodelled, self')
    end.

Notation "'let*' x ':=' m 'in' k" := (io_bind m (fun x => k))
  (at level 10, x name, m at level 100, k at level 200).
Notation "'let+' x ':=' m 'in' k" := (obind m (fun x => k))
  (at level 10, x name, m at level 100, k at level 200).

(** [except IndexError as err: raise RfidReaderException(msg) from err] *)
Definition except_IndexError {A} (msg : string) (m : outcome A) : outcome A :=
  match m with
  | Raises IndexError => Raises (RfidReaderException msg)
  | other => other
  end.

(** ** Identity and compatibility check *)

(** The dict returned by [get_reader_info]. *)
Record reader_info := {
  firmware : string;
  firmware_version : string;
  hardware : string;
  hardware_version : string;
  serial_number : string;
}.

(** [float(f"{v[0:2]}.{v[2:4]}")] in hundredths, for a version made of
    digits.  The bare "." of an empty version is a ValueError; versions
    with other characters are left undescribed. *)
Definition derived_firmware_version (v : string) : outcome Z :=
  let major := Py.slice v (Some 0) (Some 2) in
  let minor := Py.slice v (Some 2) (Some 4) in
  match DecimalString.NilEmpty.uint_of_string major,
        DecimalString.NilEmpty.uint_of_string minor with
  | Some a, Some b =>
      if String.eqb major "" && String.eqb minor "" then Raises ValueError
      else Returns (100 * Z.of_uint a
                    + (if (String.length minor =? 1)%nat then 10 * Z.of_uint b
                       else Z.of_uint b))
  | _, _ => Unmodelled
  end.

Section Identity.

(** How the runtime prints a list of strings and a float (given in
    hundredths) inside an f-string. *)
Variable repr_lines : list string -> string.
Variable repr_float : Z -> string.

(** The body of the [try] block of [get_reader_info]. *)
Definition check_reader_info (expected : option expected_reader)
    (response : list string) : outcome reader_info :=
  let+ line0 := or_raise IndexError (Py.nth_item response 0) in
  let firmware := Py.split " " line0 in
  let+ line1 := or_raise IndexError (Py.nth_item response 1) in
  let hardware := Py.split " " line1 in
  let+ line2 := or_raise IndexError (Py.nth_item response 2) in
  let serial := Py.split " " line2 in
  let+ fw := or_raise IndexError (Py.nth_item firmware 1) in
  let+ fwv := or_raise IndexError (Py.nth_item firmware 2) in
  let+ hw := or_raise IndexError (Py.nth_item hardware 1) in
  let+ hwv := or_raise IndexError (Py.nth_item hardware 2) in
  let+ sn := or_raise IndexError (Py.nth_item serial 1) in
  let info := {| firmware := fw; firmware_version := fwv; hardware := hw;
                 hardware_version := hwv; serial_number := sn |} in
  let expected_hardware :=
    match expected with Some e => hardware_name e | None => "unknown" end in
  let expected_firmware :=
    match expected with Some e => firmware_name e | None => "unknown" end in
  if negb (String.eqb hw expected_hardware) then
    Raises (RfidReaderException
      ("Wrong reader type! " ++ expected_hardware ++ " expected, " ++ hw ++ " found"))
  else if negb (String.eqb fw expected_firmware) then
    Raises (RfidReaderException
      ("Wrong reader firmware! " ++ expected_firmware ++ " expected" ++
       ", " ++ fw ++ " found"))
  else
    let+ version := derived_firmware_version fwv in
    if version >? match expected with Some e => min_firmware e | None => 100 end then
      Raises (RfidReaderException
        ("Reader firmware too low, please update! " ++
         "Minimum " ++ match expected with
                       | Some e => repr_float (min_firmware e)
                       | None => "None"
                       end ++ " expected, " ++ repr_float version ++ " found"))
    else Returns info.

(** [RfidReaderGen2.get_reader_info] *)
Definition get_reader_info : io reader_info :=
  let* response := _send_command "ATI" [] 2000 true in
  fun self =>
    (except_IndexError
       ("Wrong reader - Not expected info response - " ++ repr_lines response)
       (check_reader_info (_expected_reader self) response), self).

End Identity.

(** ** Population size *)

(** [while count > pow(2, q): q += 1], at most [fuel] tests of the guard. *)
Fixpoint q_loop (fuel : nat) (count q : Z) : option Z :=
  match fuel with
  | O => None
  | S fuel' => if count >? 2 ^ q then q_loop fuel' count (q + 1) else Some q
  end.

(** The exponent a count is sent as; the guard fails after at most
    [count] increments. *)
Definition q_of (count : Z) : outcome Z :=
  match q_loop (S (Z.to_nat count)) count 0 with
  | Some q => Returns q
  | None => Stalled
  end.

(** The command [set_tag_size] sends.  An argument the caller leaves out is
    [None] and takes the default of the signature. *)
Definition set_tag_size_parameters (tags_size : Z) (min_tags max_tags : option Z)
    : outcome (list (option value)) :=
  let min_tags := default 0 min_tags in
  let max_tags := default 256 max_tags in
  let+ q_start := q_of tags_size in
  let+ q_min := if negb (min_tags =? 0) then q_of min_tags else Returns 0 in
  let+ q_max := if negb (max_tags =? 0)
                then (let+ q := q_of max_tags in Returns (Some q))
                else Returns None in
  Returns [Some (VInt q_start); Some (VInt q_min); option_map VInt q_max].

(** [UhfReaderGen2.set_tag_size] *)
Definition set_tag_size (tags_size : Z) (min_tags max_tags : option Z) : io unit :=
  let* parameters := io_lift (set_tag_size_parameters tags_size min_tags max_tags) in
  let* _ := _send_command "AT+Q" parameters 2000 true in
  io_ret tt.

(** ** Tag-operation decoders *)

Definition lower_char (a : ascii) : ascii :=
  let n := nat_of_ascii a in
  if (65 <=? n)%nat && (n <=? 90)%nat then ascii_of_nat (n + 32) else a.

(** [s.lower()] on ASCII text. *)
Fixpoint lower (s : string) : string :=
  match s with
  | EmptyString => EmptyString
  | String a s' => String (lower_char a) (lower s')
  end.

(** The [try] block of [read_tag_data]; an IndexError leaves the tag as it
    is. *)
Definition read_fields (memory : string) (info : list string) (t : tag) : tag :=
  match Py.nth_item info 1 with
  | None => t
  | Some status =>
      if String.eqb status "OK" then
        match Py.nth_item info 2 with
        | None => t
        | Some payload =>
            Tag.set_data payload (Tag.set_value (lower memory) (Some (VStr payload)) t)
        end
      else Tag.set_error_message status t
  end.

(** The loop of [read_tag_data] over the response lines. *)
Fixpoint parse_read (memory : string) (timestamp : Z) (responses : list string)
    : outcome (list tag) :=
  match responses with
  | [] => Returns []
  | response :: rest =>
      let+ c := or_raise IndexError (Py.getitem response 7) in
      if Ascii.eqb c "<" then
        let+ _ := or_raise IndexError (Py.getitem response 8) in
        parse_read memory timestamp rest
      else
        let info := Py.split "," (Py.slice response (Some 7) None) in
        let+ epc := or_raise IndexError (Py.nth_item info 0) in
        let t := read_fields memory info
                   (Tag.set_timestamp timestamp (UhfTag.set_epc epc ∅)) in
        let+ inventory := parse_read memory timestamp rest in
        Returns (t :: inventory)
  end.

(** [UhfReaderGen2.read_tag_data] *)
Definition read_tag_data (start length : Z) (memory epc_mask : string) : io (list tag) :=
  let* responses :=
    _send_command "AT+READ"
      [Some (VStr memory); Some (VInt start); Some (VInt length); Some (VStr epc_mask)]
      2000 true in
  fun self => (parse_read memory (clock self) responses, self).

(** The loop of [_parse_tag_responses]. *)
Fixpoint parse_tag_lines (prefix_length : Z) (timestamp : Z) (responses : list string)
    : outcome (list tag) :=
  match responses with
  | [] => Returns []
  | response :: rest =>
      let+ c := or_raise IndexError (Py.getitem response prefix_length) in
      if Ascii.eqb c "<" then
        let+ _ := or_raise IndexError (Py.getitem response (prefix_length + 1)) in
        parse_tag_lines prefix_length timestamp rest
      else
        let info := Py.split "," (Py.slice response (Some prefix_length) None) in
        let+ epc := or_raise IndexError (Py.nth_item info 0) in
        let t := Tag.set_timestamp timestamp (UhfTag.set_epc epc ∅) in
        let+ status := or_raise IndexError (Py.nth_item info 1) in
        let t := if negb (String.eqb status "OK")
                 then Tag.set_error_message status t else t in
        let+ tags := parse_tag_lines prefix_length timestamp rest in
        Returns (t :: tags)
  end.

(** [UhfReaderGen2._parse_tag_responses] *)
Definition _parse_tag_responses (responses : list string) (prefix_length : Z)
    : io (list tag) :=
  fun self => (parse_tag_lines prefix_length (clock self) responses, self).

(** [UhfReaderGen2.write_tag_data] *)
Definition write_tag_data (data : string) (start : Z) (memory epc_mask : string)
    : io (list tag) :=
  let* responses :=
    _send_command "AT+WRT"
      [Some (VStr memory); Some (VInt start); Some (VStr data); Some (VStr epc_mask)]
      2000 true in
  _parse_tag_responses responses 6.

(** ** Masks *)

(** [UhfReaderGen2.set_mask] *)
Definition set_mask (mask : string) (start : value) (memory : string) : io unit :=
  let* _ := _send_command "AT+MSK"
              [Some (VStr memory); Some start; Some (VStr mask)] 2000 true in
  io_ret tt.

(** [UhfReaderGen2.reset_mask] *)
Definition reset_mask : io unit :=
  let* _ := _send_command "AT+MSK" [Some (VStr "OFF")] 2000 true in
  io_ret tt.

(** The dict built by [get_mask] from the first response line. *)
Definition parse_mask (responses : list string) : outcome (gmap string value) :=
  let+ line := or_raise IndexError (Py.nth_item responses 0) in
  let data := Py.split "," (Py.slice line (Some 6) None) in
  let+ first := or_raise IndexError (Py.nth_item data 0) in
  let enabled := negb (String.eqb first "OFF") in
  let return_value : gmap string value := {[ "enabled" := VBool enabled ]} in
  if enabled then
    let+ start_text := or_raise IndexError (Py.nth_item data 1) in
    let+ start := int10 start_text in
    let+ mask := or_raise IndexError (Py.nth_item data 2) in
    Returns (<["mask" := VStr mask]>
               (<["start" := VInt start]> (<["memory" := VStr first]> return_value)))
  else Returns return_value.

(** [UhfReaderGen2.get_mask] *)
Definition get_mask : io (gmap string value) :=
  let* responses := _send_command "AT+MSK?" [] 2000 true in
  io_lift (parse_mask responses).

(** ** EPC rewrite *)

(** The dict [tags] of [write_tag_epc], in insertion order. *)
Abbreviation tag_dict := (list (value * tag)).

(** [tags.get(key)] *)
Fixpoint dict_get (key : value) (tags : tag_dict) : option tag :=
  match tags with
  | [] => None
  | (k, t) :: rest => if decide (k = key) then Some t else dict_get key rest
  end.

(** [tags[key] = t]: an existing key keeps its place. *)
Fixpoint dict_set (key : value) (t : tag) (tags : tag_dict) : tag_dict :=
  match tags with
  | [] => [(key, t)]
  | (k, old) :: rest =>
      if decide (k = key) then (k, t) :: rest else (k, old) :: dict_set key t rest
  end.

(** [list(tags.values())] *)
Definition dict_values (tags : tag_dict) : list tag := map snd tags.

(** The length bits of the PC word for an EPC of [len(new_epc)] hex
    characters. *)
Definition epc_length_bits (new_epc : string) : Z :=
  let epc_words := Z.quot (Py.len new_epc) 4 in
  let epc_length_byte := Z.shiftl (Z.quot epc_words 2) 12 in
  if 1 =? epc_words mod 2 then Z.lor epc_length_byte 0x0800 else epc_length_byte.

Definition different_tags_message : string :=
  "Different tags are in the field, which would result in" ++
  " data loss when writing. Please edit individually.".

(** The loop over the PC read: it leaves the common PC base in [pc_byte]
    or raises. *)
Fixpoint check_pc (pc_byte : Z) (inventory_pc : list tag) : outcome Z :=
  match inventory_pc with
  | [] => Returns pc_byte
  | t :: rest =>
      let+ n := int16 (py_str (Tag.get_data t)) in
      let data := Z.land n 0x07FF in
      if pc_byte =? 0 then check_pc data rest
      else if negb (data =? pc_byte) then
        Raises (RfidReaderException different_tags_message)
      else check_pc pc_byte rest
  end.

(** The loop over the EPC-write response. *)
Fixpoint note_epc_writes (new_epc : string) (inventory_epc : list tag)
    (tags : tag_dict) : tag_dict :=
  match inventory_epc with
  | [] => tags
  | t :: rest =>
      let key := UhfTag.get_epc t in
      let t' :=
        if negb (truthy (Tag.has_error t)) then
          Tag.set_value "old_epc" (Some key) (UhfTag.set_epc new_epc t)
        else t in
      note_epc_writes new_epc rest (dict_set key t' tags)
  end.

(** The loop over the PC-write response. *)
Fixpoint reconcile (inventory_pc : list tag) (tags : tag_dict) : tag_dict :=
  match inventory_pc with
  | [] => tags
  | tag_pc :: rest =>
      let key := UhfTag.get_epc tag_pc in
      let tags' :=
        match dict_get key tags with
        | Some tag_epc =>
            if Tag.nonempty tag_epc then
              if truthy (Tag.has_error tag_pc) then
                if negb (truthy (Tag.has_error tag_epc)) then
                  dict_set key
                    (Tag.set_error_message "epc written, epc length not updated!" tag_epc)
                    tags
                else
                  dict_set key
                    (Tag.set_error_message
                       ("epc not written - " ++ py_str (Tag.get_error_message tag_epc))
                       tag_epc)
                    tags
              else tags
            else if negb (truthy (Tag.has_error tag_pc)) then
              dict_set key
                (Tag.set_error_message "epc not written, but epc length updated!" tag_pc)
                tags
            else tags
        | None =>
            if negb (truthy (Tag.has_error tag_pc)) then
              dict_set key
                (Tag.set_error_message "epc not written, but epc length updated!" tag_pc)
                tags
            else tags
        end in
      reconcile rest tags'
  end.

(** [mask_settings[key]] *)
Definition mask_item (mask_settings : gmap string value) (key : string) : outcome value :=
  or_raise KeyError (mask_settings !! key).

(** [UhfReaderGen2.write_tag_epc] *)
Definition write_tag_epc (tid new_epc : string) (start : Z) : io (list tag) :=
  if negb (Py.len new_epc mod 4 =? 0) then
    io_lift (Raises (RfidReaderException " The new epc length must be a multiple of 4"))
  else
    let epc_length_byte := epc_length_bits new_epc in
    let* mask_settings :=
      if negb (String.eqb tid "") then
        let* m := get_mask in
        let* _ := set_mask tid (VInt 0) "TID" in
        io_ret m
      else io_ret ∅ in
    let* inventory_pc := read_tag_data 0 2 "PC" "" in
    match inventory_pc with
    | [] => io_ret inventory_pc
    | _ =>
        let* pc_byte := io_lift (check_pc 0 inventory_pc) in
        let* inventory_epc := write_tag_data new_epc start "EPC" "" in
        let tags := note_epc_writes new_epc inventory_epc [] in
        let pc_byte := Z.lor pc_byte epc_length_byte in
        let* inventory_pc := write_tag_data (format_04X pc_byte) 0 "PC" "" in
        let tags := reconcile inventory_pc tags in
        let* _ :=
          if negb (String.eqb tid "") then
            let* enabled := io_lift (mask_item mask_settings "enabled") in
            if truthy enabled then
              let* memory := io_lift (mask_item mask_settings "memory") in
              let* mask_start := io_lift (mask_item mask_settings "start") in
              let* mask := io_lift (mask_item mask_settings "mask") in
              set_mask (py_str memory) mask_start (py_str mask)
            else reset_mask
          else io_ret tt in
        io_ret (dict_values tags)
    end.

(** ** Inventory decoder *)

(** What the loop of [_parse_inventory] carries from line to line. *)
Record inventory_pass := {
  pass_inventory : list tag;
  pass_antenna : Z;
  pass_error : string;
}.

(** [antenna = int(response[-2:-1])] under its [try]: an IndexError or a
    ValueError is printed and the antenna stays as it was. *)
Definition round_finished_antenna (response : string) (antenna : Z) : outcome Z :=
  match int10 (Py.slice response (Some (-2)) (Some (-1))) with
  | Returns n => Returns n
  | Raises ValueError => Returns antenna
  | Raises IndexError => Returns antenna
  | other => other
  end.

(** The tag built from a line that is not an event. *)
Definition inventory_tag (with_tid with_rssi is_report : bool) (timestamp : Z)
    (info : list string) : outcome tag :=
  let+ epc := or_raise IndexError (Py.nth_item info 0) in
  let t := Tag.set_timestamp timestamp (UhfTag.set_epc epc ∅) in
  let+ t :=
    if with_tid then
      let+ tid := or_raise IndexError (Py.nth_item info 1) in
      Returns (Tag.set_tid tid t)
    else Returns t in
  let+ t :=
    if with_rssi then
      let+ text := or_raise IndexError (Py.nth_item info (if with_tid then 2 else 1)) in
      let+ rssi := int10 text in
      Returns (UhfTag.set_rssi rssi t)
    else Returns t in
  if is_report then
    let+ text := or_raise IndexError (Py.nth_item info (-1)) in
    let+ seen_count := int10 text in
    Returns (Tag.set_seen_count seen_count t)
  else Returns t.

(** One iteration of the loop of [_parse_inventory]. *)
Definition inventory_line (with_tid with_rssi : bool) (timestamp split_index : Z)
    (ignore_error is_report : bool) (st : inventory_pass) (response : string)
    : outcome inventory_pass :=
  let+ c0 := or_raise IndexError (Py.getitem response 0) in
  if negb (Ascii.eqb c0 "+") then Returns st
  else
    let+ c := or_raise IndexError (Py.getitem response split_index) in
    if Ascii.eqb c "<" then
      let+ kind := or_raise IndexError (Py.getitem response (split_index + 1)) in
      if Ascii.eqb kind "N" then Returns st
      else if Ascii.eqb kind "R" then
        let+ antenna := round_finished_antenna response (pass_antenna st) in
        Returns {| pass_inventory := pass_inventory st; pass_antenna := antenna;
                   pass_error := pass_error st |}
      else if ignore_error then Returns st
      else
        Returns {| pass_inventory := pass_inventory st; pass_antenna := pass_antenna st;
                   pass_error := Py.slice response (Some (split_index + 1)) (Some (-1)) |}
    else
      let info := Py.split "," (Py.slice response (Some split_index) None) in
      let+ new_tag := inventory_tag with_tid with_rssi is_report timestamp info in
      Returns {| pass_inventory := pass_inventory st ++ [new_tag];
                 pass_antenna := pass_antenna st; pass_error := pass_error st |}.

Fixpoint inventory_lines (with_tid with_rssi : bool) (timestamp split_index : Z)
    (ignore_error is_report : bool) (st : inventory_pass) (responses : list string)
    : outcome inventory_pass :=
  match responses with
  | [] => Returns st
  | response :: rest =>
      let+ st' := inventory_line with_tid with_rssi timestamp split_index
                    ignore_error is_report st response in
      inventory_lines with_tid with_rssi timestamp split_index ignore_error is_report
        st' rest
  end.

(** Recording a pending error in the mirror. *)
Definition record_error (key message : string) (c : config) : config :=
  {| inventory := inventory c; antenna := antenna c;
     error := Some (<[key := message]> (default ∅ (error c))) |}.

Definition with_config (c : config) (self : reader) : reader :=
  {| written := written self; incoming := incoming self; ticks := ticks self;
     clock := clock self; _config := c; _expected_reader := _expected_reader self |}.

(** [UhfReaderGen2._parse_inventory] *)
Definition _parse_inventory (responses : list string) (timestamp split_index : Z)
    (ignore_error is_report : bool) : io (list tag) :=
  fun self =>
    match inventory (_config self) with
    | None => (Raises KeyError, self)
    | Some settings =>
        match inventory_lines (with_tid settings) (with_rssi settings) timestamp
                split_index ignore_error is_report
                {| pass_inventory := []; pass_antenna := 0; pass_error := "" |}
                responses with
        | Returns st =>
            if negb (String.eqb (pass_error st) "") then
              if negb (pass_antenna st =? 0) then
                (Raises (RfidReaderException
                   (pass_error st ++ " - Antenna " ++ Py.str_of_int (pass_antenna st))),
                 with_config
                   (record_error ("Antenna " ++ Py.str_of_int (pass_antenna st))
                      (pass_error st) (_config self)) self)
              else
                (Raises (RfidReaderException (pass_error st)),
                 with_config (record_error "message" (pass_error st) (_config self)) self)
            else if negb (pass_antenna st =? 0) then
              (Returns (map (Tag.set_antenna (pass_antenna st)) (pass_inventory st)), self)
            else (Returns (pass_inventory st), self)
        | Raises e => (Raises e, self)
        | Stalled => (Stalled, self)
        | Unmodelled => (Unmodelled, self)
        end
    end.

(** [UhfReaderGen2.get_inventory] *)
Definition get_inventory (ignore_error : bool) : io (list tag) :=
  let* responses := _send_command "AT+INV" [] 2000 true in
  let* inventory :=
    (fun self => _parse_inventory responses (clock self) 6 ignore_error false self) in
  fun self =>
    match antenna (_config self) with
    | Some current_antenna =>
        if negb (current_antenna =? 0)
        then (Returns (map (Tag.set_antenna current_antenna) inventory), self)
        else (Returns inventory, self)
    | None => (Returns inventory, self)
    end.

(** [@ExpectedReaderInfo("QRG2", "QRG2", 1.3)] on [class QRG2]. *)
Definition QRG2_expected_reader : expected_reader :=
  {| firmware_name := "QRG2"; hardware_name := "QRG2"; min_firmware := 130 |}.

(** ** The protocol in its own words *)

(** The error detail of a body, as the protocol states it: the text between
    the last '<' and the last '>' behind it, or the whole body when it has
    no '<' or no '>'. *)
Inductive bracketed_detail : string -> string -> Prop :=
| detail_between (a m p : string) :
    Py.mem "<" m = false -> Py.mem "<" p = false -> Py.mem ">" p = false ->
    bracketed_detail (a ++ "<" ++ m ++ ">" ++ p) m
| detail_whole (body : string) :
    Py.mem "<" body = false \/ Py.mem ">" body = false ->
    bracketed_detail body body.

(** The lines a collector accumulates from the events [pre]: once the echo
    has been seen, every non-empty line up to the first [OK] or [ERROR]. *)
Fixpoint accumulated (send_command : string) (response_started : bool)
    (pre : list event) : list string :=
  match pre with
  | [] => []
  | Rx _ None :: pre' => accumulated send_command response_started pre'
  | Rx _ (Some raw) :: pre' =>
      let resp := Py.slice raw None (Some (-2)) in
      if String.eqb resp "" then accumulated send_command response_started pre'
      else if response_started then
        if String.eqb resp "OK" || String.eqb resp "ERROR" then []
        else resp :: accumulated send_command true pre'
      else accumulated send_command (Py.contains send_command resp) pre'
  end.

(** [q] is the smallest exponent with [count <= 2 ^ q]. *)
Definition least_exponent (count q : Z) : Prop :=
  0 <= q /\ count <= 2 ^ q /\ forall q', 0 <= q' -> count <= 2 ^ q' -> q <= q'.

(** ** Sample exchanges *)

Definition CRLF : string := CR ++ LF.

(** A line as the device sends it, one millisecond after the previous one. *)
Definition line (text : string) : event := Rx 1 (Some (text ++ CRLF)).

(** A reader between two commands, about to receive [rx]. *)
Definition reader_with (settings : inventory_settings) (rx : list event) : reader :=
  {| written := []; incoming := rx; ticks := 0; clock := 1700000000;
     _config := {| inventory := Some settings; antenna := None; error := None |};
     _expected_reader := Some QRG2_expected_reader |}.

(** The mirror after [_initialise]: [set_inventory_settings(False, True, True)]. *)
Definition initial_settings : inventory_settings :=
  {| only_new_tag := false; with_rssi := true; with_tid := true |}.

Definition rssi_only : inventory_settings :=
  {| only_new_tag := false; with_rssi := true; with_tid := false |}.

(** Two tags in the field whose PC words differ in the user-memory flag:
    3000 has base 0, 3400 has base 0x400. *)
Definition two_pc_bases : list event :=
  [ line "AT+READ=PC,0,2,";
    line ("+READ: AAAA,OK,3000" ++ CR ++ "+READ: BBBB,OK,3400");
    line "OK";
    line "AT+WRT=EPC,0,11112222,";
    line ("+WRT: AAAA,OK" ++ CR ++ "+WRT: BBBB,OK");
    line "OK";
    line "AT+WRT=PC,0,1400,";
    line ("+WRT: AAAA,OK" ++ CR ++ "+WRT: BBBB,OK");
    line "OK" ].

(** The same field answering the PC read in the other order. *)
Definition two_pc_bases_swapped : list event :=
  [ line "AT+READ=PC,0,2,";
    line ("+READ: BBBB,OK,3400" ++ CR ++ "+READ: AAAA,OK,3000");
    line "OK" ].

(** One tag whose EPC write and PC write both fail, for different reasons. *)
Definition both_writes_fail : list event :=
  [ line "AT+READ=PC,0,2,";
    line "+READ: AAAA,OK,3000";
    line "OK";
    line "AT+WRT=EPC,0,11112222,";
    line "+WRT: AAAA,ACCESS ERROR";
    line "OK";
    line "AT+WRT=PC,0,1000,";
    line "+WRT: AAAA,MEMORY LOCKED";
    line "OK" ].

(** The identity lines of a QRG2 with firmware version [version]. *)
Definition identity_lines (version : string) : list string :=
  [ "+SW: QRG2 " ++ version; "+HW: QRG2 0100"; "+SERIAL: 2020090817420000" ].

(** ** Settings, region, population size read back *)

(** [1 if flag else 0] *)
Definition flag (b : bool) : value := VInt (if b then 1 else 0).

(** [UhfReaderGen2.set_inventory_settings]: the mirror is written after the
    command has returned. *)
Definition set_inventory_settings (only_new_tag with_rssi with_tid : bool) : io unit :=
  let* _ := _send_command "AT+INVS"
              [Some (flag only_new_tag); Some (flag with_rssi); Some (flag with_tid)]
              2000 true in
  fun self =>
    (Returns tt,
     with_config
       {| inventory := Some {| only_new_tag := only_new_tag; with_rssi := with_rssi;
                               with_tid := with_tid |};
          antenna := antenna (_config self); error := error (_config self) |}
       self).

(** The [try] block of [get_inventory_settings]. *)
Definition parse_inventory_settings (response : list string) : outcome inventory_settings :=
  let+ line0 := or_raise IndexError (Py.nth_item response 0) in
  let+ c7 := or_raise IndexError (Py.getitem line0 7) in
  let+ c9 := or_raise IndexError (Py.getitem line0 9) in
  let+ c11 := or_raise IndexError (Py.getitem line0 11) in
  Returns {| only_new_tag := Ascii.eqb c7 "1"; with_rssi := Ascii.eqb c9 "1";
             with_tid := Ascii.eqb c11 "1" |}.

(** The [try] block of [get_region]. *)
Definition parse_region (response : list string) : outcome string :=
  let+ line0 := or_raise IndexError (Py.nth_item response 0) in
  Returns (Py.slice line0 (Some 6) None).

(** The [try] block of [get_tag_size]; [pow(2, q)] of a negative [q] is a
    float and left undescribed. *)
Definition parse_tag_size (response : list string) : outcome Z :=
  let+ line0 := or_raise IndexError (Py.nth_item response 0) in
  let setting := Py.split "," (Py.slice line0 (Some 4) None) in
  let+ text := or_raise IndexError (Py.nth_item setting 0) in
  let+ q := int10 text in
  if q <? 0 then Unmodelled else Returns (2 ^ q).

Section Getters.

(** How the runtime prints a list of strings inside an f-string. *)
Variable repr_lines : list string -> string.

(** [UhfReaderGen2.get_inventory_settings] *)
Definition get_inventory_settings : io inventory_settings :=
  let* response := _send_command "AT+INVS?" [] 2000 true in
  io_lift (except_IndexError
             ("Not expected response for command AT+INVS? - " ++ repr_lines response)
             (parse_inventory_settings response)).

(** [UhfReaderGen2.get_region] *)
Definition get_region : io string :=
  let* response := _send_command "AT+REG?" [] 2000 true in
  io_lift (except_IndexError
             ("Not expected response for command AT+REG? - " ++ repr_lines response)
             (parse_region response)).

(** [UhfReaderGen2.get_tag_size] *)
Definition get_tag_size : io Z :=
  let* response := _send_command "AT+Q?" [] 2000 true in
  io_lift (except_IndexError
             ("Not expected response for command AT+Q? - " ++ repr_lines response)
             (parse_tag_size response)).

End Getters.

(** ** Antenna power *)

(** [UhfReaderGen2.set_power] *)
Definition set_power (power : Z) : io unit :=
  let* _ := _send_command "AT+PWR" [Some (VInt power)] 2000 true in
  io_ret tt.

(** The [try] block of [get_power]. *)
Definition parse_power (response : list string) : outcome Z :=
  let+ line0 := or_raise IndexError (Py.nth_item response 0) in
  int10 (Py.slice line0 (Some 6) None).

(** [UhfReaderGen2.get_power]; [repr_lines] is how the runtime prints a
    list of strings inside an f-string. *)
Definition get_power (repr_lines : list string -> string) : io Z :=
  let* response := _send_command "AT+PWR?" [] 2000 true in
  io_lift (except_IndexError
             ("Not expected response for command AT+PWR? - " ++ repr_lines response)
             (parse_power response)).

(** ** Initialisation *)

(** [try: m] / [except RfidReaderException: pass] *)
Definition pass_on_reader_error {A} (m : io A) : io unit :=
  fun self =>
    match m self with
    | (Returns _, self') => (Returns tt, self')
    | (Raises (RfidReaderException _), self') => (Returns tt, self')
    | (Raises e, self') => (Raises e, self')
    | (Stalled, self') => (Stalled, self')
    | (Unmodelled, self') => (Unmodelled, self')
    end.

(** [RfidReaderGen2._initialise]; the settings [uart.init] gives the serial
    port are not part of the scripted line. *)
Definition RfidReaderGen2_initialise : io unit :=
  let* _ := _send_command "ATE1" [] 2000 false in
  io_ret tt.

(** [UhfReaderGen2._initialise] *)
Definition UhfReaderGen2_initialise : io unit :=
  let* _ := RfidReaderGen2_initialise in
  let* _ := pass_on_reader_error (_send_command "AT+BINV" [] 2000 true) in
  let* _ := pass_on_reader_error (_send_command "AT+BINVR" [] 2000 true) in
  set_inventory_settings false true true.

(** ** A well-behaved device *)

(** The device's part of one exchange: the echo of the command, the
    response block [body] (its lines joined by carriage returns) and OK. *)
Definition exchange (send_command body : string) : list event :=
  [ line send_command; line body; line "OK" ].

(** The line of a read, without its two-byte terminator, contains the
    command as it was sent. *)
Definition echoes (send_command : string) (e : event) : bool :=
  match e with
  | Rx _ (Some raw) => Py.contains send_command (Py.slice raw None (Some (-2)))
  | Rx _ None => false
  end.

(** A line of a tag operation: the response prefix, the EPC and the status. *)
Definition status_line (prefix : string) (answer : string * string) : string :=
  prefix ++ fst answer ++ "," ++ snd answer.

(** The record a tag operation builds for an EPC and a status. *)
Definition status_tag (timestamp : Z) (answer : string * string) : tag :=
  let t := Tag.set_timestamp timestamp (UhfTag.set_epc (fst answer) ∅) in
  if String.eqb (snd answer) "OK" then t else Tag.set_error_message (snd answer) t.

(** A field of a response line: no comma, no carriage return, no '<'. *)
Definition plain_field (s : string) : bool :=
  negb (Py.mem "," s) && negb (Py.mem (ascii_of_nat 13) s) && negb (Py.mem "<" s).

(** A line of a read: the EPC, then OK and the data, or a status. *)
Definition read_line (answer : string * (string + string)) : string :=
  "+READ: " ++ fst answer ++ "," ++
  match snd answer with
  | inl data => "OK," ++ data
  | inr status => status
  end.

(** The record a read builds for such a line. *)
Definition read_tag (memory : string) (timestamp : Z)
    (answer : string * (string + string)) : tag :=
  let t := Tag.set_timestamp timestamp (UhfTag.set_epc (fst answer) ∅) in
  match snd answer with
  | inl data => Tag.set_data data (Tag.set_value (lower memory) (Some (VStr data)) t)
  | inr status => Tag.set_error_message status t
  end.

(** The fields of an answer are plain, and a status is not OK. *)
Definition read_answer_ok (answer : string * (string + string)) : bool :=
  plain_field (fst answer) &&
  match snd answer with
  | inl data => plain_field data
  | inr status => plain_field status && negb (String.eqb status "OK")
  end.

(** The reader after the commands [frames] have been written and answered
    in [elapsed] milliseconds, with [rx] still to come. *)
Definition answered (self : reader) (frames : list string) (elapsed : Z)
    (rx : list event) : reader :=
  {| written := (written self ++ map (fun frame => (frame ++ CR)%string) frames)%list;
     incoming := rx; ticks := ticks self + elapsed; clock := clock self;
     _config := _config self; _expected_reader := _expected_reader self |}.

(** The text of a mask on the wire: what [set_mask] frames behind the '='
    and what the device answers behind "+MSK: ". *)
Definition mask_payload (memory : string) (start : Z) (mask : string) : string :=
  memory ++ "," ++ Py.str_of_int start ++ "," ++ mask.

(** The mask dict of an enabled mask. *)
Definition mask_dict (memory : string) (start : Z) (mask : string) : gmap string value :=
  <["mask" := VStr mask]>
    (<["start" := VInt start]>
       (<["memory" := VStr memory]> {[ "enabled" := VBool true ]})).

(** The device's part of an EPC rewrite by TID when nothing is in the
    field: the mask is read and replaced, the PC read finds no tag. *)
Definition rewrite_without_tags (tid memory : string) (start : Z) (mask : string)
    : list event :=
  (exchange "AT+MSK?" ("+MSK: " ++ mask_payload memory start mask)
   ++ [line ("AT+MSK=" ++ mask_payload "TID" 0 tid); line "OK"]
   ++ exchange "AT+READ=PC,0,2," "+READ: <NO TAGS FOUND>")%list.

(** The device's part of an EPC rewrite by TID of the one tag AAAA, whose
    PC word is 3000, up to the answer to the second write: every command is
    echoed as it was sent, and succeeds. *)
Definition rewrite_one_tag (tid new_epc : string) (start : Z)
    (memory : string) (mask_start : Z) (mask : string) : list event :=
  (exchange "AT+MSK?" ("+MSK: " ++ mask_payload memory mask_start mask)
   ++ [line ("AT+MSK=" ++ mask_payload "TID" 0 tid); line "OK"]
   ++ exchange "AT+READ=PC,0,2," "+READ: AAAA,OK,3000"
   ++ exchange (_prepare_command "AT+WRT"
                  [Some (VStr "EPC"); Some (VInt start); Some (VStr new_epc);
                   Some (VStr "")])
        "+WRT: AAAA,OK"
   ++ exchange (_prepare_command "AT+WRT"
                  [Some (VStr "PC"); Some (VInt 0);
                   Some (VStr (format_04X (Z.lor 0 (epc_length_bits new_epc))));
                   Some (VStr "")])
        "+WRT: AAAA,OK")%list.

(** The record of the tag AAAA after a successful rewrite to [new_epc]. *)
Definition rewritten_tag (new_epc : string) (timestamp : Z) : tag :=
  Tag.set_value "old_epc" (Some (VStr "AAAA"))
    (UhfTag.set_epc new_epc (Tag.set_timestamp timestamp (UhfTag.set_epc "AAAA" ∅))).

(** The base of a tag's PC word: its eleven low bits. *)
Definition pc_base (t : tag) : outcome Z :=
  let+ n := int16 (py_str (Tag.get_data t)) in
  Returns (Z.land n 0x07FF).

(** The commands [UhfReaderGen2._initialise] writes. *)
Definition initial_commands : list string :=
  [ "ATE1"; "AT+BINV"; "AT+BINVR"; "AT+INVS=0,1,1" ].

(** The tag's PC word is readable and has the base [b]. *)
Definition has_base (b : Z) (t : tag) : bool :=
  match pc_base t with
  | Returns b' => b' =? b
  | _ => false
  end.

(** * Properties *)

#[local] Arguments String.append !_ _ : simpl nomatch.

(** ** Strings *)

Section StringFacts.

Lemma append_assoc (s t u : string) : (s ++ t) ++ u = s ++ t ++ u.
Proof. induction s as [|a s IH]; simpl; [reflexivity | now rewrite IH]. Qed.

Lemma length_append (s t : string) :
  String.length (s ++ t) = (String.length s + String.length t)%nat.
Proof. induction s as [|a s IH]; simpl; [reflexivity | now rewrite IH]. Qed.

Lemma mem_append (c : ascii) (s t : string) :
  Py.mem c (s ++ t) = Py.mem c s || Py.mem c t.
Proof.
  induction s as [|a s IH]; simpl; [reflexivity |].
  rewrite IH. now destruct (Ascii.eqb a c).
Qed.

(** A separator-free text is one field. *)
Lemma split_no_sep (c : ascii) (s : string) :
  Py.mem c s = false -> Py.split c s = [s].
Proof.
  induction s as [|a s IH]; simpl; [reflexivity |].
  destruct (Ascii.eqb a c); simpl; [discriminate |].
  intros H. now rewrite (IH H).
Qed.

(** A separator-free text in front of a separator is the first field. *)
Lemma split_field (c : ascii) (s rest : string) :
  Py.mem c s = false -> Py.split c (s ++ String c rest) = s :: Py.split c rest.
Proof.
  induction s as [|a s IH]; simpl.
  - intros _. now rewrite Ascii.eqb_refl.
  - destruct (Ascii.eqb a c); simpl; [discriminate |].
    intros H. now rewrite (IH H).
Qed.

(** Splitting undoes joining, when no field holds the separator. *)
Lemma split_join (c : ascii) (l : list string) :
  l <> [] -> Forall (fun s => Py.mem c s = false) l ->
  Py.split c (Py.join (String c "") l) = l.
Proof.
  induction l as [|x l IH]; [congruence |].
  intros _ Hall. inversion Hall as [|? ? Hx Hl]; subst.
  destruct l as [|y l].
  - simpl. now apply split_no_sep.
  - change (Py.join (String c "") (x :: y :: l))
      with (x ++ String c (Py.join (String c "") (y :: l))).
    rewrite split_field by assumption.
    f_equal. apply IH; [discriminate | assumption].
Qed.

Lemma rindex_absent (c : ascii) (s : string) :
  Py.mem c s = false -> Py.rindex c s = None.
Proof.
  induction s as [|a s IH]; simpl; [reflexivity |].
  destruct (Ascii.eqb a c); simpl; [discriminate |].
  intros H. now rewrite (IH H).
Qed.

(** The last occurrence is the one with no occurrence behind it. *)
Lemma rindex_last (c : ascii) (a t : string) :
  Py.mem c t = false -> Py.rindex c (a ++ String c t) = Some (String.length a).
Proof.
  intros Ht. induction a as [|x a IH]; simpl.
  - rewrite (rindex_absent _ _ Ht). now rewrite Ascii.eqb_refl.
  - now rewrite IH.
Qed.

Lemma substring_skip (a s : string) (n k : nat) :
  substring (String.length a + n) k (a ++ s) = substring n k s.
Proof. induction a as [|x a IH]; simpl; [reflexivity | exact IH]. Qed.

Lemma substring_take (m p : string) :
  substring 0 (String.length m) (m ++ p) = m.
Proof.
  induction m as [|x m IH]; simpl; [now destruct p | now rewrite IH].
Qed.

Lemma substring_none (n : nat) (s : string) : substring n 0 s = "".
Proof.
  revert n. induction s as [|x s IH]; intros [|n]; simpl; try reflexivity.
  apply IH.
Qed.

(** The slice between two positions of a text cut in three. *)
Lemma slice_middle (a m p : string) :
  Py.slice (a ++ m ++ p) (Some (Py.len a)) (Some (Py.len a + Py.len m)) = m.
Proof.
  unfold Py.slice, Py.clamp_index, Py.len.
  rewrite !length_append.
  destruct (Z.ltb_spec (Z.of_nat (String.length a)) 0); [lia |].
  destruct (Z.ltb_spec (Z.of_nat (String.length a) + Z.of_nat (String.length m)) 0);
    [lia |].
  rewrite !Z.min_l by lia.
  replace (Z.to_nat (Z.of_nat (String.length a)))
    with (String.length a + 0)%nat by lia.
  replace (Z.to_nat (Z.of_nat (String.length a) + Z.of_nat (String.length m)
                     - Z.of_nat (String.length a)))
    with (String.length m) by lia.
  rewrite substring_skip. apply substring_take.
Qed.

(** A slice whose end is not behind its start is empty. *)
Lemma slice_inverted (s : string) (i j : Z) :
  0 <= j <= i -> Py.slice s (Some i) (Some j) = "".
Proof.
  intros H. unfold Py.slice, Py.clamp_index.
  destruct (Z.ltb_spec i 0); [lia |]. destruct (Z.ltb_spec j 0); [lia |].
  replace (Z.to_nat (Z.min j (Py.len s) - Z.min i (Py.len s))) with 0%nat by lia.
  apply substring_none.
Qed.

(** [raw[:-2]] drops a two-byte line terminator. *)
Lemma strip_terminator (text : string) (c1 c2 : ascii) :
  Py.slice (text ++ String c1 (String c2 "")) None (Some (-2)) = text.
Proof.
  unfold Py.slice, Py.clamp_index, Py.len. rewrite length_append. simpl.
  replace (Z.to_nat (Z.max 0 (-2 + Z.of_nat (String.length text + 2)) - 0))
    with (String.length text) by lia.
  apply substring_take.
Qed.

End StringFacts.

(** ** Command framer *)

Lemma not_none_omap {A} (parameters : list (option A)) :
  not_none parameters = omap id parameters.
Proof.
  induction parameters as [|[x|] l IH]; simpl; [reflexivity | | assumption].
  now rewrite IH.
Qed.

Lemma prepare_command_nonempty (command : string) (parameters : list (option value)) :
  parameters <> [] ->
  _prepare_command command parameters
  = command ++ "=" ++ Py.join "," (py_str <$> omap id parameters).
Proof.
  intros Hne. destruct parameters as [|p l]; [congruence |].
  unfold _prepare_command. now rewrite not_none_omap.
Qed.

(** C6: the framer returns the bare verb for an empty parameter list and
    otherwise the verb, '=', and the texts of the parameters that are not
    None, comma-joined in their order; when none of those texts holds a
    comma, splitting what follows '=' at the commas gives them back one by
    one.  [frame("AT+Q", 4, None, 15)] is ["AT+Q=4,15"]. *)
Theorem prepare_command_frames (command : string) (parameters : list (option value)) :
  (parameters = [] -> _prepare_command command parameters = command) /\
  (parameters <> [] ->
   _prepare_command command parameters
   = command ++ "=" ++ Py.join "," (py_str <$> omap id parameters)) /\
  (omap id parameters <> [] ->
   Forall (fun x => Py.mem "," (py_str x) = false) (omap id parameters) ->
   exists body,
     _prepare_command command parameters = command ++ "=" ++ body /\
     Py.split "," body = py_str <$> omap id parameters) /\
  _prepare_command "AT+Q" [Some (VInt 4); None; Some (VInt 15)] = "AT+Q=4,15".
Proof.
  split; [now intros -> |]. split; [apply prepare_command_nonempty |].
  split; [| reflexivity].
  intros Hpresent Hplain.
  exists (Py.join "," (py_str <$> omap id parameters)).
  split.
  - apply prepare_command_nonempty. intros ->. now apply Hpresent.
  - apply split_join.
    + intros Heq. apply Hpresent. now apply fmap_nil_inv in Heq.
    + now apply Forall_fmap.
Qed.

Lemma prepare_command_frames_witness :
  _prepare_command "AT+Q" [Some (VInt 4); None; Some (VInt 15)]
  = "AT+Q" ++ "=" ++ Py.join "," ["4"; "15"] /\
  exists body,
    _prepare_command "AT+Q" [Some (VInt 4); None; Some (VInt 15)] = "AT+Q" ++ "=" ++ body /\
    Py.split "," body = ["4"; "15"].
Proof.
  destruct (prepare_command_frames "AT+Q" [Some (VInt 4); None; Some (VInt 15)])
    as (_ & Hframe & Hfields & _).
  split.
  - apply Hframe. discriminate.
  - apply Hfields; [discriminate | repeat constructor].
Defined.

Lemma not_none_all_absent {A} (parameters : list (option A)) :
  Forall (fun p => p = None) parameters -> not_none parameters = [].
Proof.
  induction 1 as [|p l Hp _ IH]; [reflexivity |]. subst p. exact IH.
Qed.

Lemma append_not_self (s : string) : s ++ "=" <> s.
Proof.
  intros H. apply (f_equal String.length) in H.
  rewrite length_append in H. simpl in H. lia.
Qed.

(** C10: a non-empty parameter list whose parameters are all None frames
    as the verb followed by a bare '=', which is not what the empty
    parameter list frames as. *)
Theorem prepare_command_all_absent (command : string) (parameters : list (option value)) :
  parameters <> [] -> Forall (fun p => p = None) parameters ->
  _prepare_command command parameters = command ++ "=" /\
  _prepare_command command parameters <> _prepare_command command [].
Proof.
  intros Hne Hall.
  assert (H : _prepare_command command parameters = command ++ "=").
  { destruct parameters as [|p l]; [congruence |].
    unfold _prepare_command. now rewrite (not_none_all_absent _ Hall). }
  split; [exact H |]. rewrite H. simpl. apply append_not_self.
Qed.

Lemma prepare_command_all_absent_witness :
  _prepare_command "CMD" [None; None] = "CMD=" /\
  _prepare_command "CMD" [None; None] <> _prepare_command "CMD" [].
Proof.
  apply (prepare_command_all_absent "CMD" [None; None]).
  - discriminate.
  - repeat constructor.
Defined.

(** ** Error detail *)

Lemma error_detail_between (a m p : string) :
  Py.mem "<" m = false -> Py.mem "<" p = false -> Py.mem ">" p = false ->
  error_detail (a ++ "<" ++ m ++ ">" ++ p) = m.
Proof.
  intros Hm Hp Hq. unfold error_detail.
  change (a ++ "<" ++ m ++ ">" ++ p) with (a ++ String "<" (m ++ String ">" p)).
  rewrite rindex_last by (rewrite mem_append, Hm; simpl; exact Hp).
  replace (a ++ String "<" (m ++ String ">" p))
    with ((a ++ String "<" m) ++ String ">" p)
    by (rewrite append_assoc; reflexivity).
  rewrite rindex_last by exact Hq.
  rewrite append_assoc.
  change (a ++ String "<" m ++ String ">" p)
    with (a ++ String "<" (m ++ String ">" p)).
  replace (a ++ String "<" (m ++ String ">" p))
    with ((a ++ "<") ++ m ++ String ">" p)
    by (rewrite append_assoc; reflexivity).
  replace (Z.of_nat (String.length a) + 1) with (Py.len (a ++ "<"))
    by (unfold Py.len; rewrite length_append; simpl; lia).
  replace (Z.of_nat (String.length (a ++ String "<" m)))
    with (Py.len (a ++ "<") + Py.len m)
    by (unfold Py.len; rewrite !length_append; simpl; lia).
  apply slice_middle.
Qed.

Lemma error_detail_whole (body : string) :
  Py.mem "<" body = false \/ Py.mem ">" body = false ->
  error_detail body = body.
Proof.
  intros [H | H]; unfold error_detail.
  - now rewrite (rindex_absent _ _ H).
  - rewrite (rindex_absent _ _ H). now destruct (Py.rindex "<" body).
Qed.

(** A last '>' in front of the last '<' leaves nothing between them: the
    detail is empty. *)
Lemma error_detail_inverted (a m p : string) :
  Py.mem ">" m = false -> Py.mem ">" p = false -> Py.mem "<" p = false ->
  error_detail (a ++ ">" ++ m ++ "<" ++ p) = "".
Proof.
  intros Hm Hp Hq. unfold error_detail.
  change (a ++ ">" ++ m ++ "<" ++ p) with (a ++ String ">" (m ++ String "<" p)).
  rewrite (rindex_last ">") by (rewrite mem_append, Hm; simpl; exact Hp).
  replace (a ++ String ">" (m ++ String "<" p))
    with ((a ++ String ">" m) ++ String "<" p)
    by (rewrite append_assoc; reflexivity).
  rewrite rindex_last by exact Hq.
  apply slice_inverted. rewrite length_append. simpl. lia.
Qed.

Lemma error_detail_spec (body detail : string) :
  bracketed_detail body detail -> error_detail body = detail.
Proof.
  destruct 1; [now apply error_detail_between | now apply error_detail_whole].
Qed.

(** ** Response collector *)

(** A prefix that keeps the loop going only moves its variables. *)
Lemma poll_app (sc : string) (max_time : Z) (pre rx : list event) :
  forall response started now body started' now',
    still_polling sc max_time response started now pre = Some (body, started', now') ->
    poll sc max_time response started now (pre ++ rx)%list
    = poll sc max_time body started' now' rx.
Proof.
  induction pre as [|[elapsed data] pre IH]; simpl; intros response started now body
    started' now' H.
  - now inversion H.
  - destruct (loop_body sc max_time response started (now + elapsed) data);
      try discriminate.
    now apply IH.
Qed.

Lemma poll_error_line (sc : string) (max_time : Z) (body : string) (now elapsed : Z)
    (c1 c2 : ascii) (rx : list event) :
  poll sc max_time body true now
    (Rx elapsed (Some ("ERROR" ++ String c1 (String c2 ""))) :: rx)
  = (Raises (RfidReaderException (error_detail body)), (now + elapsed, rx)).
Proof.
  cbn [poll]. unfold loop_body. now rewrite strip_terminator.
Qed.

Lemma send_command_unfold (command : string) (parameters : list (option value))
    (timeout : Z) (command_response : bool) (self : reader) :
  fst (_send_command command parameters timeout command_response self)
  = fst (poll (_prepare_command command parameters) (ticks self + timeout) ""
           (negb command_response) (ticks self) (incoming self)).
Proof.
  unfold _send_command.
  now destruct (poll _ _ _ _ _ _) as [res [now rx]].
Qed.

Lemma send_command_written (command : string) (parameters : list (option value))
    (timeout : Z) (command_response : bool) (self : reader) :
  written (snd (_send_command command parameters timeout command_response self))
  = (written self ++ [(_prepare_command command parameters ++ CR)%string])%list.
Proof.
  unfold _send_command. now destruct (poll _ _ _ _ _ _) as [res [now rx]].
Qed.

(** C1: once a command's collector is accumulating (the events [pre] have
    taken it past the echo and left it holding [body]), a line that reads
    ERROR makes [_send_command] raise the protocol error whose message is
    the text of [body] between its last '<' and the last '>' behind it, or
    all of [body] when it has no '<' or no '>'. *)
Theorem error_line_reports_bracketed_detail
    (command : string) (parameters : list (option value)) (timeout : Z)
    (command_response : bool) (self : reader)
    (pre rx : list event) (body detail : string) (now elapsed : Z) (c1 c2 : ascii) :
  incoming self
  = (pre ++ Rx elapsed (Some ("ERROR" ++ String c1 (String c2 ""))%string) :: rx)%list ->
  still_polling (_prepare_command command parameters) (ticks self + timeout) ""
    (negb command_response) (ticks self) pre = Some (body, true, now) ->
  bracketed_detail body detail ->
  fst (_send_command command parameters timeout command_response self)
  = Raises (RfidReaderException detail).
Proof.
  intros Hrx Hpre Hdetail.
  rewrite send_command_unfold, Hrx, (poll_app _ _ _ _ _ _ _ _ _ _ Hpre).
  rewrite poll_error_line. simpl. now rewrite (error_detail_spec _ _ Hdetail).
Qed.

Lemma error_line_reports_bracketed_detail_witness :
  fst (_send_command "AT+KILL" [Some (VStr "1234")] 2000 true
         (reader_with initial_settings
            [line "AT+KILL=1234"; line "<ACCESS ERROR>"; line "ERROR"]))
  = Raises (RfidReaderException "ACCESS ERROR").
Proof.
  apply (error_line_reports_bracketed_detail "AT+KILL" [Some (VStr "1234")] 2000 true
           (reader_with initial_settings
              [line "AT+KILL=1234"; line "<ACCESS ERROR>"; line "ERROR"])
           [line "AT+KILL=1234"; line "<ACCESS ERROR>"] [] "<ACCESS ERROR>"
           "ACCESS ERROR" 2 1 (ascii_of_nat 13) (ascii_of_nat 10)).
  - reflexivity.
  - reflexivity.
  - apply (detail_between "" "ACCESS ERROR" ""); reflexivity.
Defined.

Lemma accumulated_nonempty (sc : string) (pre : list event) :
  forall started, Forall (fun text => text <> "") (accumulated sc started pre).
Proof.
  induction pre as [|[elapsed [raw|]] pre IH]; intros started; simpl;
    [constructor | | apply IH].
  destruct (String.eqb_spec (Py.slice raw None (Some (-2))) ""); [apply IH |].
  destruct started; [| apply IH].
  destruct (_ || _); constructor; [assumption | apply IH].
Qed.

(** The body the loop holds is the last line it accumulated. *)
Lemma still_polling_body (sc : string) (max_time : Z) (pre : list event) :
  forall response started now body started' now',
    still_polling sc max_time response started now pre = Some (body, started', now') ->
    body = default response (last (accumulated sc started pre)).
Proof.
  induction pre as [|[elapsed data] pre IH]; simpl;
    intros response started now body started' now' H.
  - now inversion H.
  - destruct data as [raw|]; unfold loop_body in H.
    + destruct (String.eqb (Py.slice raw None (Some (-2))) "") eqn:Hempty;
        [now apply IH in H |].
      destruct started.
      * destruct (String.eqb (Py.slice raw None (Some (-2))) "OK"); [discriminate |].
        destruct (String.eqb (Py.slice raw None (Some (-2))) "ERROR"); [discriminate |].
        apply IH in H. simpl. rewrite last_cons.
        now destruct (last (accumulated sc true pre)).
      * destruct (Py.contains sc (Py.slice raw None (Some (-2)))); now apply IH in H.
    + destruct (max_time <=? now + elapsed); [discriminate |]. now apply IH in H.
Qed.

(** C2: when a read comes back empty at or after the deadline and the
    events [pre] before it brought no terminal line, [_send_command] raises
    a protocol error: "no reader response" for the sent command when no
    line was accumulated, and otherwise "wrong response" for the sent
    command followed by the accumulated body, the last line accumulated. *)
Theorem deadline_reports_timeout
    (command : string) (parameters : list (option value)) (timeout : Z)
    (command_response : bool) (self : reader)
    (pre rx : list event) (body : string) (started : bool) (now elapsed : Z) :
  incoming self = (pre ++ Rx elapsed None :: rx)%list ->
  still_polling (_prepare_command command parameters) (ticks self + timeout) ""
    (negb command_response) (ticks self) pre = Some (body, started, now) ->
  ticks self + timeout <= now + elapsed ->
  fst (_send_command command parameters timeout command_response self)
  = Raises (RfidReaderException
      match last (accumulated (_prepare_command command parameters)
                    (negb command_response) pre) with
      | None => "no reader response for command " ++ _prepare_command command parameters
      | Some text =>
          "wrong response for command " ++ _prepare_command command parameters
          ++ " - " ++ text
      end).
Proof.
  intros Hrx Hpre Hlate.
  rewrite send_command_unfold, Hrx, (poll_app _ _ _ _ _ _ _ _ _ _ Hpre).
  cbn [poll]. unfold loop_body.
  destruct (Z.leb_spec (ticks self + timeout) (now + elapsed)); [| lia].
  simpl. f_equal.
  pose proof (still_polling_body _ _ _ _ _ _ _ _ _ Hpre) as Hbody.
  pose proof (accumulated_nonempty (_prepare_command command parameters) pre
                (negb command_response)) as Hne.
  unfold timeout_error.
  destruct (last (accumulated _ _ pre)) as [text|] eqn:Hlast; simpl in Hbody; subst body.
  - apply last_Some_elem_of in Hlast.
    rewrite Forall_forall in Hne. apply Hne in Hlast.
    apply String.eqb_neq in Hlast. now rewrite Hlast.
  - reflexivity.
Qed.

Lemma deadline_reports_timeout_witness :
  fst (_send_command "AT+INV" [] 2000 true
         (reader_with initial_settings
            [line "AT+INV"; line "+INV: E200"; Rx 2000 None]))
  = Raises (RfidReaderException "wrong response for command AT+INV - +INV: E200").
Proof.
  apply (deadline_reports_timeout "AT+INV" [] 2000 true
           (reader_with initial_settings
              [line "AT+INV"; line "+INV: E200"; Rx 2000 None])
           [line "AT+INV"; line "+INV: E200"] [] "+INV: E200" true 2 2000).
  - reflexivity.
  - reflexivity.
  - simpl. lia.
Defined.

(** C2 as stated fails: the deadline is looked at only when a read comes
    back empty.  With a timeout of 2000 ms and a line arriving every 400 ms
    the loop runs past the deadline and raises nothing, and an OK that
    arrives at 3202 ms makes the command return. *)
Lemma late_lines_outrun_the_deadline :
  fst (_send_command "AT+INV" [] 2000 true
         (reader_with initial_settings
            (line "AT+INV" :: repeat (Rx 400 (Some ("+INV: AAAA" ++ CRLF))) 8
             ++ [line "OK"])))
  = Returns ["+INV: AAAA"] /\
  ticks (snd (_send_command "AT+INV" [] 2000 true
                (reader_with initial_settings
                   (line "AT+INV" :: repeat (Rx 400 (Some ("+INV: AAAA" ++ CRLF))) 8
                    ++ [line "OK"]))))
  = 3202 /\
  ticks (reader_with initial_settings []) + 2000 < 3202.
Proof. repeat split. Qed.

(** A command nothing answers: the other message. *)
Example silence_reports_no_response :
  fst (_send_command "AT+INV" [] 2000 true
         (reader_with initial_settings [Rx 1000 None; Rx 1000 None]))
  = Raises (RfidReaderException "no reader response for command AT+INV").
Proof. reflexivity. Qed.

(** ** Identity and compatibility check *)

(** C3: for a QRG2 (minimum firmware 1.3) that answers with the expected
    names, [get_reader_info] raises "firmware too low" for version 0200,
    which is 2.0 and above the minimum, and returns the info for version
    0100, which is 1.0 and below it: the comparison is the wrong way
    round. *)
Theorem firmware_check_is_inverted
    (repr_lines : list string -> string) (repr_float : Z -> string) :
  fst (get_reader_info repr_lines repr_float
         (reader_with initial_settings
            [line "ATI"; line (Py.join CR (identity_lines "0200")); line "OK"]))
  = Raises (RfidReaderException
      ("Reader firmware too low, please update! Minimum " ++ repr_float 130
       ++ " expected, " ++ repr_float 200 ++ " found")) /\
  fst (get_reader_info repr_lines repr_float
         (reader_with initial_settings
            [line "ATI"; line (Py.join CR (identity_lines "0100")); line "OK"]))
  = Returns {| firmware := "QRG2"; firmware_version := "0100"; hardware := "QRG2";
               hardware_version := "0100"; serial_number := "2020090817420000" |}.
Proof. split; reflexivity. Qed.

(** With the expected names, the check raises exactly when the derived
    version is above the declared minimum. *)
Lemma firmware_check_raises_above_minimum
    (repr_float : Z -> string) (version : string) (v : Z) :
  Py.mem " " version = false ->
  derived_firmware_version version = Returns v ->
  check_reader_info repr_float (Some QRG2_expected_reader) (identity_lines version)
  = if v >? 130 then
      Raises (RfidReaderException
        ("Reader firmware too low, please update! Minimum " ++ repr_float 130
         ++ " expected, " ++ repr_float v ++ " found"))
    else
      Returns {| firmware := "QRG2"; firmware_version := version; hardware := "QRG2";
                 hardware_version := "0100"; serial_number := "2020090817420000" |}.
Proof.
  intros Hplain Hv. unfold check_reader_info, identity_lines.
  simpl. rewrite (split_no_sep " " version Hplain). simpl. rewrite Hv. reflexivity.
Qed.

(** ** Population size *)

Lemma q_loop_least (fuel : nat) :
  forall count q,
    0 <= q -> count - q <= Z.of_nat fuel ->
    exists r, q_loop (S fuel) count q = Some r /\ q <= r /\ count <= 2 ^ r /\
              forall q', q <= q' < r -> 2 ^ q' < count.
Proof.
  induction fuel as [|fuel IH]; intros count q Hq Hfuel;
    pose proof (Z.pow_gt_lin_r 2 q ltac:(lia) Hq) as Hpow;
    cbn [q_loop]; destruct (Z.gtb_spec count (2 ^ q)) as [Hgt | Hle].
  - simpl in Hfuel. lia.
  - exists q. repeat split; [lia | assumption | lia].
  - destruct (IH count (q + 1)) as (r & Hr & Hqr & Hcr & Hbelow); [lia | lia |].
    exists r. repeat split; [assumption | lia | assumption |].
    intros q' Hq'. destruct (Z.eq_dec q' q) as [-> | Hne]; [lia |].
    apply Hbelow. lia.
  - exists q. repeat split; [lia | assumption | lia].
Qed.

(** The loop always ends, on the smallest exponent. *)
Lemma q_of_least (count : Z) :
  exists q, q_of count = Returns q /\ least_exponent count q.
Proof.
  unfold q_of.
  destruct (q_loop_least (Z.to_nat count) count 0) as (r & Hr & Hq & Hc & Hbelow);
    [lia | lia |].
  exists r. rewrite Hr. split; [reflexivity |].
  repeat split; [assumption | assumption |].
  intros q' Hq' Hc'. destruct (Z.le_gt_cases r q') as [|Hlt]; [assumption |].
  specialize (Hbelow q' ltac:(lia)). lia.
Qed.

Lemma set_tag_size_written (tags_size : Z) (min_tags max_tags : option Z)
    (parameters : list (option value)) (self : reader) :
  set_tag_size_parameters tags_size min_tags max_tags = Returns parameters ->
  written (snd (set_tag_size tags_size min_tags max_tags self))
  = (written self ++ [(_prepare_command "AT+Q" parameters ++ CR)%string])%list.
Proof.
  intros H. unfold set_tag_size, io_bind, io_lift. rewrite H.
  pose proof (send_command_written "AT+Q" parameters 2000 true self) as Hw.
  destruct (_send_command "AT+Q" parameters 2000 true self) as [[] self']; exact Hw.
Qed.

(** C7 as stated fails: [set_tag_size(1)], with the min and the max count
    left out, writes AT+Q=0,0,8 and not AT+Q=0: both are sent. *)
Lemma set_tag_size_sends_defaults :
  written (snd (set_tag_size 1 None None
                  (reader_with initial_settings [line "AT+Q=0,0,8"; line "OK"])))
  = ["AT+Q=0,0,8" ++ CR] /\
  "AT+Q=0,0,8" ++ CR <> "AT+Q=0" ++ CR.
Proof. split; [reflexivity | discriminate]. Qed.

(** C7, amended: for every target, min and max count (min 0 and max 256
    when left out), [set_tag_size] sends AT+Q with the smallest exponent
    [q >= 0] such that [2^q >= count] for the target, then the one for the
    min count, which is always sent, then the one for the max count, which
    is left out exactly when the max count is 0.  q(1)=0, q(2)=1, q(3)=2,
    q(256)=8, q(257)=9. *)
Theorem set_tag_size_exponents (tags_size : Z) (min_tags max_tags : option Z)
    (self : reader) :
  exists q_start q_min q_max,
    set_tag_size_parameters tags_size min_tags max_tags
    = Returns [Some (VInt q_start); Some (VInt q_min); VInt <$> q_max] /\
    least_exponent tags_size q_start /\
    least_exponent (default 0 min_tags) q_min /\
    match q_max with
    | Some q => default 256 max_tags <> 0 /\ least_exponent (default 256 max_tags) q
    | None => default 256 max_tags = 0
    end /\
    written (snd (set_tag_size tags_size min_tags max_tags self))
    = (written self
       ++ [(_prepare_command "AT+Q"
              [Some (VInt q_start); Some (VInt q_min); VInt <$> q_max] ++ CR)%string])%list /\
    q_of 1 = Returns 0 /\ q_of 2 = Returns 1 /\ q_of 3 = Returns 2 /\
    q_of 256 = Returns 8 /\ q_of 257 = Returns 9.
Proof.
  destruct (q_of_least tags_size) as (q_start & Hs & Hls).
  destruct (q_of_least (default 0 min_tags)) as (q_min0 & Hm & Hlm).
  destruct (q_of_least (default 256 max_tags)) as (q_max0 & Hx & Hlx).
  set (q_min := if negb (default 0 min_tags =? 0) then q_min0 else 0).
  set (q_max := if negb (default 256 max_tags =? 0) then Some q_max0 else None).
  assert (Hp : set_tag_size_parameters tags_size min_tags max_tags
               = Returns [Some (VInt q_start); Some (VInt q_min); VInt <$> q_max]).
  { unfold set_tag_size_parameters, q_min, q_max. rewrite Hs. simpl.
    destruct (default 0 min_tags =? 0); simpl; rewrite ?Hm; simpl;
      destruct (default 256 max_tags =? 0); simpl; rewrite ?Hx; reflexivity. }
  exists q_start, q_min, q_max.
  split; [exact Hp |]. split; [exact Hls |]. split.
  { unfold q_min. destruct (Z.eqb_spec (default 0 min_tags) 0) as [-> | _]; simpl;
      [| exact Hlm].
    repeat split; [lia | simpl; lia | intros; lia]. }
  split.
  { unfold q_max. destruct (Z.eqb_spec (default 256 max_tags) 0); simpl; auto. }
  split; [now apply set_tag_size_written |].
  repeat split; reflexivity.
Qed.

(** ** Tag identity *)

(** C9 as stated fails for the generic variant: without a tid, or with an
    empty one, [Tag.get_id] is the empty string and not "unknown". *)
Lemma generic_tag_without_tid_has_empty_id :
  Tag.get_id ∅ = VStr "" /\ Tag.get_id ∅ <> VStr "unknown" /\
  Tag.get_id (Tag.set_tid "" ∅) <> VStr "unknown".
Proof. split; [reflexivity | split; discriminate]. Qed.

(** C9, amended: [UhfTag.get_id] is the epc field, and "unknown" when that
    field is absent or empty; [Tag.get_id] is the tid field, and the empty
    string when that field is absent. *)
Theorem get_id_by_variant (t : tag) :
  UhfTag.get_id t
  = match t !! "epc" with
    | Some epc => if truthy epc then epc else VStr "unknown"
    | None => VStr "unknown"
    end /\
  Tag.get_id t = match t !! "tid" with Some tid => tid | None => VStr "" end.
Proof.
  unfold UhfTag.get_id, UhfTag.get_epc, Tag.get_id, Tag.get_tid, Tag.get.
  split; [| reflexivity]. now destruct (t !! "epc").
Qed.

(** ** EPC rewrite: the PC check *)

(** Once a non-zero base has been seen, a different base raises. *)
Lemma check_pc_detects_after_nonzero (pc_byte : Z) (t : tag) (rest : list tag) (n : Z) :
  pc_byte <> 0 ->
  int16 (py_str (Tag.get_data t)) = Returns n ->
  Z.land n 0x07FF <> pc_byte ->
  check_pc pc_byte (t :: rest) = Raises (RfidReaderException different_tags_message).
Proof.
  intros Hpc Hn Hdiff. simpl. rewrite Hn. simpl.
  destruct (Z.eqb_spec pc_byte 0); [contradiction |].
  now destruct (Z.eqb_spec (Z.land n 2047) pc_byte).
Qed.

(** While the base seen so far is zero, the next tag is never compared. *)
Lemma check_pc_skips_zero_base (t : tag) (rest : list tag) (n : Z) :
  int16 (py_str (Tag.get_data t)) = Returns n ->
  check_pc 0 (t :: rest) = check_pc (Z.land n 0x07FF) rest.
Proof. intros Hn. simpl. now rewrite Hn. Qed.

(** C4: with PC words 3000 and 3400 in the field, whose bases 0 and 0x400
    differ, [write_tag_epc] raises nothing and sends both writes; the
    same two tags answering in the other order do raise the ambiguity
    error after the read alone. *)
Theorem rewrite_misses_zero_pc_base :
  outcome_map (map UhfTag.get_epc)
    (fst (write_tag_epc "" "11112222" 0 (reader_with initial_settings two_pc_bases)))
  = Returns [VStr "11112222"; VStr "11112222"] /\
  written (snd (write_tag_epc "" "11112222" 0 (reader_with initial_settings two_pc_bases)))
  = ["AT+READ=PC,0,2," ++ CR; "AT+WRT=EPC,0,11112222," ++ CR; "AT+WRT=PC,0,1400," ++ CR] /\
  fst (write_tag_epc "" "11112222" 0 (reader_with initial_settings two_pc_bases_swapped))
  = Raises (RfidReaderException different_tags_message) /\
  written (snd (write_tag_epc "" "11112222" 0
                  (reader_with initial_settings two_pc_bases_swapped)))
  = ["AT+READ=PC,0,2," ++ CR].
Proof. repeat split; vm_compute; reflexivity. Qed.

(** ** EPC rewrite: reconciliation *)

Section Dict.

Lemma dict_get_set_eq (k : value) (t : tag) (tags : tag_dict) :
  dict_get k (dict_set k t tags) = Some t.
Proof.
  induction tags as [|[k0 old] rest IH]; simpl.
  - now rewrite decide_True.
  - destruct (decide (k0 = k)) as [-> | Hne]; simpl.
    + now rewrite decide_True.
    + now rewrite decide_False.
Qed.

Lemma dict_get_set_ne (k k' : value) (t : tag) (tags : tag_dict) :
  k' <> k -> dict_get k (dict_set k' t tags) = dict_get k tags.
Proof.
  intros Hne. induction tags as [|[k0 old] rest IH]; simpl.
  - now rewrite decide_False.
  - destruct (decide (k0 = k')) as [-> | Hne']; simpl.
    + now rewrite !decide_False.
    + now rewrite IH.
Qed.

Lemma dict_get_values (k : value) (t : tag) (tags : tag_dict) :
  dict_get k tags = Some t -> t ∈ dict_values tags.
Proof.
  induction tags as [|[k0 old] rest IH]; simpl; [discriminate |].
  destruct (decide (k0 = k)); intros H.
  - inversion H; subst. apply list_elem_of_here.
  - apply list_elem_of_further. now apply IH.
Qed.

End Dict.

Lemma note_epc_writes_app (new_epc : string) (l1 l2 : list tag) :
  forall tags,
    note_epc_writes new_epc (l1 ++ l2)%list tags
    = note_epc_writes new_epc l2 (note_epc_writes new_epc l1 tags).
Proof. induction l1 as [|t l1 IH]; intros tags; simpl; [reflexivity | apply IH]. Qed.

Lemma note_epc_writes_other (new_epc : string) (k : value) (l : list tag) :
  forall tags,
    Forall (fun t => UhfTag.get_epc t <> k) l ->
    dict_get k (note_epc_writes new_epc l tags) = dict_get k tags.
Proof.
  induction l as [|t l IH]; intros tags Hall; simpl; [reflexivity |].
  inversion Hall as [|? ? Ht Hl]; subst.
  rewrite (IH _ Hl). now apply dict_get_set_ne.
Qed.

Lemma reconcile_app (p1 p2 : list tag) :
  forall tags, reconcile (p1 ++ p2)%list tags = reconcile p2 (reconcile p1 tags).
Proof. induction p1 as [|t p1 IH]; intros tags; simpl; [reflexivity | apply IH]. Qed.

Lemma reconcile_other (k : value) (l : list tag) :
  forall tags,
    Forall (fun t => UhfTag.get_epc t <> k) l ->
    dict_get k (reconcile l tags) = dict_get k tags.
Proof.
  induction l as [|t l IH]; intros tags Hall; simpl; [reflexivity |].
  inversion Hall as [|? ? Ht Hl]; subst.
  rewrite (IH _ Hl).
  repeat case_match; try reflexivity; now apply dict_get_set_ne.
Qed.

Lemma tag_with_field_nonempty (t : tag) (key : string) (v : value) :
  t !! key = Some v -> Tag.nonempty t = true.
Proof.
  intros H. unfold Tag.nonempty. rewrite bool_decide_eq_false_2; [reflexivity |].
  intros ->. now rewrite lookup_empty in H.
Qed.

Lemma set_error_message_fields (message : string) (t : tag) :
  Tag.get_error_message (Tag.set_error_message message t) = VStr message /\
  Tag.has_error (Tag.set_error_message message t) = VBool (negb (String.eqb message "")).
Proof.
  unfold Tag.get_error_message, Tag.has_error, Tag.get, Tag.set_error_message,
    Tag.set_value.
  split.
  - rewrite lookup_insert_ne by discriminate. now rewrite lookup_insert_eq.
  - now rewrite lookup_insert_eq.
Qed.

(** C5 as stated fails: when the EPC write fails with ACCESS ERROR and the
    PC write with MEMORY LOCKED, the record's message chains the EPC-write
    error, not the PC-write error. *)
Lemma both_failed_chains_epc_error :
  outcome_map (map Tag.get_error_message)
    (fst (write_tag_epc "" "11112222" 0 (reader_with initial_settings both_writes_fail)))
  = Returns [VStr "epc not written - ACCESS ERROR"] /\
  VStr "epc not written - ACCESS ERROR" <> VStr ("epc not written - " ++ "MEMORY LOCKED").
Proof. split; [vm_compute; reflexivity | discriminate]. Qed.

(** A tag that answers the PC write twice is reconciled twice: the second
    failure chains the message the first one left. *)
Example repeated_pc_answer_is_reconciled_twice :
  Tag.get_error_message <$>
    dict_get (VStr "AAAA")
      (reconcile [Tag.set_error_message "ACCESS ERROR" (UhfTag.set_epc "AAAA" ∅);
                  Tag.set_error_message "ACCESS ERROR" (UhfTag.set_epc "AAAA" ∅)]
         (note_epc_writes "11112222" [UhfTag.set_epc "AAAA" ∅] []))
  = Some (VStr "epc not written - epc written, epc length not updated!").
Proof. vm_compute. reflexivity. Qed.

(** C5, amended: take a tag whose record [tag_e] is the last one with its
    EPC [k] in the EPC-write response and whose record [tag_p] is the only
    one with that EPC in the PC-write response, the PC write having failed.
    The reconciled dict then holds under [k] a record with [has_error] true
    whose message is "epc written, epc length not updated!" when the EPC
    write succeeded, and "epc not written - " followed by the EPC-write
    error message when it failed. *)
Theorem reconcile_reports (new_epc : string) (l1 l2 p1 p2 : list tag)
    (tag_e tag_p : tag) (k : value) :
  tag_e !! "epc" = Some k ->
  UhfTag.get_epc tag_p = k ->
  Forall (fun t => UhfTag.get_epc t <> k) l2 ->
  Forall (fun t => UhfTag.get_epc t <> k) (p1 ++ p2)%list ->
  truthy (Tag.has_error tag_p) = true ->
  exists t,
    dict_get k (reconcile (p1 ++ tag_p :: p2)%list
                  (note_epc_writes new_epc (l1 ++ tag_e :: l2)%list []))
    = Some t /\
    t ∈ dict_values (reconcile (p1 ++ tag_p :: p2)%list
                       (note_epc_writes new_epc (l1 ++ tag_e :: l2)%list [])) /\
    Tag.has_error t = VBool true /\
    Tag.get_error_message t
    = VStr (if truthy (Tag.has_error tag_e)
            then "epc not written - " ++ py_str (Tag.get_error_message tag_e)
            else "epc written, epc length not updated!").
Proof.
  intros Hepc Hpc Hl2 Hp Hfail.
  apply Forall_app in Hp as [Hp1 Hp2].
  assert (Hkey : UhfTag.get_epc tag_e = k).
  { unfold UhfTag.get_epc, Tag.get. now rewrite Hepc. }
  set (tag_e' := if negb (truthy (Tag.has_error tag_e))
                 then Tag.set_value "old_epc" (Some k) (UhfTag.set_epc new_epc tag_e)
                 else tag_e).
  set (tags0 := note_epc_writes new_epc (l1 ++ tag_e :: l2)%list []).
  assert (H0 : dict_get k tags0 = Some tag_e').
  { unfold tags0. rewrite note_epc_writes_app. simpl. rewrite Hkey.
    rewrite (note_epc_writes_other _ _ _ _ Hl2). apply dict_get_set_eq. }
  assert (Hne : Tag.nonempty tag_e' = true).
  { unfold tag_e'. destruct (negb (truthy (Tag.has_error tag_e))).
    - apply (tag_with_field_nonempty _ "old_epc" k).
      unfold Tag.set_value. apply lookup_insert_eq.
    - now apply (tag_with_field_nonempty _ "epc" k). }
  assert (Herr : Tag.has_error tag_e' = Tag.has_error tag_e).
  { unfold tag_e'. destruct (negb (truthy (Tag.has_error tag_e))); [| reflexivity].
    unfold Tag.has_error, Tag.get, Tag.set_value, UhfTag.set_epc, Tag.set_value.
    now rewrite !lookup_insert_ne by discriminate. }
  assert (Hmsg : Tag.get_error_message tag_e' = Tag.get_error_message tag_e).
  { unfold tag_e'. destruct (negb (truthy (Tag.has_error tag_e))); [| reflexivity].
    unfold Tag.get_error_message, Tag.get, Tag.set_value, UhfTag.set_epc, Tag.set_value.
    now rewrite !lookup_insert_ne by discriminate. }
  set (message := if truthy (Tag.has_error tag_e)
                  then "epc not written - " ++ py_str (Tag.get_error_message tag_e)
                  else "epc written, epc length not updated!").
  assert (Hget : dict_get k (reconcile (p1 ++ tag_p :: p2)%list tags0)
                 = Some (Tag.set_error_message message tag_e')).
  { rewrite reconcile_app. simpl. rewrite (reconcile_other _ _ _ Hp2).
    rewrite Hpc, (reconcile_other _ _ _ Hp1), H0, Hne, Hfail, Herr.
    unfold message. rewrite Hmsg.
    destruct (truthy (Tag.has_error tag_e)); simpl; apply dict_get_set_eq. }
  exists (Tag.set_error_message message tag_e').
  split; [exact Hget |]. split; [exact (dict_get_values _ _ _ Hget) |].
  destruct (set_error_message_fields message tag_e') as [Hm He].
  split; [| exact Hm].
  rewrite He. unfold message. now destruct (truthy (Tag.has_error tag_e)).
Qed.

Lemma reconcile_reports_witness :
  exists t,
    dict_get (VStr "AAAA")
      (reconcile [Tag.set_error_message "MEMORY LOCKED" (UhfTag.set_epc "AAAA" ∅)]
         (note_epc_writes "11112222"
            [Tag.set_error_message "ACCESS ERROR" (UhfTag.set_epc "AAAA" ∅)] []))
    = Some t /\
    Tag.get_error_message t = VStr "epc not written - ACCESS ERROR".
Proof.
  destruct (reconcile_reports "11112222" [] [] [] []
              (Tag.set_error_message "ACCESS ERROR" (UhfTag.set_epc "AAAA" ∅))
              (Tag.set_error_message "MEMORY LOCKED" (UhfTag.set_epc "AAAA" ∅))
              (VStr "AAAA"))
    as (t & Hget & _ & _ & Hmsg).
  - reflexivity.
  - reflexivity.
  - constructor.
  - constructor.
  - reflexivity.
  - exists t. split; [exact Hget | exact Hmsg].
Defined.

(** ** Inventory decoder *)



(** ** Response collector: what a caller can rely on *)

Lemma split_nonempty (c : ascii) (s : string) : Py.split c s <> [].
Proof.
  destruct s as [|a s]; simpl; [discriminate |].
  destruct (Ascii.eqb a c); [discriminate |].
  destruct (Py.split c s); discriminate.
Qed.

Lemma loop_body_return_nonempty (sc : string) (max_time : Z) (response : string)
    (started : bool) (now : Z) (data : option string) (lines : list string) :
  loop_body sc max_time response started now data = Return lines -> lines <> [].
Proof.
  unfold loop_body. repeat case_match; try discriminate; intros [= <-];
    [discriminate | apply split_nonempty].
Qed.

Lemma poll_returns_nonempty (sc : string) (max_time : Z) (rx : list event) :
  forall response started now lines,
    fst (poll sc max_time response started now rx) = Returns lines -> lines <> [].
Proof.
  induction rx as [|[elapsed data] rx IH]; simpl; intros response started now lines H;
    [discriminate |].
  destruct (loop_body sc max_time response started (now + elapsed) data) eqn:Hstep;
    simpl in H; try discriminate.
  - now apply IH in H.
  - injection H as <-. now apply loop_body_return_nonempty in Hstep.
Qed.

Lemma send_command_nonempty
    (command : string) (parameters : list (option value)) (timeout : Z)
    (command_response : bool) (self : reader) (lines : list string) :
  fst (_send_command command parameters timeout command_response self) = Returns lines ->
  lines <> [].
Proof. rewrite send_command_unfold. apply poll_returns_nonempty. Qed.

(** X1: whatever the device sends, a list [_send_command] returns has a
    first element, so [response[0]] in a caller never fails. *)
Theorem send_command_returns_a_line
    (command : string) (parameters : list (option value)) (timeout : Z)
    (command_response : bool) (self : reader) (lines : list string) :
  fst (_send_command command parameters timeout command_response self) = Returns lines ->
  exists first rest, lines = first :: rest.
Proof.
  intros H. apply send_command_nonempty in H.
  destruct lines as [|first rest]; [contradiction | eauto].
Qed.

Lemma send_command_returns_a_line_witness :
  exists first rest, ["+REG: ETSI"] = first :: rest.
Proof.
  apply (send_command_returns_a_line "AT+REG?" [] 2000 true
           (reader_with initial_settings (exchange "AT+REG?" "+REG: ETSI"))
           ["+REG: ETSI"]).
  reflexivity.
Defined.

Lemma poll_ok_line (sc : string) (max_time : Z) (body : string) (now elapsed : Z)
    (c1 c2 : ascii) (rx : list event) :
  poll sc max_time body true now
    (Rx elapsed (Some ("OK" ++ String c1 (String c2 ""))) :: rx)
  = (Returns (if String.eqb body "" then [""] else Py.split (ascii_of_nat 13) body),
     (now + elapsed, rx)).
Proof.
  cbn [poll]. unfold loop_body. now rewrite strip_terminator.
Qed.

Lemma body_is_last_accumulated (sc : string) (pre : list event) (started : bool)
    (body : string) :
  body = default "" (last (accumulated sc started pre)) ->
  (if String.eqb body "" then [""] else Py.split (ascii_of_nat 13) body)
  = match last (accumulated sc started pre) with
    | None => [""]
    | Some text => Py.split (ascii_of_nat 13) text
    end.
Proof.
  intros ->. pose proof (accumulated_nonempty sc pre started) as Hne.
  destruct (last (accumulated sc started pre)) as [text|] eqn:Hlast; simpl; [| reflexivity].
  apply last_Some_elem_of in Hlast. rewrite Forall_forall in Hne. apply Hne in Hlast.
  apply String.eqb_neq in Hlast. now rewrite Hlast.
Qed.

(** X2: once the collector is accumulating, a line that reads OK ends the
    command.  It returns the carriage-return separated pieces of the last
    line accumulated before the OK (an earlier line is replaced by a later
    one), or the one-element list of the empty string when no line was
    accumulated; the events after the OK stay on the line for the next
    command, and the command was written once, ended by a carriage
    return. *)
Theorem ok_line_returns_last_block
    (command : string) (parameters : list (option value)) (timeout : Z)
    (command_response : bool) (self : reader)
    (pre rx : list event) (body : string) (now elapsed : Z) (c1 c2 : ascii) :
  incoming self
  = (pre ++ Rx elapsed (Some ("OK" ++ String c1 (String c2 ""))%string) :: rx)%list ->
  still_polling (_prepare_command command parameters) (ticks self + timeout) ""
    (negb command_response) (ticks self) pre = Some (body, true, now) ->
  _send_command command parameters timeout command_response self
  = (Returns match last (accumulated (_prepare_command command parameters)
                           (negb command_response) pre) with
             | None => [""]
             | Some text => Py.split (ascii_of_nat 13) text
             end,
     {| written := (written self
                    ++ [(_prepare_command command parameters ++ CR)%string])%list;
        incoming := rx; ticks := now + elapsed; clock := clock self;
        _config := _config self; _expected_reader := _expected_reader self |}).
Proof.
  intros Hrx Hpre. unfold _send_command.
  rewrite Hrx, (poll_app _ _ _ _ _ _ _ _ _ _ Hpre), poll_ok_line.
  f_equal. f_equal. apply body_is_last_accumulated.
  exact (still_polling_body _ _ _ _ _ _ _ _ _ Hpre).
Qed.

Lemma ok_line_returns_last_block_witness :
  fst (_send_command "AT+INV" [] 2000 true
         (reader_with initial_settings
            [line "AT+INV"; line "+INV: AAAA"; line ("+INV: BBBB" ++ CR ++ "+INV: CCCC");
             line "OK"; line "+CINV: DDDD"]))
  = Returns ["+INV: BBBB"; "+INV: CCCC"] /\
  incoming (snd (_send_command "AT+INV" [] 2000 true
         (reader_with initial_settings
            [line "AT+INV"; line "+INV: AAAA"; line ("+INV: BBBB" ++ CR ++ "+INV: CCCC");
             line "OK"; line "+CINV: DDDD"])))
  = [line "+CINV: DDDD"].
Proof.
  rewrite (ok_line_returns_last_block "AT+INV" [] 2000 true
           (reader_with initial_settings
              [line "AT+INV"; line "+INV: AAAA";
               line ("+INV: BBBB" ++ CR ++ "+INV: CCCC"); line "OK"; line "+CINV: DDDD"])
           [line "AT+INV"; line "+INV: AAAA"; line ("+INV: BBBB" ++ CR ++ "+INV: CCCC")]
           [line "+CINV: DDDD"] ("+INV: BBBB" ++ CR ++ "+INV: CCCC") 3 1
           (ascii_of_nat 13) (ascii_of_nat 10) eq_refl eq_refl).
  split; reflexivity.
Defined.

Lemma poll_without_echo (sc : string) (max_time : Z) (rx : list event) :
  forall now,
    Forall (fun e => echoes sc e = false) rx ->
    fst (poll sc max_time "" false now rx) = Stalled \/
    fst (poll sc max_time "" false now rx) = Raises (timeout_error sc "").
Proof.
  induction rx as [|[elapsed data] rx IH]; intros now Hrx; simpl; [now left |].
  inversion Hrx as [|e l He Hl]; subst. unfold loop_body.
  destruct data as [raw|].
  - destruct (String.eqb (Py.slice raw None (Some (-2))) ""); [now apply IH |].
    simpl in He. rewrite He. now apply IH.
  - destruct (max_time <=? now + elapsed); [now right | now apply IH].
Qed.

(** X3: a command that waits for its echo returns nothing until a line
    contains the command as sent.  When no line does, lines that read OK or
    ERROR included, the command can only end at the deadline with "no
    reader response" (or is still polling when the script ends). *)
Theorem no_echo_no_answer
    (command : string) (parameters : list (option value)) (timeout : Z) (self : reader) :
  Forall (fun e => echoes (_prepare_command command parameters) e = false)
    (incoming self) ->
  fst (_send_command command parameters timeout true self) = Stalled \/
  fst (_send_command command parameters timeout true self)
  = Raises (RfidReaderException
      ("no reader response for command " ++ _prepare_command command parameters)).
Proof.
  intros H. rewrite send_command_unfold. simpl negb.
  exact (poll_without_echo _ _ _ _ H).
Qed.

Lemma no_echo_no_answer_witness :
  fst (_send_command "AT+INV" [] 2000 true
         (reader_with initial_settings
            [line "+INV: AAAA"; line "OK"; line "ERROR"; Rx 2000 None])) = Stalled \/
  fst (_send_command "AT+INV" [] 2000 true
         (reader_with initial_settings
            [line "+INV: AAAA"; line "OK"; line "ERROR"; Rx 2000 None]))
  = Raises (RfidReaderException ("no reader response for command " ++ "AT+INV")).
Proof.
  apply (no_echo_no_answer "AT+INV" [] 2000
           (reader_with initial_settings
              [line "+INV: AAAA"; line "OK"; line "ERROR"; Rx 2000 None])).
  repeat constructor.
Defined.

(** ** Numbers on the wire *)

Lemma string_of_uint_head (d : Decimal.uint) :
  d <> Decimal.Nil ->
  exists a rest, NilEmpty.string_of_uint d = String a rest /\
                 a <> "-"%char /\ a <> "+"%char.
Proof.
  destruct d; [contradiction | ..]; intros _; simpl; eexists _, _;
    (split; [reflexivity | split; discriminate]).
Qed.

Lemma digits_of_uint (d : Decimal.uint) :
  d <> Decimal.Nil -> digits (NilEmpty.string_of_uint d) = Some (Z.of_uint d).
Proof.
  intros Hd. destruct (string_of_uint_head d Hd) as (a & rest & Hs & _).
  unfold digits. destruct (NilEmpty.string_of_uint d) eqn:Htext; [discriminate |].
  now rewrite <- Htext, NilEmpty.usu.
Qed.

Lemma digits_of_positive (p : positive) :
  digits (NilEmpty.string_of_uint (Pos.to_uint p)) = Some (Z.pos p).
Proof.
  rewrite digits_of_uint by apply DecimalPos.Unsigned.to_uint_nonnil.
  unfold Z.of_uint. now rewrite DecimalPos.Unsigned.of_to.
Qed.

Lemma str_of_positive (p : positive) :
  Py.str_of_int (Z.pos p) = NilEmpty.string_of_uint (Pos.to_uint p).
Proof.
  unfold Py.str_of_int. simpl.
  pose proof (DecimalPos.Unsigned.to_uint_nonnil p) as Hd.
  now destruct (Pos.to_uint p).
Qed.

Lemma str_of_negative (p : positive) :
  Py.str_of_int (Z.neg p) = String "-" (NilEmpty.string_of_uint (Pos.to_uint p)).
Proof.
  unfold Py.str_of_int. simpl.
  pose proof (DecimalPos.Unsigned.to_uint_nonnil p) as Hd.
  now destruct (Pos.to_uint p).
Qed.

Lemma int10_str_of_int (n : Z) : int10 (Py.str_of_int n) = Returns n.
Proof.
  destruct n as [|p|p].
  - reflexivity.
  - rewrite str_of_positive. unfold int10.
    destruct (string_of_uint_head _ (DecimalPos.Unsigned.to_uint_nonnil p))
      as (a & rest & Hs & Hminus & Hplus).
    pose proof (digits_of_positive p) as Hd. rewrite Hs in *.
    destruct (Ascii.eqb_spec a "-"); [contradiction |].
    destruct (Ascii.eqb_spec a "+"); [contradiction |].
    assert (match a with
            | "-"%char => option_map Z.opp (digits rest)
            | "+"%char => digits rest
            | _ => digits (String a rest)
            end = digits (String a rest)) as ->.
    { destruct a as [[|] [|] [|] [|] [|] [|] [|] [|]]; try reflexivity; contradiction. }
    now rewrite Hd.
  - rewrite str_of_negative. unfold int10. now rewrite digits_of_positive.
Qed.

Lemma uint_text_plain (c : ascii) (d : Decimal.uint) :
  Py.mem c "0123456789" = false -> Py.mem c (NilEmpty.string_of_uint d) = false.
Proof.
  intros Hc. simpl in Hc. repeat (apply orb_false_elim in Hc as [? Hc]).
  induction d; simpl; rewrite ?IHd; auto using orb_false_intro.
Qed.

(** The text of an integer has no character but digits and a sign. *)
Lemma str_of_int_plain (c : ascii) (n : Z) :
  Py.mem c "-0123456789" = false -> Py.mem c (Py.str_of_int n) = false.
Proof.
  intros Hc. simpl in Hc. apply orb_false_elim in Hc as [Hminus Hc].
  destruct n as [|p|p].
  - simpl in *. repeat (apply orb_false_elim in Hc as [? Hc]). simpl.
    auto using orb_false_intro.
  - rewrite str_of_positive. now apply uint_text_plain.
  - rewrite str_of_negative. simpl. rewrite Hminus. now apply uint_text_plain.
Qed.

(** X4: the text [str] gives an integer is read back by [int] as the same
    integer, and it holds neither a comma nor a carriage return: a number
    framed into a command or sent in a response line is one field of one
    line and means there what it meant in the call. *)
Theorem int_of_str_round_trip (n : Z) :
  int10 (Py.str_of_int n) = Returns n /\
  Py.mem "," (Py.str_of_int n) = false /\
  Py.mem (ascii_of_nat 13) (Py.str_of_int n) = false.
Proof.
  split; [apply int10_str_of_int |]. split; now apply str_of_int_plain.
Qed.

Lemma hex_digit_upper (d : Z) : 0 <= d < 16 -> hex_digit (upper_hex_char d) = Some d.
Proof.
  intros Hd.
  assert (d = 0 \/ d = 1 \/ d = 2 \/ d = 3 \/ d = 4 \/ d = 5 \/ d = 6 \/ d = 7 \/
          d = 8 \/ d = 9 \/ d = 10 \/ d = 11 \/ d = 12 \/ d = 13 \/ d = 14 \/ d = 15)
    as H by lia.
  repeat (destruct H as [-> | H]; [reflexivity |]). now subst.
Qed.

Lemma hex_value_upper_go (fuel : nat) :
  forall n acc,
    0 <= n < 16 ^ Z.of_nat fuel ->
    hex_value 0 (hex_upper_go fuel n acc) = hex_value n acc.
Proof.
  induction fuel as [|fuel IH]; intros n acc Hn.
  - simpl in *. now replace n with 0 by lia.
  - cbn [hex_upper_go].
    assert (0 <= n mod 16 < 16) as Hd by (apply Z.mod_pos_bound; lia).
    assert (n = 16 * (n / 16) + n mod 16) as Hn16 by (apply Z.div_mod; lia).
    destruct (Z.eqb_spec (n / 16) 0) as [Hq | Hq].
    + cbn [hex_value]. rewrite hex_digit_upper by assumption.
      do 2 f_equal. lia.
    + rewrite IH.
      * cbn [hex_value]. rewrite hex_digit_upper by assumption. f_equal. lia.
      * split; [apply Z.div_pos; lia |].
        apply Z.div_lt_upper_bound; [lia |].
        rewrite Nat2Z.inj_succ, Z.pow_succ_r in Hn by lia. lia.
Qed.

Lemma hex_upper_go_nonempty (fuel : nat) :
  forall n acc, acc <> "" -> hex_upper_go fuel n acc <> "".
Proof.
  induction fuel as [|fuel IH]; intros n acc Hacc; cbn [hex_upper_go]; [assumption |].
  destruct (n / 16 =? 0); [discriminate | now apply IH].
Qed.

Lemma hex_value_zeros (k : nat) (s : string) :
  hex_value 0 (zeros k ++ s) = hex_value 0 s.
Proof. induction k as [|k IH]; simpl; [reflexivity | exact IH]. Qed.

Lemma length_zeros (k : nat) : String.length (zeros k) = k.
Proof. induction k as [|k IH]; simpl; [reflexivity | now rewrite IH]. Qed.

(** X5: the text [format(n, "04X")] gives a non-negative integer has at
    least four characters and is read back by [int(_, 16)] as the same
    integer: the PC word the EPC rewrite sends is the one it computed. *)
Theorem hex_of_format_round_trip (n : Z) :
  0 <= n ->
  int16 (format_04X n) = Returns n /\ (4 <= String.length (format_04X n))%nat.
Proof.
  intros Hn. unfold format_04X.
  set (body := hex_upper_go (S (Z.to_nat (Z.log2 n))) n "").
  assert (hex_value 0 body = Some n) as Hbody.
  { unfold body. rewrite hex_value_upper_go; [reflexivity |].
    split; [assumption |].
    rewrite Nat2Z.inj_succ, Z2Nat.id by apply Z.log2_nonneg.
    destruct (Z.eq_dec n 0) as [-> | Hpos]; [reflexivity |].
    apply Z.lt_le_trans with (2 ^ Z.succ (Z.log2 n)).
    - apply Z.log2_spec. lia.
    - apply Z.pow_le_mono_l. lia. }
  assert (body <> "") as Hne.
  { unfold body. cbn [hex_upper_go].
    destruct (n / 16 =? 0); [discriminate | now apply hex_upper_go_nonempty]. }
  split.
  - unfold int16. rewrite hex_value_zeros, Hbody.
    destruct (zeros _ ++ body) eqn:Hs; [| reflexivity].
    destruct (zeros (4 - String.length body)); [simpl in Hs; contradiction | discriminate].
  - rewrite length_append, length_zeros. lia.
Qed.

Lemma hex_of_format_round_trip_witness :
  int16 (format_04X 0x1400) = Returns 0x1400 /\
  (4 <= String.length (format_04X 0x1400))%nat.
Proof. apply (hex_of_format_round_trip 0x1400). lia. Defined.

(** ** The PC word of an EPC rewrite *)

Lemma testbit_one (j : Z) : Z.testbit 1 j = (j =? 0).
Proof.
  destruct (Z.eqb_spec j 0) as [-> | Hj]; [reflexivity |].
  destruct (Z.lt_ge_cases j 0); [now apply Z.testbit_neg_r |].
  apply Z.bits_above_log2; simpl; lia.
Qed.

(** The length bits are the number of 16-bit words of the new EPC, from bit
    11 upwards. *)
Lemma epc_length_bits_shift (new_epc : string) :
  epc_length_bits new_epc = Z.shiftl (Py.len new_epc / 4) 11.
Proof.
  unfold epc_length_bits.
  assert (0 <= Py.len new_epc) as Hlen by (unfold Py.len; lia).
  rewrite (Z.quot_div_nonneg (Py.len new_epc) 4) by lia.
  set (w := Py.len new_epc / 4).
  assert (0 <= w) as Hw by (apply Z.div_pos; lia).
  rewrite (Z.quot_div_nonneg w 2) by lia.
  assert (w = 2 * (w / 2) + w mod 2) as Hsplit by (apply Z.div_mod; lia).
  destruct (Z.eqb_spec 1 (w mod 2)) as [Hodd | Heven].
  - apply Z.bits_inj'. intros i Hi.
    change 2048 with (Z.shiftl 1 11).
    rewrite Z.lor_spec, !Z.shiftl_spec, testbit_one by assumption.
    replace (w / 2) with (Z.shiftr w 1) by now rewrite Z.shiftr_div_pow2.
    destruct (Z.lt_trichotomy (i - 11) 0) as [Hlow | [Hat | Hhigh]].
    + rewrite !Z.testbit_neg_r by lia. now destruct (Z.eqb_spec (i - 11) 0); [lia |].
    + rewrite Hat, Z.testbit_neg_r by lia. change (0 =? 0) with true. cbn [orb].
      rewrite Z.bit0_odd, Hsplit, <- Hodd. symmetry. rewrite Z.add_comm.
      now rewrite Z.odd_add_mul_2.
    + rewrite Z.shiftr_spec by lia.
      destruct (Z.eqb_spec (i - 11) 0); [lia |]. rewrite orb_false_r.
      f_equal. lia.
  - assert (w mod 2 = 0) as Hzero by (pose proof (Z.mod_pos_bound w 2); lia).
    rewrite !Z.shiftl_mul_pow2 by lia. lia.
Qed.

(** A word made of a masked base and the length bits: the base is its
    eleven low bits and the word count sits from bit 11 upwards. *)
Lemma pc_word_of_masked_base (new_epc : string) (n : Z) :
  Z.land (Z.lor (Z.land n 0x07FF) (epc_length_bits new_epc)) 0x07FF = Z.land n 0x07FF /\
  Z.shiftr (Z.lor (Z.land n 0x07FF) (epc_length_bits new_epc)) 11 = Py.len new_epc / 4.
Proof.
  rewrite epc_length_bits_shift. set (w := Py.len new_epc / 4).
  change 2047 with (Z.ones 11). split.
  - rewrite Z.land_lor_distr_l, <- Z.land_assoc, Z.land_diag.
    rewrite (Z.land_ones (Z.shiftl w 11)), Z.shiftl_mul_pow2, Z.mod_mul by lia.
    apply Z.lor_0_r.
  - rewrite Z.shiftr_lor, Z.shiftr_shiftl_l by lia.
    rewrite Z.land_ones, Z.shiftr_div_pow2, Z.div_small by
      (try apply Z.mod_pos_bound; lia).
    simpl. apply Z.shiftl_0_r.
Qed.

(** ** Exchanges with a well-behaved device *)

(** A command writes its frame and leaves the mirror alone, however it ends. *)
Lemma send_command_state (command : string) (parameters : list (option value))
    (timeout : Z) (command_response : bool) (self : reader) :
  let self' := snd (_send_command command parameters timeout command_response self) in
  written self' = (written self ++ [(_prepare_command command parameters ++ CR)%string])%list /\
  _config self' = _config self /\ clock self' = clock self /\
  _expected_reader self' = _expected_reader self.
Proof.
  unfold _send_command. now destruct (poll _ _ _ _ _ _) as [res [now rx]].
Qed.

Lemma prefix_refl (s : string) : String.prefix s s = true.
Proof.
  induction s as [|a s IH]; simpl; [reflexivity |].
  destruct (ascii_dec a a); [assumption | congruence].
Qed.

Lemma contains_refl (s : string) : Py.contains s s = true.
Proof. destruct s; [reflexivity |]. cbn [Py.contains]. now rewrite prefix_refl. Qed.

Lemma line_stripped (text : string) (elapsed : Z) :
  line text = Rx 1 (Some (text ++ String (ascii_of_nat 13) (String (ascii_of_nat 10) ""))).
Proof. reflexivity. Qed.

Lemma poll_exchange (sc body : string) (max_time now : Z) (rx : list event) :
  sc <> "" -> body <> "" -> body <> "OK" -> body <> "ERROR" ->
  poll sc max_time "" false now (exchange sc body ++ rx)%list
  = (Returns (Py.split (ascii_of_nat 13) body), (now + 1 + 1 + 1, rx)).
Proof.
  intros Hsc Hbody Hok Herror. unfold exchange.
  rewrite !(line_stripped _ 0). cbn [poll app]. unfold loop_body.
  rewrite !strip_terminator.
  apply String.eqb_neq in Hsc, Hbody, Hok, Herror.
  rewrite Hsc, contains_refl, Hbody, Hok, Herror. simpl. now rewrite Hbody.
Qed.

(** The echo, one block and OK: the command returns the lines of the block. *)
Lemma send_command_exchange (command : string) (parameters : list (option value))
    (timeout : Z) (self : reader) (body : string) (rx : list event) :
  incoming self = (exchange (_prepare_command command parameters) body ++ rx)%list ->
  _prepare_command command parameters <> "" ->
  body <> "" -> body <> "OK" -> body <> "ERROR" ->
  _send_command command parameters timeout true self
  = (Returns (Py.split (ascii_of_nat 13) body),
     answered self [_prepare_command command parameters] 3 rx).
Proof.
  intros Hrx Hsc Hbody Hok Herror. unfold _send_command, answered.
  rewrite Hrx, poll_exchange by assumption.
  now replace (ticks self + 1 + 1 + 1) with (ticks self + 3) by lia.
Qed.

(** The echo and OK with nothing in between: the list of the empty string. *)
Lemma send_command_bare_ok (command : string) (parameters : list (option value))
    (timeout : Z) (self : reader) (rx : list event) :
  incoming self = line (_prepare_command command parameters) :: line "OK" :: rx ->
  _prepare_command command parameters <> "" ->
  _send_command command parameters timeout true self
  = (Returns [""], answered self [_prepare_command command parameters] 2 rx).
Proof.
  intros Hrx Hsc. unfold _send_command, answered. rewrite Hrx, !(line_stripped _ 0).
  cbn [poll]. unfold loop_body. rewrite !strip_terminator.
  apply String.eqb_neq in Hsc. rewrite Hsc, contains_refl. cbn [String.eqb].
  now replace (ticks self + 1 + 1) with (ticks self + 2) by lia.
Qed.

Lemma answered_answered (self : reader) (frames frames' : list string)
    (elapsed elapsed' : Z) (rx rx' : list event) :
  answered (answered self frames elapsed rx) frames' elapsed' rx'
  = answered self (frames ++ frames') (elapsed + elapsed') rx'.
Proof.
  unfold answered. cbn [written incoming ticks clock _config _expected_reader].
  now rewrite map_app, app_assoc, Z.add_assoc.
Qed.

(** ** Strings: indexing behind a prefix *)

Lemma get_after (a : string) (c : ascii) (rest : string) :
  String.get (String.length a) (a ++ String c rest) = Some c.
Proof. induction a as [|x a IH]; simpl; [reflexivity | exact IH]. Qed.

Lemma getitem_after (a : string) (c : ascii) (rest : string) :
  Py.getitem (a ++ String c rest) (Py.len a) = Some c.
Proof.
  unfold Py.getitem, Py.len. rewrite length_append. simpl String.length.
  destruct (Z.ltb_spec (Z.of_nat (String.length a)) 0); [lia |].
  destruct (Z.leb_spec 0 (Z.of_nat (String.length a))); [| lia].
  destruct (Z.ltb_spec (Z.of_nat (String.length a))
              (Z.of_nat (String.length a + S (String.length rest)))); [| lia].
  simpl. rewrite Nat2Z.id. apply get_after.
Qed.

Lemma substring_all (s : string) : substring 0 (String.length s) s = s.
Proof. induction s as [|a s IH]; simpl; [reflexivity | now rewrite IH]. Qed.

Lemma slice_after (a s : string) : Py.slice (a ++ s) (Some (Py.len a)) None = s.
Proof.
  unfold Py.slice, Py.clamp_index, Py.len. rewrite length_append.
  destruct (Z.ltb_spec (Z.of_nat (String.length a)) 0); [lia |].
  rewrite Z.min_l by lia. rewrite Nat2Z.id.
  replace (Z.to_nat (Z.of_nat (String.length a + String.length s)
                     - Z.of_nat (String.length a))) with (String.length s) by lia.
  rewrite <- (Nat.add_0_r (String.length a)) at 1.
  rewrite substring_skip. apply substring_all.
Qed.

Lemma nth_item_first {A} (x : A) (l : list A) : Py.nth_item (x :: l) 0 = Some x.
Proof. reflexivity. Qed.

Lemma nth_item_second {A} (x y : A) (l : list A) : Py.nth_item (x :: y :: l) 1 = Some y.
Proof.
  unfold Py.nth_item. cbn [List.length Z.ltb Z.compare].
  destruct (Z.ltb_spec 1 (Z.of_nat (S (S (List.length l))))); [reflexivity | lia].
Qed.

Lemma getitem_empty (i : Z) : Py.getitem "" i = None.
Proof. unfold Py.getitem. now destruct (_ && _). Qed.

Lemma plain_field_spec (s : string) :
  plain_field s = true ->
  Py.mem "," s = false /\ Py.mem (ascii_of_nat 13) s = false /\ Py.mem "<" s = false.
Proof.
  unfold plain_field. intros H.
  apply andb_prop in H as [H Hlt]. apply andb_prop in H as [Hcomma Hcr].
  now rewrite negb_true_iff in Hcomma, Hcr, Hlt.
Qed.

(** The first character of a plain field followed by a comma is not '<'. *)
Lemma field_head (s rest : string) :
  Py.mem "<" s = false ->
  exists c tail, s ++ String "," rest = String c tail /\ Ascii.eqb c "<" = false.
Proof.
  destruct s as [|c s]; simpl; intros H.
  - now eexists _, _.
  - apply orb_false_elim in H as [H _]. now eexists _, _.
Qed.

(** ** Tag-operation decoders *)

Lemma parse_tag_lines_decodes (prefix : string) (timestamp : Z)
    (answers : list (string * string)) :
  Forall (fun a => plain_field (fst a) = true /\ plain_field (snd a) = true) answers ->
  parse_tag_lines (Py.len prefix) timestamp (map (status_line prefix) answers)
  = Returns (map (status_tag timestamp) answers).
Proof.
  induction answers as [|[epc status] answers IH]; intros Hall; [reflexivity |].
  inversion Hall as [|a l [Hepc Hstatus] Hrest]; subst. simpl in Hepc, Hstatus.
  apply plain_field_spec in Hepc as (Hepc & _ & Hlt).
  apply plain_field_spec in Hstatus as (Hstatus & _ & _).
  cbn [map parse_tag_lines].
  assert (status_line prefix (epc, status) = prefix ++ epc ++ String "," status)
    as -> by reflexivity.
  destruct (field_head epc status Hlt) as (c & tail & Hhead & Hc).
  rewrite slice_after, split_field, split_no_sep by assumption.
  rewrite Hhead, getitem_after. cbn [or_raise obind]. rewrite Hc.
  rewrite nth_item_first, nth_item_second. cbn [or_raise obind].
  rewrite IH by assumption. cbn [obind map]. unfold status_tag. cbn [fst snd].
  now destruct (String.eqb status "OK").
Qed.

Lemma nth_item_third {A} (x y z : A) (l : list A) :
  Py.nth_item (x :: y :: z :: l) 2 = Some z.
Proof.
  unfold Py.nth_item. cbn [List.length Z.ltb Z.compare].
  destruct (Z.ltb_spec 2 (Z.of_nat (S (S (S (List.length l)))))); [reflexivity | lia].
Qed.

Lemma append_empty_r (s : string) : s ++ "" = s.
Proof. induction s as [|a s IH]; simpl; [reflexivity | now rewrite IH]. Qed.

Lemma join_starts (sep x : string) (l : list string) :
  exists rest, Py.join sep (x :: l) = x ++ rest.
Proof.
  destruct l as [|y l]; [exists ""; simpl; now rewrite append_empty_r |].
  now exists (sep ++ Py.join sep (y :: l)).
Qed.

(** A block of lines that all begin with '+' is none of the lines the
    collector treats specially. *)
Lemma block_of_plus_lines (lines : list string) :
  lines <> [] ->
  Forall (fun l => exists rest, l = String "+" rest) lines ->
  Py.join CR lines <> "" /\ Py.join CR lines <> "OK" /\ Py.join CR lines <> "ERROR".
Proof.
  destruct lines as [|l lines]; [contradiction |]. intros _ Hall.
  inversion Hall as [|? ? [rest ->] _]; subst.
  destruct (join_starts CR (String "+" rest) lines) as [tail ->].
  simpl. repeat split; discriminate.
Qed.

Lemma status_line_no_cr (prefix : string) (a : string * string) :
  Py.mem (ascii_of_nat 13) prefix = false ->
  plain_field (fst a) = true -> plain_field (snd a) = true ->
  Py.mem (ascii_of_nat 13) (status_line prefix a) = false.
Proof.
  intros Hprefix Hepc Hstatus.
  apply plain_field_spec in Hepc as (_ & Hepc & _).
  apply plain_field_spec in Hstatus as (_ & Hstatus & _).
  unfold status_line. now rewrite !mem_append, Hprefix, Hepc, Hstatus.
Qed.

(** The fields of the record built for an EPC and a status: a status that
    is not OK becomes the error message, and the error flag is its truth
    value, so an empty status sets the message and leaves the flag off. *)
Lemma status_tag_fields (timestamp : Z) (a : string * string) :
  UhfTag.get_epc (status_tag timestamp a) = VStr (fst a) /\
  Tag.get_timestamp (status_tag timestamp a) = VInt timestamp /\
  Tag.get_error_message (status_tag timestamp a)
  = VStr (if String.eqb (snd a) "OK" then "" else snd a) /\
  Tag.has_error (status_tag timestamp a)
  = VBool (negb (String.eqb (snd a) "OK") && negb (String.eqb (snd a) "")).
Proof.
  destruct a as [epc status]. unfold status_tag. cbn [fst snd].
  destruct (String.eqb status "OK"); repeat split.
Qed.

(** X7: a write answered, after its echo, by one block of lines "+WRT: "
    EPC "," status and then OK returns one record per line, in the order of
    the lines and without merging repeated EPCs.  Each record carries the
    EPC and the time of the call; a status that is not OK is its error
    message, and its error flag is set exactly when the status is neither
    OK nor empty.  What follows the OK is left on the line. *)
Theorem write_tag_data_decodes (data : string) (start : Z) (memory epc_mask : string)
    (self : reader) (answers : list (string * string)) (rx : list event) :
  answers <> [] ->
  Forall (fun a => plain_field (fst a) = true /\ plain_field (snd a) = true) answers ->
  incoming self
  = (exchange (_prepare_command "AT+WRT"
                 [Some (VStr memory); Some (VInt start); Some (VStr data);
                  Some (VStr epc_mask)])
       (Py.join CR (map (status_line "+WRT: ") answers)) ++ rx)%list ->
  exists tags,
    fst (write_tag_data data start memory epc_mask self) = Returns tags /\
    Forall2 (fun a t =>
               UhfTag.get_epc t = VStr (fst a) /\
               Tag.get_timestamp t = VInt (clock self) /\
               Tag.get_error_message t
               = VStr (if String.eqb (snd a) "OK" then "" else snd a) /\
               Tag.has_error t
               = VBool (negb (String.eqb (snd a) "OK") && negb (String.eqb (snd a) "")))
      answers tags /\
    incoming (snd (write_tag_data data start memory epc_mask self)) = rx.
Proof.
  intros Hne Hall Hrx. exists (map (status_tag (clock self)) answers).
  unfold write_tag_data, io_bind.
  assert (Forall (fun l => exists rest, l = String "+" rest)
            (map (status_line "+WRT: ") answers)) as Hplus.
  { apply Forall_fmap, Forall_forall. intros a _. now eexists. }
  assert (map (status_line "+WRT: ") answers <> []) as Hlines
    by (destruct answers; [contradiction | discriminate]).
  destruct (block_of_plus_lines _ Hlines Hplus) as (Hbody & Hok & Herror).
  rewrite (send_command_exchange _ _ _ _ _ _ Hrx) by (assumption || discriminate).
  unfold _parse_tag_responses. cbn [fst snd incoming clock answered].
  rewrite split_join; [| assumption |].
  - change 6 with (Py.len "+WRT: "). rewrite parse_tag_lines_decodes by assumption.
    cbn [fst snd]. split; [reflexivity |]. split; [| reflexivity].
    clear. induction answers as [|a answers IH]; constructor;
      [apply status_tag_fields | exact IH].
  - apply Forall_fmap. eapply Forall_impl; [exact Hall |].
    intros a [Hepc Hstatus]. now apply status_line_no_cr.
Qed.

Lemma write_tag_data_decodes_witness :
  exists tags,
    fst (write_tag_data "CAFE" 0 "USR" ""
           (reader_with initial_settings
              (exchange "AT+WRT=USR,0,CAFE,"
                 ("+WRT: AAAA,OK" ++ CR ++ "+WRT: BBBB,ACCESS ERROR" ++ CR ++ "+WRT: AAAA,")
               ++ [])))
    = Returns tags /\
    Forall2 (fun a t =>
               UhfTag.get_epc t = VStr (fst a) /\
               Tag.get_timestamp t = VInt 1700000000 /\
               Tag.get_error_message t
               = VStr (if String.eqb (snd a) "OK" then "" else snd a) /\
               Tag.has_error t
               = VBool (negb (String.eqb (snd a) "OK") && negb (String.eqb (snd a) "")))
      [("AAAA", "OK"); ("BBBB", "ACCESS ERROR"); ("AAAA", "")] tags /\
    incoming (snd (write_tag_data "CAFE" 0 "USR" ""
           (reader_with initial_settings
              (exchange "AT+WRT=USR,0,CAFE,"
                 ("+WRT: AAAA,OK" ++ CR ++ "+WRT: BBBB,ACCESS ERROR" ++ CR ++ "+WRT: AAAA,")
               ++ [])))) = [].
Proof.
  apply (write_tag_data_decodes "CAFE" 0 "USR" ""
           (reader_with initial_settings
              (exchange "AT+WRT=USR,0,CAFE,"
                 ("+WRT: AAAA,OK" ++ CR ++ "+WRT: BBBB,ACCESS ERROR" ++ CR
                  ++ "+WRT: AAAA,") ++ []))
           [("AAAA", "OK"); ("BBBB", "ACCESS ERROR"); ("AAAA", "")] []).
  - discriminate.
  - repeat constructor.
  - reflexivity.
Defined.

Lemma read_fields_decodes (memory : string) (t : tag) (a : string * (string + string)) :
  read_answer_ok a = true ->
  read_fields memory
    (Py.split "," (fst a ++ "," ++ match snd a with
                                   | inl data => "OK," ++ data
                                   | inr status => status
                                   end)) t
  = match snd a with
    | inl data => Tag.set_data data (Tag.set_value (lower memory) (Some (VStr data)) t)
    | inr status => Tag.set_error_message status t
    end /\
  Py.nth_item
    (Py.split "," (fst a ++ "," ++ match snd a with
                                   | inl data => "OK," ++ data
                                   | inr status => status
                                   end)) 0 = Some (fst a).
Proof.
  destruct a as [epc [data | status]]; unfold read_answer_ok; cbn [fst snd]; intros H;
    apply andb_prop in H as [Hepc H]; apply plain_field_spec in Hepc as (Hepc & _ & _).
  - apply plain_field_spec in H as (Hdata & _ & _).
    change (epc ++ "," ++ "OK," ++ data) with (epc ++ String "," ("OK" ++ String "," data)).
    rewrite split_field, split_field, split_no_sep by (assumption || reflexivity).
    unfold read_fields. now rewrite nth_item_first, nth_item_second, nth_item_third.
  - apply andb_prop in H as [Hstatus Hnot]. apply plain_field_spec in Hstatus as (Hstatus & _ & _).
    change (epc ++ "," ++ status) with (epc ++ String "," status).
    rewrite split_field, split_no_sep by assumption.
    unfold read_fields. rewrite nth_item_first, nth_item_second.
    apply negb_true_iff in Hnot. now rewrite Hnot.
Qed.

Lemma parse_read_decodes (memory : string) (timestamp : Z)
    (answers : list (string * (string + string))) :
  Forall (fun a => read_answer_ok a = true) answers ->
  parse_read memory timestamp (map read_line answers)
  = Returns (map (read_tag memory timestamp) answers).
Proof.
  induction answers as [|a answers IH]; intros Hall; [reflexivity |].
  inversion Hall as [|? ? Ha Hrest]; subst.
  cbn [map parse_read].
  set (fields := match snd a with inl data => "OK," ++ data | inr status => status end).
  assert (read_line a = "+READ: " ++ fst a ++ String "," fields) as -> by reflexivity.
  assert (Py.mem "<" (fst a) = false) as Hlt.
  { unfold read_answer_ok in Ha. apply andb_prop in Ha as [Ha _].
    now apply plain_field_spec in Ha. }
  destruct (read_fields_decodes memory
              (Tag.set_timestamp timestamp (UhfTag.set_epc (fst a) ∅)) a Ha)
    as [Hfields Hepc].
  fold fields in Hfields, Hepc.
  change (fst a ++ "," ++ fields) with (fst a ++ String "," fields) in Hfields, Hepc.
  change 7 with (Py.len "+READ: "). rewrite slice_after.
  destruct (field_head (fst a) fields Hlt) as (c & tail & Hhead & Hc).
  rewrite Hepc. cbn [or_raise obind]. rewrite Hfields, IH by assumption.
  rewrite Hhead, getitem_after. cbn [or_raise obind]. rewrite Hc.
  reflexivity.
Qed.

Lemma read_line_no_cr (a : string * (string + string)) :
  read_answer_ok a = true -> Py.mem (ascii_of_nat 13) (read_line a) = false.
Proof.
  destruct a as [epc [data | status]]; unfold read_answer_ok, read_line; cbn [fst snd];
    intros H; apply andb_prop in H as [Hepc H];
    apply plain_field_spec in Hepc as (_ & Hepc & _).
  - apply plain_field_spec in H as (_ & Hdata & _).
    now rewrite !mem_append, Hepc, Hdata.
  - apply andb_prop in H as [Hstatus _]. apply plain_field_spec in Hstatus as (_ & Hstatus & _).
    now rewrite !mem_append, Hepc, Hstatus.
Qed.

(** The fields of the record built for a line of a read. *)
Lemma read_tag_fields (memory : string) (timestamp : Z) (a : string * (string + string)) :
  match snd a with
  | inl data =>
      Tag.get_data (read_tag memory timestamp a) = VStr data /\
      read_tag memory timestamp a !! lower memory = Some (VStr data)
  | inr status =>
      Tag.get_error_message (read_tag memory timestamp a) = VStr status /\
      Tag.has_error (read_tag memory timestamp a) = VBool (negb (String.eqb status ""))
  end.
Proof.
  destruct a as [epc [data | status]]; unfold read_tag; cbn [fst snd].
  - unfold Tag.get_data, Tag.get, Tag.set_data, Tag.set_value.
    split; [now rewrite lookup_insert_eq |].
    destruct (decide (lower memory = "data")) as [-> | Hother].
    + apply lookup_insert_eq.
    + rewrite lookup_insert_ne by congruence. apply lookup_insert_eq.
  - split; reflexivity.
Qed.

(** X8: a read answered, after its echo, by one block of lines "+READ: "
    EPC ",OK," data or "+READ: " EPC "," status and then OK returns one
    record per line, in order.  A line with OK gives the data twice, under
    "data" and under the name of the memory bank in lower case; a line with
    another status gives that status as the error message, and its error
    flag is set exactly when the status is not empty. *)
Theorem read_tag_data_decodes (start length : Z) (memory epc_mask : string)
    (self : reader) (answers : list (string * (string + string))) (rx : list event) :
  answers <> [] ->
  Forall (fun a => read_answer_ok a = true) answers ->
  incoming self
  = (exchange (_prepare_command "AT+READ"
                 [Some (VStr memory); Some (VInt start); Some (VInt length);
                  Some (VStr epc_mask)])
       (Py.join CR (map read_line answers)) ++ rx)%list ->
  exists tags,
    fst (read_tag_data start length memory epc_mask self) = Returns tags /\
    Forall2 (fun a t =>
               match snd a with
               | inl data =>
                   Tag.get_data t = VStr data /\
                   t !! lower memory = Some (VStr data)
               | inr status =>
                   Tag.get_error_message t = VStr status /\
                   Tag.has_error t = VBool (negb (String.eqb status ""))
               end)
      answers tags /\
    incoming (snd (read_tag_data start length memory epc_mask self)) = rx.
Proof.
  intros Hne Hall Hrx. exists (map (read_tag memory (clock self)) answers).
  unfold read_tag_data, io_bind.
  assert (Forall (fun l => exists rest, l = String "+" rest) (map read_line answers))
    as Hplus.
  { apply Forall_fmap, Forall_forall. intros a _. now eexists. }
  assert (map read_line answers <> []) as Hlines
    by (destruct answers; [contradiction | discriminate]).
  destruct (block_of_plus_lines _ Hlines Hplus) as (Hbody & Hok & Herror).
  rewrite (send_command_exchange _ _ _ _ _ _ Hrx) by (assumption || discriminate).
  cbn [fst snd incoming clock answered].
  rewrite split_join; [| assumption |].
  - rewrite parse_read_decodes by assumption.
    split; [reflexivity |]. split; [| reflexivity].
    clear. induction answers as [|a answers IH]; constructor;
      [apply read_tag_fields | exact IH].
  - apply Forall_fmap. eapply Forall_impl; [exact Hall |].
    intros a Ha. now apply read_line_no_cr.
Qed.

Lemma read_tag_data_decodes_witness :
  exists tags,
    fst (read_tag_data 0 2 "PC" ""
           (reader_with initial_settings
              (exchange "AT+READ=PC,0,2,"
                 ("+READ: AAAA,OK,3000" ++ CR ++ "+READ: BBBB,MEMORY LOCKED" ++ CR
                  ++ "+READ: CCCC,") ++ [])))
    = Returns tags /\
    Forall2 (fun a t =>
               match snd a with
               | inl data =>
                   Tag.get_data t = VStr data /\
                   t !! lower "PC" = Some (VStr data)
               | inr status =>
                   Tag.get_error_message t = VStr status /\
                   Tag.has_error t = VBool (negb (String.eqb status ""))
               end)
      [("AAAA", inl "3000"); ("BBBB", inr "MEMORY LOCKED"); ("CCCC", inr "")] tags /\
    incoming (snd (read_tag_data 0 2 "PC" ""
           (reader_with initial_settings
              (exchange "AT+READ=PC,0,2,"
                 ("+READ: AAAA,OK,3000" ++ CR ++ "+READ: BBBB,MEMORY LOCKED" ++ CR
                  ++ "+READ: CCCC,") ++ []))))
    = [].
Proof.
  apply (read_tag_data_decodes 0 2 "PC" ""
           (reader_with initial_settings
              (exchange "AT+READ=PC,0,2,"
                 ("+READ: AAAA,OK,3000" ++ CR ++ "+READ: BBBB,MEMORY LOCKED" ++ CR
                  ++ "+READ: CCCC,") ++ []))
           [("AAAA", inl "3000"); ("BBBB", inr "MEMORY LOCKED"); ("CCCC", inr "")] []).
  - discriminate.
  - repeat constructor.
  - reflexivity.
Defined.

(** ** Answers without a response line *)

Lemma prepared_nonempty (command : string) (parameters : list (option value)) :
  command <> "" -> _prepare_command command parameters <> "".
Proof.
  intros Hc. unfold _prepare_command.
  destruct parameters; [assumption |]. destruct command; [contradiction | discriminate].
Qed.

(** X9: a device that answers a write, a read or an inventory with the
    echo and OK and no line in between makes the method fail with
    IndexError: the collector hands the decoder the one-element list of the
    empty string, and the decoder indexes into that string.  The failure is
    neither the driver's protocol error nor an empty list of tags. *)
Theorem bare_ok_is_an_index_error (self : reader) (rx : list event) :
  (forall data start memory epc_mask,
     incoming self
     = line (_prepare_command "AT+WRT"
               [Some (VStr memory); Some (VInt start); Some (VStr data);
                Some (VStr epc_mask)]) :: line "OK" :: rx ->
     fst (write_tag_data data start memory epc_mask self) = Raises IndexError) /\
  (forall start length memory epc_mask,
     incoming self
     = line (_prepare_command "AT+READ"
               [Some (VStr memory); Some (VInt start); Some (VInt length);
                Some (VStr epc_mask)]) :: line "OK" :: rx ->
     fst (read_tag_data start length memory epc_mask self) = Raises IndexError) /\
  (forall ignore_error settings,
     incoming self = line "AT+INV" :: line "OK" :: rx ->
     inventory (_config self) = Some settings ->
     fst (get_inventory ignore_error self) = Raises IndexError).
Proof.
  repeat split.
  - intros data start memory epc_mask Hrx. unfold write_tag_data, io_bind.
    now rewrite (send_command_bare_ok _ _ _ _ _ Hrx) by discriminate.
  - intros start length memory epc_mask Hrx. unfold read_tag_data, io_bind.
    now rewrite (send_command_bare_ok _ _ _ _ _ Hrx) by discriminate.
  - intros ignore_error settings Hrx Hsettings. unfold get_inventory, io_bind.
    rewrite (send_command_bare_ok "AT+INV" [] _ _ _ Hrx) by discriminate.
    unfold _parse_inventory, answered. cbn [_config]. now rewrite Hsettings.
Qed.

Lemma bare_ok_is_an_index_error_witness :
  fst (write_tag_data "CAFE" 0 "USR" ""
         (reader_with initial_settings [line "AT+WRT=USR,0,CAFE,"; line "OK"]))
  = Raises IndexError.
Proof.
  apply (proj1 (bare_ok_is_an_index_error
                  (reader_with initial_settings [line "AT+WRT=USR,0,CAFE,"; line "OK"])
                  []) "CAFE" 0 "USR" "").
  reflexivity.
Defined.

(** ** Inventory errors *)

Lemma inventory_line_keeps_error (tid_on rssi_on : bool) (timestamp split_index : Z)
    (is_report : bool) (st st' : inventory_pass) (response : string) :
  inventory_line tid_on rssi_on timestamp split_index true is_report st response
  = Returns st' ->
  pass_error st' = pass_error st.
Proof.
  unfold inventory_line. intros H.
  destruct (Py.getitem response 0) as [c0|]; cbn [or_raise obind] in H; [| discriminate].
  destruct (negb (Ascii.eqb c0 "+")); [now injection H as <- |].
  destruct (Py.getitem response split_index) as [c|]; cbn [or_raise obind] in H;
    [| discriminate].
  destruct (Ascii.eqb c "<").
  - destruct (Py.getitem response (split_index + 1)) as [kind|];
      cbn [or_raise obind] in H; [| discriminate].
    destruct (Ascii.eqb kind "N"); [now injection H as <- |].
    destruct (Ascii.eqb kind "R"); [| now injection H as <-].
    destruct (round_finished_antenna response (pass_antenna st));
      cbn [obind] in H; try discriminate.
    now injection H as <-.
  - destruct (inventory_tag _ _ _ _ _); cbn [obind] in H; try discriminate.
    now injection H as <-.
Qed.

Lemma inventory_lines_keep_error (tid_on rssi_on : bool) (timestamp split_index : Z)
    (is_report : bool) (responses : list string) :
  forall st st',
    inventory_lines tid_on rssi_on timestamp split_index true is_report st responses
    = Returns st' ->
    pass_error st' = pass_error st.
Proof.
  induction responses as [|response responses IH]; intros st st' H; cbn [inventory_lines] in H.
  - now injection H as <-.
  - destruct (inventory_line _ _ _ _ _ _ st response) as [st1| | |] eqn:Hline;
      cbn [obind] in H; try discriminate.
    apply IH in H. apply inventory_line_keeps_error in Hline. congruence.
Qed.

Lemma int10_raises (s : string) (e : exn) : int10 s = Raises e -> e = ValueError.
Proof.
  unfold int10. destruct (match s with EmptyString => _ | String _ _ => _ end);
    [discriminate |].
  destruct (all_chars plain_char s); [now intros [= <-] | discriminate].
Qed.

(** A failure of the decoder on a line is Python's own: an index out of
    range or an invalid number. *)
Lemma inventory_line_raises (tid_on rssi_on : bool) (timestamp split_index : Z)
    (ignore_error is_report : bool) (st : inventory_pass) (response : string) (e : exn) :
  inventory_line tid_on rssi_on timestamp split_index ignore_error is_report st response
  = Raises e ->
  e = IndexError \/ e = ValueError.
Proof.
  unfold inventory_line, inventory_tag, round_finished_antenna. intros H.
  repeat match type of H with
         | context [or_raise IndexError ?o] =>
             destruct o; cbn [or_raise obind] in H
         | context [int10 ?s] =>
             let Hs := fresh "Hs" in
             destruct (int10 s) as [?|[]| |] eqn:Hs; cbn [obind] in H;
             try (apply int10_raises in Hs; discriminate)
         | context [if ?b then _ else _] => destruct b; cbn [obind] in H
         end;
    try discriminate; injection H as <-; auto.
Qed.

Lemma inventory_lines_raise (tid_on rssi_on : bool) (timestamp split_index : Z)
    (ignore_error is_report : bool) (responses : list string) (e : exn) :
  forall st,
    inventory_lines tid_on rssi_on timestamp split_index ignore_error is_report st
      responses = Raises e ->
    e = IndexError \/ e = ValueError.
Proof.
  induction responses as [|response responses IH]; intros st H; [discriminate |].
  cbn [inventory_lines] in H.
  destruct (inventory_line _ _ _ _ _ _ st response) as [st1| | |] eqn:Hline;
    cbn [obind] in H; try discriminate.
  - now apply IH in H.
  - injection H as ->. now apply inventory_line_raises in Hline.
Qed.

(** X10: with [ignore_error] set, decoding an inventory never raises the
    driver's protocol error and never writes to the mirror, whatever the
    lines are: an error event of the device is dropped. *)
Theorem ignored_errors_are_dropped (responses : list string) (timestamp split_index : Z)
    (is_report : bool) (self : reader) :
  snd (_parse_inventory responses timestamp split_index true is_report self) = self /\
  forall msg,
    fst (_parse_inventory responses timestamp split_index true is_report self)
    <> Raises (RfidReaderException msg).
Proof.
  unfold _parse_inventory.
  destruct (inventory (_config self)) as [settings|];
    [| split; [reflexivity | intros msg; discriminate]].
  destruct (inventory_lines _ _ _ _ _ _ _ responses) as [st| | |] eqn:Hlines.
  - apply inventory_lines_keep_error in Hlines. cbn [pass_error] in Hlines.
    rewrite Hlines. cbn [String.eqb negb].
    destruct (negb (pass_antenna st =? 0)); (split; [reflexivity | intros msg; discriminate]).
  - split; [reflexivity |]. intros msg H. cbn [fst] in H. injection H as ->.
    apply inventory_lines_raise in Hlines as [|]; discriminate.
  - split; [reflexivity | intros msg; discriminate].
  - split; [reflexivity | intros msg; discriminate].
Qed.

(** X11: a protocol error the inventory decoder raises is also recorded in
    the mirror: under "message" with the text raised, or, when a finished
    round named an antenna, under "Antenna n" with the text raised being
    the recorded detail followed by " - Antenna n".  The inventory
    settings of the mirror are untouched. *)
Theorem inventory_error_is_recorded (responses : list string) (timestamp split_index : Z)
    (ignore_error is_report : bool) (self : reader) (msg : string) :
  fst (_parse_inventory responses timestamp split_index ignore_error is_report self)
  = Raises (RfidReaderException msg) ->
  exists key detail errors,
    error (_config (snd (_parse_inventory responses timestamp split_index ignore_error
                           is_report self))) = Some errors /\
    errors !! key = Some detail /\
    (key = "message" /\ msg = detail \/
     exists n, n <> 0 /\ key = "Antenna " ++ Py.str_of_int n /\
               msg = detail ++ " - " ++ key) /\
    inventory (_config (snd (_parse_inventory responses timestamp split_index
                               ignore_error is_report self)))
    = inventory (_config self).
Proof.
  unfold _parse_inventory.
  destruct (inventory (_config self)) as [settings|] eqn:Hsettings; [| discriminate].
  destruct (inventory_lines _ _ _ _ _ _ _ responses) as [st| | |] eqn:Hlines;
    try discriminate.
  - destruct (negb (String.eqb (pass_error st) "")).
    + destruct (Z.eqb_spec (pass_antenna st) 0) as [Hzero | Hnonzero]; cbn [negb fst snd].
      * intros [= <-]. exists "message", (pass_error st). eexists.
        split; [reflexivity |]. split; [apply lookup_insert_eq |].
        split; [now left | assumption].
      * intros [= <-].
        exists ("Antenna " ++ Py.str_of_int (pass_antenna st)), (pass_error st). eexists.
        split; [reflexivity |]. split; [apply lookup_insert_eq |].
        split; [right; now exists (pass_antenna st) | assumption].
    + destruct (negb (pass_antenna st =? 0)); discriminate.
  - cbn [fst]. intros [= ->]. apply inventory_lines_raise in Hlines as [|]; discriminate.
Qed.

Lemma inventory_error_is_recorded_witness :
  exists key detail errors,
    error (_config (snd (_parse_inventory
                           ["+INV: <Antenna Error>"; "+INV: <ROUND FINISHED, ANT=2>"]
                           1700000000 6 false false (reader_with initial_settings []))))
    = Some errors /\
    errors !! key = Some detail /\
    (key = "message" /\ "Antenna Error - Antenna 2" = detail \/
     exists n, n <> 0 /\ key = "Antenna " ++ Py.str_of_int n /\
               "Antenna Error - Antenna 2" = detail ++ " - " ++ key) /\
    inventory (_config (snd (_parse_inventory
                           ["+INV: <Antenna Error>"; "+INV: <ROUND FINISHED, ANT=2>"]
                           1700000000 6 false false (reader_with initial_settings []))))
    = inventory (_config (reader_with initial_settings [])).
Proof.
  apply (inventory_error_is_recorded
           ["+INV: <Antenna Error>"; "+INV: <ROUND FINISHED, ANT=2>"]
           1700000000 6 false false (reader_with initial_settings [])
           "Antenna Error - Antenna 2").
  reflexivity.
Defined.

(** ** Masks *)

Lemma mask_frame (memory : string) (start : Z) (mask : string) :
  _prepare_command "AT+MSK" [Some (VStr memory); Some (VInt start); Some (VStr mask)]
  = "AT+MSK=" ++ mask_payload memory start mask.
Proof. reflexivity. Qed.

Lemma parse_mask_payload (memory : string) (start : Z) (mask : string) :
  Py.mem "," memory = false -> memory <> "OFF" -> Py.mem "," mask = false ->
  parse_mask [("+MSK: " ++ mask_payload memory start mask)%string]
  = Returns (mask_dict memory start mask).
Proof.
  intros Hmemory Hoff Hmask. unfold parse_mask, mask_payload.
  rewrite nth_item_first. cbn [or_raise obind].
  change 6 with (Py.len "+MSK: "). rewrite slice_after.
  change (memory ++ "," ++ Py.str_of_int start ++ "," ++ mask)
    with (memory ++ String "," (Py.str_of_int start ++ String "," mask)).
  rewrite split_field, split_field, split_no_sep
    by (assumption || now apply str_of_int_plain).
  rewrite nth_item_first, nth_item_second, nth_item_third. cbn [or_raise obind].
  apply String.eqb_neq in Hoff. rewrite Hoff. cbn [negb].
  now rewrite int10_str_of_int.
Qed.

Lemma get_mask_exchange (memory : string) (start : Z) (mask : string)
    (self : reader) (rx : list event) :
  plain_field memory = true -> memory <> "OFF" -> plain_field mask = true ->
  incoming self
  = (exchange "AT+MSK?" ("+MSK: " ++ mask_payload memory start mask) ++ rx)%list ->
  get_mask self = (Returns (mask_dict memory start mask), answered self ["AT+MSK?"] 3 rx).
Proof.
  intros Hmemory Hoff Hmask Hrx.
  apply plain_field_spec in Hmemory as (Hmemory & Hmemory_cr & _).
  apply plain_field_spec in Hmask as (Hmask & Hmask_cr & _).
  unfold get_mask, io_bind, io_lift.
  rewrite (send_command_exchange "AT+MSK?" [] _ _ _ _ Hrx) by discriminate.
  rewrite split_no_sep.
  - now rewrite parse_mask_payload.
  - unfold mask_payload. rewrite !mem_append, Hmemory_cr, Hmask_cr.
    now rewrite (str_of_int_plain (ascii_of_nat 13)).
Qed.

(** [set_mask] writes its frame, however the device answers. *)
Lemma set_mask_written (mask : string) (start : Z) (memory : string) (self : reader) :
  written (snd (set_mask mask (VInt start) memory self))
  = (written self ++ [("AT+MSK=" ++ mask_payload memory start mask ++ CR)%string])%list.
Proof.
  unfold set_mask, io_bind, io_ret.
  pose proof (send_command_state "AT+MSK"
                [Some (VStr memory); Some (VInt start); Some (VStr mask)] 2000 true self)
    as (Hwritten & _).
  rewrite mask_frame in Hwritten.
  now destruct (_send_command "AT+MSK" _ 2000 true self) as [[lines|e| |] self'].
Qed.

(** X12: [get_mask] reads back what [set_mask] wrote.  Called on any
    reader, [set_mask(mask, start, memory)] writes "AT+MSK=" memory ","
    start "," mask and a carriage return; a device answering "AT+MSK?" with
    "+MSK: " and that same text makes [get_mask] return an enabled mask
    with that memory bank, start and value. *)
Theorem mask_round_trip (memory : string) (start : Z) (mask : string)
    (before self : reader) (rx : list event) :
  plain_field memory = true -> memory <> "OFF" -> plain_field mask = true ->
  incoming self
  = (exchange "AT+MSK?" ("+MSK: " ++ mask_payload memory start mask) ++ rx)%list ->
  written (snd (set_mask mask (VInt start) memory before))
  = (written before
     ++ [("AT+MSK=" ++ mask_payload memory start mask ++ CR)%string])%list /\
  get_mask self = (Returns (mask_dict memory start mask), answered self ["AT+MSK?"] 3 rx).
Proof.
  intros Hmemory Hoff Hmask Hrx. split; [apply set_mask_written |].
  now apply get_mask_exchange.
Qed.

Lemma mask_round_trip_witness :
  written (snd (set_mask "3034" (VInt 0) "EPC"
                  (reader_with initial_settings [line "AT+MSK=EPC,0,3034"; line "OK"])))
  = ([] ++ [("AT+MSK=" ++ mask_payload "EPC" 0 "3034" ++ CR)%string])%list /\
  get_mask (reader_with initial_settings
              (exchange "AT+MSK?" ("+MSK: " ++ mask_payload "EPC" 0 "3034") ++ []))
  = (Returns (mask_dict "EPC" 0 "3034"),
     answered (reader_with initial_settings
                 (exchange "AT+MSK?" ("+MSK: " ++ mask_payload "EPC" 0 "3034") ++ []))
       ["AT+MSK?"] 3 []).
Proof.
  apply (mask_round_trip "EPC" 0 "3034"
           (reader_with initial_settings [line "AT+MSK=EPC,0,3034"; line "OK"])
           (reader_with initial_settings
              (exchange "AT+MSK?" ("+MSK: " ++ mask_payload "EPC" 0 "3034") ++ []))
           []).
  - reflexivity.
  - discriminate.
  - reflexivity.
  - reflexivity.
Defined.

(** ** EPC rewrite by TID: the mask *)

Lemma set_mask_accepted (mask : string) (start : Z) (memory : string)
    (self : reader) (rx : list event) :
  incoming self
  = line ("AT+MSK=" ++ mask_payload memory start mask) :: line "OK" :: rx ->
  set_mask mask (VInt start) memory self
  = (Returns tt, answered self ["AT+MSK=" ++ mask_payload memory start mask] 2 rx).
Proof.
  intros Hrx. unfold set_mask, io_bind, io_ret.
  rewrite <- mask_frame in Hrx.
  now rewrite (send_command_bare_ok _ _ _ _ _ Hrx) by discriminate.
Qed.

Lemma bind_returns {A B} (m : io A) (k : A -> io B) (self self' : reader) (a : A) :
  m self = (Returns a, self') -> io_bind m k self = k a self'.
Proof. unfold io_bind. now intros ->. Qed.

Lemma bind_assoc {A B C} (m : io A) (k0 : A -> io B) (k : B -> io C) (self : reader) :
  io_bind (io_bind m k0) k self = io_bind m (fun a => io_bind (k0 a) k) self.
Proof. unfold io_bind. now destruct (m self) as [[]]. Qed.

Lemma bind_ret {A B} (a : A) (k : A -> io B) (self : reader) :
  io_bind (io_ret a) k self = k a self.
Proof. reflexivity. Qed.

Lemma read_tag_data_exchange (start length : Z) (memory epc_mask : string)
    (self : reader) (body : string) (rx : list event) :
  incoming self
  = (exchange (_prepare_command "AT+READ"
                 [Some (VStr memory); Some (VInt start); Some (VInt length);
                  Some (VStr epc_mask)]) body ++ rx)%list ->
  body <> "" -> body <> "OK" -> body <> "ERROR" ->
  read_tag_data start length memory epc_mask self
  = (parse_read memory (clock self) (Py.split (ascii_of_nat 13) body),
     answered self
       [_prepare_command "AT+READ"
          [Some (VStr memory); Some (VInt start); Some (VInt length);
           Some (VStr epc_mask)]] 3 rx).
Proof.
  intros Hrx Hbody Hok Herror. unfold read_tag_data, io_bind.
  now rewrite (send_command_exchange _ _ _ _ _ _ Hrx) by (assumption || discriminate).
Qed.

Lemma write_tag_data_exchange (data : string) (start : Z) (memory epc_mask : string)
    (self : reader) (body : string) (rx : list event) :
  incoming self
  = (exchange (_prepare_command "AT+WRT"
                 [Some (VStr memory); Some (VInt start); Some (VStr data);
                  Some (VStr epc_mask)]) body ++ rx)%list ->
  body <> "" -> body <> "OK" -> body <> "ERROR" ->
  write_tag_data data start memory epc_mask self
  = (parse_tag_lines 6 (clock self) (Py.split (ascii_of_nat 13) body),
     answered self
       [_prepare_command "AT+WRT"
          [Some (VStr memory); Some (VInt start); Some (VStr data);
           Some (VStr epc_mask)]] 3 rx).
Proof.
  intros Hrx Hbody Hok Herror. unfold write_tag_data, _parse_tag_responses, io_bind.
  now rewrite (send_command_exchange _ _ _ _ _ _ Hrx) by (assumption || discriminate).
Qed.

Lemma bind_run {A B} (m : io A) (k : A -> io B) (self self' : reader) (o : outcome A) :
  m self = (o, self') ->
  io_bind m k self
  = match o with
    | Returns a => k a self'
    | Raises e => (Raises e, self')
    | Stalled => (Stalled, self')
    | Unmodelled => (Unmodelled, self')
    end.
Proof. unfold io_bind. now intros ->. Qed.

Lemma no_tags_line (memory : string) (timestamp : Z) :
  parse_read memory timestamp (Py.split (ascii_of_nat 13) "+READ: <NO TAGS FOUND>")
  = Returns [].
Proof. reflexivity. Qed.

(** X13: an EPC rewrite by TID that finds no tag returns the empty list and
    leaves the reader filtering on that TID: it has read the caller's mask
    and replaced it, and it returns after the PC read without a further
    mask command. *)
Theorem rewrite_without_tags_leaves_tid_mask (tid new_epc : string) (start : Z)
    (memory : string) (mask_start : Z) (mask : string)
    (self : reader) (rx : list event) :
  tid <> "" -> Py.len new_epc mod 4 = 0 ->
  plain_field memory = true -> memory <> "OFF" -> plain_field mask = true ->
  incoming self = (rewrite_without_tags tid memory mask_start mask ++ rx)%list ->
  write_tag_epc tid new_epc start self
  = (Returns [],
     answered self
       ["AT+MSK?"; "AT+MSK=" ++ mask_payload "TID" 0 tid; "AT+READ=PC,0,2,"] 8 rx).
Proof.
  intros Htid Hlen Hmemory Hoff Hmask Hrx. unfold write_tag_epc.
  rewrite Hlen. apply String.eqb_neq in Htid. rewrite Htid. cbn [Z.eqb negb].
  unfold rewrite_without_tags in Hrx. rewrite <- !app_assoc in Hrx.
  rewrite bind_assoc.
  erewrite bind_returns
    by (eapply get_mask_exchange; [| | | exact Hrx]; assumption).
  rewrite bind_assoc.
  erewrite bind_returns by (apply set_mask_accepted; reflexivity).
  rewrite bind_ret.
  erewrite bind_run by (apply read_tag_data_exchange; [reflexivity | discriminate ..]).
  rewrite no_tags_line, !answered_answered. reflexivity.
Qed.

Lemma rewrite_without_tags_leaves_tid_mask_witness :
  write_tag_epc "E2003412" "11112222" 0
    (reader_with initial_settings (rewrite_without_tags "E2003412" "EPC" 0 "3034" ++ []))
  = (Returns [],
     answered
       (reader_with initial_settings
          (rewrite_without_tags "E2003412" "EPC" 0 "3034" ++ []))
       ["AT+MSK?"; "AT+MSK=" ++ mask_payload "TID" 0 "E2003412"; "AT+READ=PC,0,2,"] 8 []).
Proof.
  apply (rewrite_without_tags_leaves_tid_mask "E2003412" "11112222" 0 "EPC" 0 "3034"
           (reader_with initial_settings
              (rewrite_without_tags "E2003412" "EPC" 0 "3034" ++ [])) []).
  - discriminate.
  - reflexivity.
  - reflexivity.
  - discriminate.
  - reflexivity.
  - reflexivity.
Defined.

Lemma one_tag_read (timestamp : Z) :
  parse_read "PC" timestamp (Py.split (ascii_of_nat 13) "+READ: AAAA,OK,3000")
  = Returns [read_tag "PC" timestamp ("AAAA", inl "3000")].
Proof. reflexivity. Qed.

Lemma one_tag_written (timestamp : Z) :
  parse_tag_lines 6 timestamp (Py.split (ascii_of_nat 13) "+WRT: AAAA,OK")
  = Returns [status_tag timestamp ("AAAA", "OK")].
Proof. reflexivity. Qed.

Lemma written_after_set_mask {A} (mask : string) (start : Z) (memory : string)
    (result : A) (self : reader) :
  written (snd (io_bind (set_mask mask (VInt start) memory)
                  (fun _ => io_ret result) self))
  = (written self ++ [("AT+MSK=" ++ mask_payload memory start mask ++ CR)%string])%list.
Proof.
  unfold set_mask, io_bind, io_ret.
  pose proof (send_command_state "AT+MSK"
                [Some (VStr memory); Some (VInt start); Some (VStr mask)] 2000 true self)
    as (Hwritten & _).
  rewrite mask_frame in Hwritten.
  now destruct (_send_command "AT+MSK" _ 2000 true self) as [[lines|e| |] self'].
Qed.

(** X14: an EPC rewrite by TID does not put the caller's mask back.  With
    a mask of memory bank [memory], start [mask_start] and value [mask]
    enabled before the call and the tag in the field rewritten, the last
    command the rewrite writes, whatever the device then answers, carries
    the value in the place of the memory bank and the memory bank in the
    place of the value: after "AT+MSK=EPC,0,3034" was in force, the rewrite
    ends with "AT+MSK=3034,0,EPC". *)
Theorem rewrite_by_tid_restores_mask_swapped (tid new_epc : string) (start : Z)
    (memory : string) (mask_start : Z) (mask : string)
    (self : reader) (rx : list event) :
  tid <> "" -> Py.len new_epc mod 4 = 0 ->
  plain_field memory = true -> memory <> "OFF" -> plain_field mask = true ->
  incoming self = (rewrite_one_tag tid new_epc start memory mask_start mask ++ rx)%list ->
  written (snd (write_tag_epc tid new_epc start self))
  = (written self
     ++ map (fun frame => (frame ++ CR)%string)
          ["AT+MSK?"; ("AT+MSK=" ++ mask_payload "TID" 0 tid)%string; "AT+READ=PC,0,2,";
           _prepare_command "AT+WRT"
             [Some (VStr "EPC"); Some (VInt start); Some (VStr new_epc); Some (VStr "")];
           _prepare_command "AT+WRT"
             [Some (VStr "PC"); Some (VInt 0);
              Some (VStr (format_04X (Z.lor 0 (epc_length_bits new_epc))));
              Some (VStr "")];
           ("AT+MSK=" ++ mask_payload mask mask_start memory)%string])%list.
Proof.
  intros Htid Hlen Hmemory Hoff Hmask Hrx. unfold write_tag_epc.
  rewrite Hlen. apply String.eqb_neq in Htid. rewrite Htid. cbn [Z.eqb negb].
  unfold rewrite_one_tag in Hrx. rewrite <- !app_assoc in Hrx.
  rewrite bind_assoc.
  erewrite bind_returns
    by (eapply get_mask_exchange; [| | | exact Hrx]; assumption).
  rewrite bind_assoc.
  erewrite bind_returns by (apply set_mask_accepted; reflexivity).
  rewrite bind_ret.
  erewrite bind_run by (apply read_tag_data_exchange; [reflexivity | discriminate ..]).
  rewrite one_tag_read.
  change (io_lift (check_pc 0 [read_tag "PC" _ ("AAAA", inl "3000")]))
    with (@io_ret Z 0).
  rewrite bind_ret.
  erewrite bind_run by (apply write_tag_data_exchange; [reflexivity | discriminate ..]).
  rewrite one_tag_written.
  erewrite bind_run by (apply write_tag_data_exchange; [reflexivity | discriminate ..]).
  rewrite one_tag_written.
  rewrite bind_assoc.
  change (io_lift (mask_item (mask_dict memory mask_start mask) "enabled"))
    with (io_ret (VBool true)).
  rewrite bind_ret. cbn [truthy]. rewrite bind_assoc.
  change (io_lift (mask_item (mask_dict memory mask_start mask) "memory"))
    with (io_ret (VStr memory)).
  rewrite bind_ret, bind_assoc.
  change (io_lift (mask_item (mask_dict memory mask_start mask) "start"))
    with (io_ret (VInt mask_start)).
  rewrite bind_ret, bind_assoc.
  change (io_lift (mask_item (mask_dict memory mask_start mask) "mask"))
    with (io_ret (VStr mask)).
  rewrite bind_ret. cbn [py_str].
  rewrite written_after_set_mask, !answered_answered.
  unfold answered. cbn [written]. rewrite <- app_assoc. reflexivity.
Qed.

(** ** EPC rewrite: the PC word that is written *)

(** The base the consistency loop ends with is a masked one. *)
Lemma check_pc_range (tags : list tag) :
  forall pc b, 0 <= pc < 2048 -> check_pc pc tags = Returns b -> 0 <= b < 2048.
Proof.
  induction tags as [|t tags IH]; intros pc b Hpc H; cbn [check_pc] in H.
  - now injection H as <-.
  - destruct (int16 (py_str (Tag.get_data t))) as [n| | |]; cbn [obind] in H;
      try discriminate.
    assert (0 <= Z.land n 2047 < 2048) as Hmasked.
    { change 2047 with (Z.ones 11). rewrite Z.land_ones by lia.
      apply Z.mod_pos_bound. lia. }
    destruct (pc =? 0); [now apply (IH (Z.land n 2047)) |].
    destruct (negb (Z.land n 2047 =? pc)); [discriminate | now apply (IH pc)].
Qed.

(** The last write of a rewrite without a TID: its frame is written,
    however the device answers, and nothing is written after it. *)
Lemma written_after_last_write {A} (data : string) (start : Z) (memory epc_mask : string)
    (finish : list tag -> A) (self : reader) :
  written (snd (io_bind (write_tag_data data start memory epc_mask)
                  (fun inventory => io_bind (io_ret tt)
                                      (fun _ => io_ret (finish inventory))) self))
  = (written self
     ++ [(_prepare_command "AT+WRT"
            [Some (VStr memory); Some (VInt start); Some (VStr data);
             Some (VStr epc_mask)] ++ CR)%string])%list.
Proof.
  unfold write_tag_data, _parse_tag_responses, io_bind, io_ret.
  pose proof (send_command_state "AT+WRT"
                [Some (VStr memory); Some (VInt start); Some (VStr data);
                 Some (VStr epc_mask)] 2000 true self) as (Hwritten & _).
  destruct (_send_command "AT+WRT" _ 2000 true self) as [[lines|e| |] self'];
    cbn [snd] in *; try exact Hwritten.
  now destruct (parse_tag_lines 6 (clock self') lines).
Qed.

(** X6: the PC word [write_tag_epc] writes.  When the PC read and the EPC
    write of a rewrite without a TID were answered, the third and last
    command written is the write of a word w to the PC bank; the eleven
    low bits of w are the base the consistency loop ended with, and from
    bit 11 upwards w holds the length of the new EPC in 16-bit words, a
    quarter of its number of hexadecimal characters. *)
Theorem pc_word_keeps_base_and_sets_length (new_epc : string) (start : Z)
    (self : reader) (reads : list (string * (string + string)))
    (writes : list (string * string)) (b : Z) (rx : list event) :
  Py.len new_epc mod 4 = 0 ->
  reads <> [] -> Forall (fun a => read_answer_ok a = true) reads ->
  writes <> [] ->
  Forall (fun a => plain_field (fst a) = true /\ plain_field (snd a) = true) writes ->
  check_pc 0 (map (read_tag "PC" (clock self)) reads) = Returns b ->
  incoming self
  = (exchange "AT+READ=PC,0,2," (Py.join CR (map read_line reads))
     ++ exchange (_prepare_command "AT+WRT"
                    [Some (VStr "EPC"); Some (VInt start); Some (VStr new_epc);
                     Some (VStr "")])
          (Py.join CR (map (status_line "+WRT: ") writes))
     ++ rx)%list ->
  exists w,
    written (snd (write_tag_epc "" new_epc start self))
    = (written self
       ++ map (fun frame => (frame ++ CR)%string)
            ["AT+READ=PC,0,2,";
             _prepare_command "AT+WRT"
               [Some (VStr "EPC"); Some (VInt start); Some (VStr new_epc); Some (VStr "")];
             _prepare_command "AT+WRT"
               [Some (VStr "PC"); Some (VInt 0); Some (VStr (format_04X w));
                Some (VStr "")]])%list /\
    Z.land w 0x07FF = b /\
    Z.shiftr w 11 = Py.len new_epc / 4.
Proof.
  intros Hlen Hreads Hreads_ok Hwrites Hwrites_ok Hcheck Hrx.
  exists (Z.lor b (epc_length_bits new_epc)).
  assert (0 <= b < 2048) as Hb by (apply (check_pc_range _ 0 b) in Hcheck; lia).
  split.
  - assert (Forall (fun l => exists rest, l = String "+" rest) (map read_line reads))
      as Hplus_r by (apply Forall_fmap, Forall_forall; intros a _; now eexists).
    assert (map read_line reads <> []) as Hlines_r
      by (destruct reads; [contradiction | discriminate]).
    destruct (block_of_plus_lines _ Hlines_r Hplus_r) as (Hr1 & Hr2 & Hr3).
    assert (Forall (fun l => exists rest, l = String "+" rest)
              (map (status_line "+WRT: ") writes))
      as Hplus_w by (apply Forall_fmap, Forall_forall; intros a _; now eexists).
    assert (map (status_line "+WRT: ") writes <> []) as Hlines_w
      by (destruct writes; [contradiction | discriminate]).
    destruct (block_of_plus_lines _ Hlines_w Hplus_w) as (Hw1 & Hw2 & Hw3).
    unfold write_tag_epc. rewrite Hlen. cbn [Z.eqb negb String.eqb].
    rewrite bind_ret.
    erewrite bind_run by (apply read_tag_data_exchange; [exact Hrx | assumption ..]).
    rewrite split_join;
      [| assumption
       | apply Forall_fmap; eapply Forall_impl; [exact Hreads_ok |];
         intros a Ha; now apply read_line_no_cr].
    rewrite parse_read_decodes by assumption.
    destruct (map (read_tag "PC" (clock self)) reads) as [|t tags] eqn:Htags;
      [destruct reads; [contradiction | discriminate] |].
    rewrite Hcheck. change (io_lift (Returns b)) with (io_ret b). rewrite bind_ret.
    erewrite bind_run by (apply write_tag_data_exchange; [reflexivity | assumption ..]).
    rewrite split_join;
      [| assumption
       | apply Forall_fmap; eapply Forall_impl; [exact Hwrites_ok |];
         intros a [Hepc Hstatus]; now apply status_line_no_cr].
    change 6 with (Py.len "+WRT: "). rewrite parse_tag_lines_decodes by assumption.
    rewrite written_after_last_write, answered_answered.
    unfold answered. cbn [written map]. now rewrite <- app_assoc.
  - assert (Z.land b 2047 = b) as Hmasked.
    { change 2047 with (Z.ones 11). rewrite Z.land_ones by lia.
      apply Z.mod_small. lia. }
    destruct (pc_word_of_masked_base new_epc b) as [Hlow Hhigh].
    rewrite Hmasked in Hlow, Hhigh. now split.
Qed.

Lemma pc_word_keeps_base_and_sets_length_witness :
  exists w,
    written (snd (write_tag_epc "" "11112222" 0
                    (reader_with initial_settings
                       (exchange "AT+READ=PC,0,2,"
                          ("+READ: AAAA,OK,3000" ++ CR ++ "+READ: BBBB,OK,3400")
                        ++ exchange "AT+WRT=EPC,0,11112222,"
                             ("+WRT: AAAA,OK" ++ CR ++ "+WRT: BBBB,OK")
                        ++ []))))
    = ([] ++ map (fun frame => (frame ++ CR)%string)
               ["AT+READ=PC,0,2,"; "AT+WRT=EPC,0,11112222,";
                _prepare_command "AT+WRT"
                  [Some (VStr "PC"); Some (VInt 0); Some (VStr (format_04X w));
                   Some (VStr "")]])%list /\
    Z.land w 0x07FF = 0x400 /\
    Z.shiftr w 11 = Py.len "11112222" / 4.
Proof.
  apply (pc_word_keeps_base_and_sets_length "11112222" 0
           (reader_with initial_settings
              (exchange "AT+READ=PC,0,2,"
                 ("+READ: AAAA,OK,3000" ++ CR ++ "+READ: BBBB,OK,3400")
               ++ exchange "AT+WRT=EPC,0,11112222,"
                    ("+WRT: AAAA,OK" ++ CR ++ "+WRT: BBBB,OK")
               ++ []))
           [("AAAA", inl "3000"); ("BBBB", inl "3400")]
           [("AAAA", "OK"); ("BBBB", "OK")] 0x400 []).
  - reflexivity.
  - discriminate.
  - repeat constructor.
  - discriminate.
  - repeat constructor.
  - reflexivity.
  - reflexivity.
Defined.

Lemma rewrite_by_tid_restores_mask_swapped_witness :
  written (snd (write_tag_epc "E2003412" "11112222" 0
                  (reader_with initial_settings
                     (rewrite_one_tag "E2003412" "11112222" 0 "EPC" 0 "3034"
                      ++ [line "AT+MSK=3034,0,EPC"; line "ERROR"]))))
  = ([] ++ map (fun frame => (frame ++ CR)%string)
             ["AT+MSK?"; "AT+MSK=TID,0,E2003412"; "AT+READ=PC,0,2,";
              "AT+WRT=EPC,0,11112222,"; "AT+WRT=PC,0,1000,"; "AT+MSK=3034,0,EPC"])%list.
Proof.
  apply (rewrite_by_tid_restores_mask_swapped "E2003412" "11112222" 0 "EPC" 0 "3034"
           (reader_with initial_settings
              (rewrite_one_tag "E2003412" "11112222" 0 "EPC" 0 "3034"
               ++ [line "AT+MSK=3034,0,EPC"; line "ERROR"]))
           [line "AT+MSK=3034,0,EPC"; line "ERROR"]).
  - discriminate.
  - reflexivity.
  - reflexivity.
  - discriminate.
  - reflexivity.
  - reflexivity.
Defined.

(** ** Settings, region and population size read back *)

Lemma getitem_beyond (s : string) (i : Z) : Py.len s <= i -> Py.getitem s i = None.
Proof.
  intros Hi. unfold Py.getitem. unfold Py.len in *.
  destruct (Z.ltb_spec i 0); [lia |].
  destruct (Z.ltb_spec i (Z.of_nat (String.length s))); [lia |].
  now rewrite andb_false_r.
Qed.

(** [set_inventory_settings] writes its frame, however the device answers,
    and mirrors the flags when the device accepts them. *)
Lemma set_inventory_settings_effect (new_only rssi tid : bool) (self : reader) :
  written (snd (set_inventory_settings new_only rssi tid self))
  = (written self
     ++ [("AT+INVS=" ++ Py.join "," (map py_str [flag new_only; flag rssi; flag tid])
          ++ CR)%string])%list /\
  (fst (set_inventory_settings new_only rssi tid self) = Returns tt ->
   inventory (_config (snd (set_inventory_settings new_only rssi tid self)))
   = Some {| only_new_tag := new_only; with_rssi := rssi; with_tid := tid |}).
Proof.
  unfold set_inventory_settings, io_bind.
  pose proof (send_command_state "AT+INVS"
                [Some (flag new_only); Some (flag rssi); Some (flag tid)] 2000 true self)
    as (Hwritten & _).
  destruct (_send_command "AT+INVS" _ 2000 true self) as [[lines|e| |] self'];
    (split; [exact Hwritten | (reflexivity || discriminate)]).
Qed.

(** X15: [get_inventory_settings] reads back what [set_inventory_settings]
    wrote.  Called on any reader, [set_inventory_settings] writes
    "AT+INVS=" and the three flags as 1 or 0, and mirrors the flags when
    the device accepts them; a device answering "AT+INVS?" with "+INVS: "
    and that same text makes [get_inventory_settings] return the three
    flags. *)
Theorem inventory_settings_round_trip (repr_lines : list string -> string)
    (new_only rssi tid : bool) (before self : reader) (rx : list event) :
  incoming self
  = (exchange "AT+INVS?"
       ("+INVS: " ++ Py.join "," (map py_str [flag new_only; flag rssi; flag tid]))
     ++ rx)%list ->
  written (snd (set_inventory_settings new_only rssi tid before))
  = (written before
     ++ [("AT+INVS=" ++ Py.join "," (map py_str [flag new_only; flag rssi; flag tid])
          ++ CR)%string])%list /\
  (fst (set_inventory_settings new_only rssi tid before) = Returns tt ->
   inventory (_config (snd (set_inventory_settings new_only rssi tid before)))
   = Some {| only_new_tag := new_only; with_rssi := rssi; with_tid := tid |}) /\
  get_inventory_settings repr_lines self
  = (Returns {| only_new_tag := new_only; with_rssi := rssi; with_tid := tid |},
     answered self ["AT+INVS?"] 3 rx).
Proof.
  intros Hrx.
  destruct (set_inventory_settings_effect new_only rssi tid before) as [Hwritten Hmirror].
  split; [exact Hwritten |]. split; [exact Hmirror |].
  unfold get_inventory_settings, io_bind, io_lift.
  destruct new_only, rssi, tid;
    now rewrite (send_command_exchange "AT+INVS?" [] _ _ _ _ Hrx) by discriminate.
Qed.

Lemma inventory_settings_round_trip_witness :
  written (snd (set_inventory_settings false true true
                  (reader_with rssi_only [line "AT+INVS=0,1,1"; line "OK"])))
  = ([] ++ [("AT+INVS=" ++ Py.join "," (map py_str [flag false; flag true; flag true])
             ++ CR)%string])%list /\
  (fst (set_inventory_settings false true true
          (reader_with rssi_only [line "AT+INVS=0,1,1"; line "OK"])) = Returns tt ->
   inventory (_config (snd (set_inventory_settings false true true
                              (reader_with rssi_only [line "AT+INVS=0,1,1"; line "OK"]))))
   = Some initial_settings) /\
  get_inventory_settings (Py.join ";")
    (reader_with rssi_only (exchange "AT+INVS?" "+INVS: 0,1,1" ++ []))
  = (Returns initial_settings,
     answered (reader_with rssi_only (exchange "AT+INVS?" "+INVS: 0,1,1" ++ []))
       ["AT+INVS?"] 3 []).
Proof.
  apply (inventory_settings_round_trip (Py.join ";") false true true
           (reader_with rssi_only [line "AT+INVS=0,1,1"; line "OK"])
           (reader_with rssi_only (exchange "AT+INVS?" "+INVS: 0,1,1" ++ [])) []).
  reflexivity.
Defined.

(** X16: an answer to "AT+INVS?" whose first line has fewer than twelve
    characters cannot hold the three flags: [get_inventory_settings] raises
    the protocol error "Not expected response for command AT+INVS? - "
    followed by the lines it got. *)
Theorem short_settings_answer_is_reported (repr_lines : list string -> string)
    (body : string) (self : reader) (rx : list event) :
  incoming self = (exchange "AT+INVS?" body ++ rx)%list ->
  body <> "" -> body <> "OK" -> body <> "ERROR" ->
  (String.length (hd "" (Py.split (ascii_of_nat 13) body)) < 12)%nat ->
  fst (get_inventory_settings repr_lines self)
  = Raises (RfidReaderException
      ("Not expected response for command AT+INVS? - "
       ++ repr_lines (Py.split (ascii_of_nat 13) body))).
Proof.
  intros Hrx Hbody Hok Herror Hshort.
  unfold get_inventory_settings, io_bind, io_lift.
  rewrite (send_command_exchange "AT+INVS?" [] _ _ _ _ Hrx) by (assumption || discriminate).
  cbn [fst]. set (lines := Py.split (ascii_of_nat 13) body) in *.
  pose proof (split_nonempty (ascii_of_nat 13) body) as Hlines. fold lines in Hlines.
  destruct lines as [|line0 rest]; [contradiction |]. cbn [hd] in Hshort.
  unfold parse_inventory_settings. rewrite nth_item_first. cbn [or_raise obind].
  assert (Py.getitem line0 11 = None) as Hlast
    by (apply getitem_beyond; unfold Py.len; lia).
  destruct (Py.getitem line0 7); cbn [or_raise obind]; [| reflexivity].
  destruct (Py.getitem line0 9); cbn [or_raise obind]; [| reflexivity].
  now rewrite Hlast.
Qed.

Lemma short_settings_answer_is_reported_witness :
  fst (get_inventory_settings (Py.join ";")
         (reader_with initial_settings (exchange "AT+INVS?" "+INVS: 0,1" ++ [])))
  = Raises (RfidReaderException
      ("Not expected response for command AT+INVS? - "
       ++ Py.join ";" (Py.split (ascii_of_nat 13) "+INVS: 0,1"))).
Proof.
  apply (short_settings_answer_is_reported (Py.join ";") "+INVS: 0,1"
           (reader_with initial_settings (exchange "AT+INVS?" "+INVS: 0,1" ++ [])) []).
  - reflexivity.
  - discriminate.
  - discriminate.
  - discriminate.
  - simpl. lia.
Defined.

(** X17: [get_region] and [get_tag_size] never raise their own "Not
    expected response" error.  The list the command returns has a first
    line, a slice of it cannot fail and splitting it gives at least one
    piece, so the region is the first line from its seventh character on
    and the size comes from the text between the fifth character and the
    first comma, whatever the line is. *)
Theorem region_and_size_never_report (repr_lines : list string -> string) (self : reader) :
  fst (get_region repr_lines self)
  = outcome_map (fun lines => Py.slice (hd "" lines) (Some 6) None)
      (fst (_send_command "AT+REG?" [] 2000 true self)) /\
  fst (get_tag_size repr_lines self)
  = obind (fst (_send_command "AT+Q?" [] 2000 true self))
      (fun lines =>
         obind (int10 (hd "" (Py.split "," (Py.slice (hd "" lines) (Some 4) None))))
           (fun q => if q <? 0 then Unmodelled else Returns (2 ^ q))).
Proof.
  split.
  - unfold get_region, io_bind, io_lift, outcome_map.
    pose proof (send_command_nonempty "AT+REG?" [] 2000 true self) as Hne.
    destruct (_send_command "AT+REG?" [] 2000 true self) as [[lines| | |] self'];
      try reflexivity.
    destruct lines as [|line0 rest]; [now destruct (Hne [] eq_refl) |].
    reflexivity.
  - unfold get_tag_size, io_bind, io_lift.
    pose proof (send_command_nonempty "AT+Q?" [] 2000 true self) as Hne.
    destruct (_send_command "AT+Q?" [] 2000 true self) as [[lines| | |] self'];
      try reflexivity.
    destruct lines as [|line0 rest]; [now destruct (Hne [] eq_refl) |].
    cbn [fst obind hd]. unfold parse_tag_size. rewrite nth_item_first.
    cbn [or_raise obind].
    pose proof (split_nonempty "," (Py.slice line0 (Some 4) None)) as Hsplit.
    destruct (Py.split "," (Py.slice line0 (Some 4) None)) as [|text pieces];
      [contradiction |].
    rewrite nth_item_first. cbn [or_raise obind hd].
    destruct (int10 text) as [q|e| |] eqn:Hint; try reflexivity.
    + cbn [obind]. now destruct (q <? 0).
    + apply int10_raises in Hint as ->. reflexivity.
Qed.

(** X18: the population size reads back as the power of two that was
    sent.  For a count [set_tag_size] turns into the exponent [q], a device
    answering "AT+Q?" with "+Q: " [q] "," and more makes [get_tag_size]
    return 2^q, which is at least the count and, for a count of one or
    more, less than twice the count. *)
Theorem tag_size_reads_back_rounded_up (repr_lines : list string -> string)
    (count q : Z) (rest : string) (self : reader) (rx : list event) :
  q_of count = Returns q ->
  Py.mem (ascii_of_nat 13) rest = false ->
  incoming self
  = (exchange "AT+Q?" ("+Q: " ++ Py.str_of_int q ++ "," ++ rest) ++ rx)%list ->
  get_tag_size repr_lines self = (Returns (2 ^ q), answered self ["AT+Q?"] 3 rx) /\
  count <= 2 ^ q /\ (1 <= count -> 2 ^ q < 2 * count).
Proof.
  intros Hq Hrest Hrx.
  destruct (q_of_least count) as (q' & Hq' & Hnonneg & Hupper & Hleast).
  rewrite Hq in Hq'. injection Hq' as <-.
  split; [| split; [assumption |]].
  - unfold get_tag_size, io_bind, io_lift.
    rewrite (send_command_exchange "AT+Q?" [] _ _ _ _ Hrx) by discriminate.
    rewrite split_no_sep
      by (rewrite !mem_append, (str_of_int_plain (ascii_of_nat 13)), Hrest; reflexivity).
    unfold parse_tag_size. rewrite nth_item_first. cbn [or_raise obind].
    change 4 with (Py.len "+Q: "). rewrite slice_after.
    change (Py.str_of_int q ++ "," ++ rest) with (Py.str_of_int q ++ String "," rest).
    rewrite split_field by now apply str_of_int_plain.
    rewrite nth_item_first. cbn [or_raise obind].
    rewrite int10_str_of_int. cbn [obind].
    destruct (Z.ltb_spec q 0); [lia | reflexivity].
  - intros Hcount. destruct (Z.eq_dec q 0) as [-> | Hpos]; [simpl; lia |].
    assert (2 ^ (q - 1) < count) as Hbelow.
    { destruct (Z.lt_ge_cases (2 ^ (q - 1)) count) as [|Hge]; [assumption |].
      specialize (Hleast (q - 1)). lia. }
    replace q with (Z.succ (q - 1)) at 1 by lia. rewrite Z.pow_succ_r by lia. lia.
Qed.

Lemma tag_size_reads_back_rounded_up_witness :
  get_tag_size (Py.join ";")
    (reader_with initial_settings
       (exchange "AT+Q?" ("+Q: " ++ Py.str_of_int 3 ++ "," ++ "0,8") ++ []))
  = (Returns (2 ^ 3),
     answered (reader_with initial_settings
                 (exchange "AT+Q?" ("+Q: " ++ Py.str_of_int 3 ++ "," ++ "0,8") ++ []))
       ["AT+Q?"] 3 []) /\
  5 <= 2 ^ 3 /\ (1 <= 5 -> 2 ^ 3 < 2 * 5).
Proof.
  apply (tag_size_reads_back_rounded_up (Py.join ";") 5 3 "0,8"
           (reader_with initial_settings
              (exchange "AT+Q?" ("+Q: " ++ Py.str_of_int 3 ++ "," ++ "0,8") ++ [])) []).
  - reflexivity.
  - reflexivity.
  - reflexivity.
Defined.

(** ** Initialisation *)

(** X19: when the initialisation of a UHF reader returns, it has written
    ATE1, AT+BINV, AT+BINVR and AT+INVS=0,1,1, in this order and nothing
    else, and the mirror holds the inventory settings it sent: all tags,
    with RSSI, with TID.  A protocol error on AT+BINV or AT+BINVR does not
    stop it. *)
Theorem initialise_sends_four_commands (self self' : reader) :
  UhfReaderGen2_initialise self = (Returns tt, self') ->
  written self' = (written self ++ map (fun c => (c ++ CR)%string) initial_commands)%list /\
  inventory (_config self') = Some initial_settings /\
  antenna (_config self') = antenna (_config self) /\
  error (_config self') = error (_config self).
Proof.
  unfold UhfReaderGen2_initialise, RfidReaderGen2_initialise, set_inventory_settings,
    pass_on_reader_error, io_bind, io_ret.
  pose proof (send_command_state "ATE1" [] 2000 false self) as H1.
  destruct (_send_command "ATE1" [] 2000 false self) as [[lines1|e1| |] s1];
    try discriminate.
  pose proof (send_command_state "AT+BINV" [] 2000 true s1) as H2.
  pose proof (send_command_state "AT+BINVR" [] 2000 true
                (snd (_send_command "AT+BINV" [] 2000 true s1))) as H3.
  pose proof (send_command_state "AT+INVS"
                [Some (flag false); Some (flag true); Some (flag true)] 2000 true
                (snd (_send_command "AT+BINVR" [] 2000 true
                        (snd (_send_command "AT+BINV" [] 2000 true s1))))) as H4.
  cbv zeta in H1, H2, H3, H4. cbn [snd] in H1.
  destruct H1 as (W1 & C1 & _), H2 as (W2 & C2 & _), H3 as (W3 & C3 & _),
    H4 as (W4 & C4 & _).
  destruct (_send_command "AT+BINV" [] 2000 true s1) as [[lines2|[]| |] s2];
    try discriminate; cbn [snd] in *;
    (destruct (_send_command "AT+BINVR" [] 2000 true s2) as [[lines3|[]| |] s3];
     try discriminate; cbn [snd] in *;
     (destruct (_send_command "AT+INVS" _ 2000 true s3) as [[lines4|e4| |] s4];
      try discriminate; cbn [snd] in *;
      intros [= <-]; unfold with_config; cbn [written _config inventory antenna error];
      rewrite W4, W3, W2, W1, C4, C3, C2, C1, <- !app_assoc; repeat split)).
Qed.

Lemma initialise_sends_four_commands_witness :
  written (snd (UhfReaderGen2_initialise
     {| written := []; incoming := [line "OK"; line "AT+BINV"; line "ERROR";
                                    line "AT+BINVR"; line "OK";
                                    line "AT+INVS=0,1,1"; line "OK"];
        ticks := 0; clock := 1700000000;
        _config := {| inventory := None; antenna := None; error := None |};
        _expected_reader := Some QRG2_expected_reader |}))
  = ([] ++ map (fun c => (c ++ CR)%string) initial_commands)%list /\
  inventory (_config (snd (UhfReaderGen2_initialise
     {| written := []; incoming := [line "OK"; line "AT+BINV"; line "ERROR";
                                    line "AT+BINVR"; line "OK";
                                    line "AT+INVS=0,1,1"; line "OK"];
        ticks := 0; clock := 1700000000;
        _config := {| inventory := None; antenna := None; error := None |};
        _expected_reader := Some QRG2_expected_reader |})))
  = Some initial_settings /\
  antenna (_config (snd (UhfReaderGen2_initialise
     {| written := []; incoming := [line "OK"; line "AT+BINV"; line "ERROR";
                                    line "AT+BINVR"; line "OK";
                                    line "AT+INVS=0,1,1"; line "OK"];
        ticks := 0; clock := 1700000000;
        _config := {| inventory := None; antenna := None; error := None |};
        _expected_reader := Some QRG2_expected_reader |}))) = None /\
  error (_config (snd (UhfReaderGen2_initialise
     {| written := []; incoming := [line "OK"; line "AT+BINV"; line "ERROR";
                                    line "AT+BINVR"; line "OK";
                                    line "AT+INVS=0,1,1"; line "OK"];
        ticks := 0; clock := 1700000000;
        _config := {| inventory := None; antenna := None; error := None |};
        _expected_reader := Some QRG2_expected_reader |}))) = None.
Proof.
  apply (initialise_sends_four_commands
     {| written := []; incoming := [line "OK"; line "AT+BINV"; line "ERROR";
                                    line "AT+BINVR"; line "OK";
                                    line "AT+INVS=0,1,1"; line "OK"];
        ticks := 0; clock := 1700000000;
        _config := {| inventory := None; antenna := None; error := None |};
        _expected_reader := Some QRG2_expected_reader |}).
  reflexivity.
Defined.

(** ** Antenna power *)

Lemma slice_beyond (s : string) (i : Z) : Py.len s <= i -> Py.slice s (Some i) None = "".
Proof.
  intros Hi. unfold Py.slice, Py.clamp_index. unfold Py.len in *.
  destruct (Z.ltb_spec i 0); [lia |].
  rewrite Z.min_r by lia. rewrite Z.sub_diag. apply substring_none.
Qed.

(** [set_power] writes its frame, however the device answers. *)
Lemma set_power_written (power : Z) (self : reader) :
  written (snd (set_power power self))
  = (written self ++ [("AT+PWR=" ++ Py.str_of_int power ++ CR)%string])%list.
Proof.
  unfold set_power, io_bind, io_ret.
  pose proof (send_command_state "AT+PWR" [Some (VInt power)] 2000 true self)
    as (Hwritten & _).
  now destruct (_send_command "AT+PWR" _ 2000 true self) as [[lines|e| |] self'].
Qed.

(** X20: the antenna power reads back as it was set, and an answer too
    short to hold a number is a ValueError.  Called on any reader,
    [set_power] writes "AT+PWR=" and the number, and [get_power] returns
    the number a device answers behind "+PWR: "; when the first line of the
    answer has six characters or fewer the number's text is empty and [int]
    fails with ValueError, which the driver's handler for IndexError lets
    through. *)
Theorem power_reads_back (repr_lines : list string -> string) (before self : reader)
    (rx : list event) :
  (forall power,
     written (snd (set_power power before))
     = (written before ++ [("AT+PWR=" ++ Py.str_of_int power ++ CR)%string])%list) /\
  (forall power,
     incoming self = (exchange "AT+PWR?" ("+PWR: " ++ Py.str_of_int power) ++ rx)%list ->
     get_power repr_lines self = (Returns power, answered self ["AT+PWR?"] 3 rx)) /\
  (forall body,
     incoming self = (exchange "AT+PWR?" body ++ rx)%list ->
     body <> "" -> body <> "OK" -> body <> "ERROR" ->
     (String.length (hd "" (Py.split (ascii_of_nat 13) body)) <= 6)%nat ->
     fst (get_power repr_lines self) = Raises ValueError).
Proof.
  split; [intros power; apply set_power_written |]. split.
  - intros power Hrx.
    unfold get_power, io_bind, io_lift.
    rewrite (send_command_exchange "AT+PWR?" [] _ _ _ _ Hrx) by discriminate.
    rewrite split_no_sep
      by (rewrite mem_append, (str_of_int_plain (ascii_of_nat 13)); reflexivity).
    unfold parse_power. rewrite nth_item_first. cbn [or_raise obind].
    change 6 with (Py.len "+PWR: "). now rewrite slice_after, int10_str_of_int.
  - intros body Hrx Hbody Hok Herror Hshort.
    unfold get_power, io_bind, io_lift.
    rewrite (send_command_exchange "AT+PWR?" [] _ _ _ _ Hrx) by (assumption || discriminate).
    pose proof (split_nonempty (ascii_of_nat 13) body) as Hlines.
    destruct (Py.split (ascii_of_nat 13) body) as [|line0 rest]; [contradiction |].
    cbn [hd] in Hshort. unfold parse_power. rewrite nth_item_first.
    cbn [or_raise obind]. rewrite slice_beyond by (unfold Py.len; lia).
    reflexivity.
Qed.

Lemma power_reads_back_witness :
  written (snd (set_power 9 (reader_with initial_settings [line "AT+PWR=9"; line "OK"])))
  = ([] ++ [("AT+PWR=" ++ Py.str_of_int 9 ++ CR)%string])%list /\
  get_power (Py.join ";")
    (reader_with initial_settings (exchange "AT+PWR?" "+PWR: 9" ++ []))
  = (Returns 9,
     answered (reader_with initial_settings (exchange "AT+PWR?" "+PWR: 9" ++ []))
       ["AT+PWR?"] 3 []) /\
  fst (get_power (Py.join ";")
         (reader_with initial_settings (exchange "AT+PWR?" "+PWR:" ++ [])))
  = Raises ValueError.
Proof.
  split; [| split].
  - apply (proj1 (power_reads_back (Py.join ";")
                    (reader_with initial_settings [line "AT+PWR=9"; line "OK"])
                    (reader_with initial_settings (exchange "AT+PWR?" "+PWR: 9" ++ []))
                    []) 9).
  - apply (proj1 (proj2 (power_reads_back (Py.join ";")
                    (reader_with initial_settings [line "AT+PWR=9"; line "OK"])
                    (reader_with initial_settings (exchange "AT+PWR?" "+PWR: 9" ++ []))
                    [])) 9).
    reflexivity.
  - apply (proj2 (proj2 (power_reads_back (Py.join ";")
                    (reader_with initial_settings [line "AT+PWR=9"; line "OK"])
                    (reader_with initial_settings (exchange "AT+PWR?" "+PWR:" ++ []))
                    [])) "+PWR:").
    + reflexivity.
    + discriminate.
    + discriminate.
    + discriminate.
    + simpl. lia.
Defined.

(** ** Identity *)

Lemma nth_item_beyond {A} (l : list A) (i : Z) :
  Z.of_nat (List.length l) <= i -> Py.nth_item l i = None.
Proof.
  intros Hi. unfold Py.nth_item.
  destruct (Z.ltb_spec i 0); [lia |].
  destruct (Z.ltb_spec i (Z.of_nat (List.length l))); [lia |].
  now rewrite andb_false_r.
Qed.

(** X21: an answer to ATI with fewer than three lines is reported as
    "Wrong reader - Not expected info response - " followed by the lines,
    whatever reader is expected and before any name or version is
    compared. *)
Theorem short_identity_is_reported
    (repr_lines : list string -> string) (repr_float : Z -> string)
    (self : reader) (lines : list string) :
  fst (_send_command "ATI" [] 2000 true self) = Returns lines ->
  (List.length lines < 3)%nat ->
  fst (get_reader_info repr_lines repr_float self)
  = Raises (RfidReaderException
      ("Wrong reader - Not expected info response - " ++ repr_lines lines)).
Proof.
  intros Hsend Hshort. unfold get_reader_info, io_bind.
  destruct (_send_command "ATI" [] 2000 true self) as [res self1].
  cbn [fst] in Hsend. subst res. cbn [fst].
  unfold check_reader_info.
  assert (Py.nth_item lines 2 = None) as Hthird by (apply nth_item_beyond; lia).
  destruct (Py.nth_item lines 0); cbn [or_raise obind]; [| reflexivity].
  destruct (Py.nth_item lines 1); cbn [or_raise obind]; [| reflexivity].
  now rewrite Hthird.
Qed.

Lemma short_identity_is_reported_witness :
  fst (get_reader_info (Py.join ";") Py.str_of_int
         (reader_with initial_settings
            (exchange "ATI" ("+SW: QRG2 0100" ++ CR ++ "+HW: QRG2 0100"))))
  = Raises (RfidReaderException
      ("Wrong reader - Not expected info response - "
       ++ Py.join ";" ["+SW: QRG2 0100"; "+HW: QRG2 0100"])).
Proof.
  apply (short_identity_is_reported (Py.join ";") Py.str_of_int
           (reader_with initial_settings
              (exchange "ATI" ("+SW: QRG2 0100" ++ CR ++ "+HW: QRG2 0100")))
           ["+SW: QRG2 0100"; "+HW: QRG2 0100"]).
  - reflexivity.
  - simpl. lia.
Defined.

(** ** EPC rewrite: fields the check accepts and rejects *)

Lemma check_pc_uniform (b : Z) (tags : list tag) :
  b <> 0 -> Forall (fun t => pc_base t = Returns b) tags ->
  check_pc b tags = Returns b.
Proof.
  intros Hb. induction tags as [|t tags IH]; intros Hall; [reflexivity |].
  inversion Hall as [|? ? Ht Hrest]; subst. cbn [check_pc].
  unfold pc_base in Ht. destruct (int16 (py_str (Tag.get_data t))) as [n| | |];
    try discriminate. cbn [obind] in *. injection Ht as Ht. rewrite Ht.
  destruct (Z.eqb_spec b 0); [contradiction |]. rewrite Z.eqb_refl. cbn [negb].
  now apply IH.
Qed.

Lemma check_pc_mixed (b : Z) (tags : list tag) :
  b <> 0 ->
  Forall (fun t => exists b', pc_base t = Returns b') tags ->
  Exists (fun t => pc_base t <> Returns b) tags ->
  check_pc b tags = Raises (RfidReaderException different_tags_message).
Proof.
  intros Hb. induction tags as [|t tags IH]; intros Hall Hsome;
    [now apply Exists_nil in Hsome |].
  inversion Hall as [|? ? [b' Ht] Hrest]; subst. cbn [check_pc].
  unfold pc_base in Ht. destruct (int16 (py_str (Tag.get_data t))) as [n| | |] eqn:Hn;
    try discriminate. cbn [obind] in *. injection Ht as Ht.
  destruct (Z.eqb_spec b 0); [contradiction |].
  destruct (Z.eqb_spec (Z.land n 2047) b) as [Hsame | Hother]; cbn [negb]; [| reflexivity].
  apply IH; [assumption |].
  apply Exists_cons in Hsome as [Hhere | Hlater]; [| assumption].
  exfalso. apply Hhere. unfold pc_base. rewrite Hn. cbn [obind]. now rewrite Hsame.
Qed.

(** X22: the check before an EPC rewrite, for a field whose first tag has
    a non-zero PC base (the eleven low bits of its PC word) and whose other
    tags all have a readable PC word.  When they all have this base the
    check passes with it; when one has another base the check raises
    "Different tags are in the field ...". *)
Theorem pc_check_on_nonzero_base (first : tag) (others : list tag) (b : Z) :
  pc_base first = Returns b -> b <> 0 ->
  Forall (fun t => exists b', pc_base t = Returns b') others ->
  check_pc 0 (first :: others)
  = if forallb (has_base b) others
    then Returns b
    else Raises (RfidReaderException different_tags_message).
Proof.
  intros Hfirst Hb Hothers. cbn [check_pc].
  unfold pc_base in Hfirst.
  destruct (int16 (py_str (Tag.get_data first))) as [n| | |]; try discriminate.
  cbn [obind] in *. injection Hfirst as ->. cbn [Z.eqb].
  destruct (forallb _ others) eqn:Hall.
  - apply check_pc_uniform; [assumption |].
    rewrite forallb_forall in Hall. apply Forall_forall. intros t Ht.
    apply list_elem_of_In, Hall in Ht. unfold has_base in Ht.
    destruct (pc_base t) as [b'| | |]; try discriminate.
    apply Z.eqb_eq in Ht. now subst.
  - apply check_pc_mixed; [assumption | assumption |].
    apply Exists_exists.
    assert (exists t, In t others /\ has_base b t = false)
      as (t & Hin & Ht).
    { clear Hothers. induction others as [|t others IH]; [discriminate |].
      cbn [forallb] in Hall. apply andb_false_iff in Hall as [Hhere | Hlater].
      - exists t. split; [now left | assumption].
      - destruct (IH Hlater) as (t' & Hin & Ht'). exists t'.
        split; [now right | assumption]. }
    exists t. split; [now apply list_elem_of_In |].
    intros Hbase. unfold has_base in Ht. rewrite Hbase, Z.eqb_refl in Ht. discriminate.
Qed.

Lemma pc_check_on_nonzero_base_witness :
  check_pc 0 [read_tag "PC" 0 ("BBBB", inl "3400"); read_tag "PC" 0 ("AAAA", inl "3000")]
  = if forallb (has_base 0x400) [read_tag "PC" 0 ("AAAA", inl "3000")]
    then Returns 0x400
    else Raises (RfidReaderException different_tags_message).
Proof.
  apply (pc_check_on_nonzero_base (read_tag "PC" 0 ("BBBB", inl "3400"))
           [read_tag "PC" 0 ("AAAA", inl "3000")] 0x400).
  - reflexivity.
  - discriminate.
  - repeat constructor. now exists 0.
Defined.

(** X23: an error whose body has its last '>' in front of its last '<'
    loses its text: the slice between the two is empty, and the protocol
    error [_send_command] raises has the empty message. *)
Theorem reversed_brackets_give_empty_message
    (command : string) (parameters : list (option value)) (timeout : Z)
    (command_response : bool) (self : reader)
    (pre rx : list event) (a m p : string) (now elapsed : Z) (c1 c2 : ascii) :
  incoming self
  = (pre ++ Rx elapsed (Some ("ERROR" ++ String c1 (String c2 ""))%string) :: rx)%list ->
  still_polling (_prepare_command command parameters) (ticks self + timeout) ""
    (negb command_response) (ticks self) pre
  = Some (a ++ ">" ++ m ++ "<" ++ p, true, now) ->
  Py.mem ">" m = false -> Py.mem ">" p = false -> Py.mem "<" p = false ->
  fst (_send_command command parameters timeout command_response self)
  = Raises (RfidReaderException "").
Proof.
  intros Hrx Hpre Hm Hp Hq.
  rewrite send_command_unfold, Hrx, (poll_app _ _ _ _ _ _ _ _ _ _ Hpre).
  rewrite poll_error_line. cbn [fst]. now rewrite error_detail_inverted.
Qed.

Lemma reversed_brackets_give_empty_message_witness :
  fst (_send_command "AT+KILL" [Some (VStr "1234")] 2000 true
         (reader_with initial_settings
            [line "AT+KILL=1234"; line ">ACCESS ERROR<"; line "ERROR"]))
  = Raises (RfidReaderException "").
Proof.
  apply (reversed_brackets_give_empty_message "AT+KILL" [Some (VStr "1234")] 2000 true
           (reader_with initial_settings
              [line "AT+KILL=1234"; line ">ACCESS ERROR<"; line "ERROR"])
           [line "AT+KILL=1234"; line ">ACCESS ERROR<"] [] "" "ACCESS ERROR" ""
           2 1 (ascii_of_nat 13) (ascii_of_nat 10)); reflexivity.
Defined.

(** ** Inventory: the configured antenna *)

Lemma parse_inventory_returns_same_reader (responses : list string)
    (timestamp split_index : Z) (ignore_error is_report : bool) (self : reader)
    (tags : list tag) :
  fst (_parse_inventory responses timestamp split_index ignore_error is_report self)
  = Returns tags ->
  snd (_parse_inventory responses timestamp split_index ignore_error is_report self) = self.
Proof.
  unfold _parse_inventory.
  destruct (inventory (_config self)); [| discriminate].
  destruct (inventory_lines _ _ _ _ _ _ _ responses) as [st| | |]; try discriminate.
  destruct (negb (String.eqb (pass_error st) ""));
    destruct (negb (pass_antenna st =? 0)); (discriminate || reflexivity).
Qed.

(** X24: with an antenna set in the mirror, every tag [get_inventory]
    returns carries that antenna, whatever antenna the finished round of
    the device named. *)
Theorem inventory_carries_configured_antenna (ignore_error : bool) (self : reader)
    (a : Z) (tags : list tag) :
  antenna (_config self) = Some a -> a <> 0 ->
  fst (get_inventory ignore_error self) = Returns tags ->
  Forall (fun t => Tag.get_antenna t = VInt a) tags.
Proof.
  intros Hantenna Ha. unfold get_inventory, io_bind.
  pose proof (send_command_state "AT+INV" [] 2000 true self) as (_ & Hconfig & _).
  destruct (_send_command "AT+INV" [] 2000 true self) as [[lines| | |] s1];
    try discriminate.
  cbn [snd] in Hconfig.
  pose proof (parse_inventory_returns_same_reader lines (clock s1) 6 ignore_error
                false s1) as Hsame.
  destruct (_parse_inventory lines (clock s1) 6 ignore_error false s1)
    as [[found| | |] s2]; try discriminate.
  cbn [fst snd] in Hsame. rewrite (Hsame found eq_refl), Hconfig, Hantenna.
  destruct (Z.eqb_spec a 0); [contradiction |]. cbn [negb fst].
  intros [= <-]. apply Forall_fmap, Forall_forall. intros t _.
  unfold Tag.get_antenna, Tag.set_antenna, Tag.set_value, Tag.get. cbn.
  now rewrite lookup_insert_eq.
Qed.

Lemma inventory_carries_configured_antenna_witness :
  Forall (fun t => Tag.get_antenna t = VInt 2)
    [Tag.set_antenna 2
       (UhfTag.set_rssi 1807
          (Tag.set_tid "E200" (Tag.set_timestamp 1700000000 (UhfTag.set_epc "AAAA" ∅))))].
Proof.
  apply (inventory_carries_configured_antenna false
           {| written := [];
              incoming := exchange "AT+INV"
                            ("+INV: AAAA,E200,1807" ++ CR ++ "+INV: <ROUND FINISHED, ANT=1>");
              ticks := 0; clock := 1700000000;
              _config := {| inventory := Some initial_settings; antenna := Some 2;
                            error := None |};
              _expected_reader := Some QRG2_expected_reader |} 2).
  - reflexivity.
  - discriminate.
  - reflexivity.
Defined.
